(** * pdf2pptx: a shallow embedding of [pdf2pptx.py] and its properties

    The script converts a PDF into a PPTX: it creates a temporary directory,
    runs ImageMagick's [convert] on the PDF, parses the slide size, adds one
    slide per [page-<index>.<ext>] image and saves the presentation.

    The embedding has three layers:
    - the part of the Python runtime the script relies on ([str.split],
      [float], [str] of an [int], [os.path]), written out as functions;
    - the operating system and the python-pptx library, whose failures the
      script cannot control: they are the fields of an environment record
      [Env], and every theorem holds for every environment;
    - the script itself ([error_and_exit], [parse_slide_size], [main]) in a
      state-and-exception monad over a [world] made of the file system, the
      logger level and the list of observable events.

    A [world] is the state of a process started to run the script, on a
    POSIX system, with UTF-8 as the encoding of the command line; the
    conversion command is taken to return. [main] is the body of [main()]
    once [argparse] has returned the namespace, [program] is [main()] from
    its first line. *)

From stdpp Require Import gmap strings list pretty.
From Stdlib Require Import ZArith Ascii Floats.SpecFloat.

Local Open Scope Z_scope.

(** ** Python runtime: characters and strings *)

Module PyStr.

Definition is_digit (c : ascii) : bool :=
  bool_decide (is_Some (Ascii.is_nat c)).

Definition digit_val (c : ascii) : Z :=
  Z.of_nat (default 0%nat (Ascii.is_nat c)).

(** [Py_TOLOWER] on the ASCII letters. *)
Definition to_lower (c : ascii) : ascii :=
  let n := N_of_ascii c in
  if ((65 <=? n) && (n <=? 90))%N then ascii_of_N (n + 32) else c.

Definition chars (s : string) : list ascii := String.list_ascii_of_string s.

(** [s.split(sep)] for a one-character separator: the pieces between the
    occurrences of [sep], empty pieces included. *)
Fixpoint split (sep : ascii) (s : string) : list string :=
  match s with
  | EmptyString => [EmptyString]
  | String c s' =>
      if decide (c = sep) then EmptyString :: split sep s'
      else match split sep s' with
           | [] => [String c EmptyString]
           | p :: ps => String c p :: ps
           end
  end.

(** [s.count(c)]. *)
Fixpoint count (c : ascii) (s : string) : nat :=
  match s with
  | EmptyString => 0%nat
  | String a s' => ((if decide (a = c) then 1 else 0) + count c s')%nat
  end.

(** [sep.join(parts)]. *)
Fixpoint join (sep : string) (parts : list string) : string :=
  match parts with
  | [] => ""
  | [p] => p
  | p :: ps => p +:+ sep +:+ join sep ps
  end.

(** [s.rfind(c)]: the last index of [c], or -1. *)
Fixpoint rfind_from (c : ascii) (i : Z) (found : Z) (s : string) : Z :=
  match s with
  | EmptyString => found
  | String a s' => rfind_from c (i + 1) (if decide (a = c) then i else found) s'
  end.
Definition rfind (c : ascii) (s : string) : Z := rfind_from c 0 (-1) s.

(** The slice [s[i:j]] for [0 <= i]. *)
Definition slice (i j : Z) (s : string) : string :=
  String.substring (Z.to_nat i) (Z.to_nat (j - i)) s.

Definition len (s : string) : Z := Z.of_nat (String.length s).

Definition startswith (c : ascii) (s : string) : bool :=
  match s with
  | String a _ => bool_decide (a = c)
  | EmptyString => false
  end.

Fixpoint endswith (c : ascii) (s : string) : bool :=
  match s with
  | EmptyString => false
  | String a EmptyString => bool_decide (a = c)
  | String _ s' => endswith c s'
  end.

Definition nl : string := String "010"%char EmptyString.

End PyStr.

(** ** Python runtime: [float]

    A Python [float] is an IEEE 754 binary64 value; [spec_float] with
    [prec = 53] and [emax = 1024] is exactly that set of values (one NaN). *)

Module PyFloat.

Definition prec : Z := 53.
Definition emax : Z := 1024.

(** The binary64 value nearest to [m * 10^e10] (ties to even), the value of
    a decimal numeral with digits [m] and decimal exponent [e10], for the
    float literals of the script and for [float(str)]. Too large a value
    becomes an infinity, too small a one a zero, as in CPython. *)
Definition of_decimal (neg : bool) (m e10 : Z) : spec_float :=
  if m =? 0 then S754_zero neg
  else
    let num := m * 10 ^ Z.max 0 e10 in
    let den := 10 ^ Z.max 0 (- e10) in
    let '(q, e2, loc) := SFdiv_core_binary prec emax num 0 den 0 in
    binary_round_aux prec emax neg q e2 loc.

(** A positive float literal of the source, such as [13.3333]. *)
Definition lit (m e10 : Z) : spec_float := of_decimal false m e10.

(** [float * int]: the int is converted exactly, the product is rounded. *)
Definition mul_int (x : spec_float) (n : Z) : spec_float :=
  SFmul prec emax x (binary_normalize prec emax n 0 false).

(** [int(x)]: truncation towards zero; [None] for NaN and the infinities,
    where Python raises [ValueError] and [OverflowError]. *)
Definition to_int (x : spec_float) : option Z :=
  match x with
  | S754_zero _ => Some 0
  | S754_finite s m e =>
      let a := if 0 <=? e then Z.pos m * 2 ^ e else Z.pos m / 2 ^ (- e) in
      Some (if s then - a else a)
  | S754_infinity _ | S754_nan => None
  end.

(** *** Text outside ASCII

    A [string] holds the UTF-8 bytes of the Python [str]; for a command-line
    argument these are the bytes of [argv]. Before it parses, [float]
    replaces every Unicode white space by a space and every Unicode decimal
    digit by its ASCII digit, and fails on any other character from U+007F
    on. Bytes that are not UTF-8 reach Python as lone surrogates, which are
    neither, so they make [float] fail as well. The two tables are those of
    Unicode 14.0, the database of CPython 3.11; later versions add scripts
    to the second one. *)

Local Open Scope N_scope.

(** The payload of a continuation byte [10xxxxxx]. *)
Definition continuation (c : ascii) : option N :=
  let n := N_of_ascii c in
  if (0x80 <=? n) && (n <? 0xC0) then Some (n - 0x80) else None.

(** [str.isspace] from U+007F on. *)
Definition unicode_space (cp : N) : bool :=
  bool_decide (cp ∈ [0x85; 0xA0; 0x1680; 0x2028; 0x2029; 0x202F; 0x205F; 0x3000])
  || ((0x2000 <=? cp) && (cp <=? 0x200A)).

(** The digit zero of each script outside ASCII; the digits one to nine are
    the nine code points that follow it. *)
Definition decimal_zeros : list N :=
  [
    0x660; 0x6F0; 0x7C0; 0x966; 0x9E6; 0xA66; 0xAE6; 0xB66;
    0xBE6; 0xC66; 0xCE6; 0xD66; 0xDE6; 0xE50; 0xED0; 0xF20;
    0x1040; 0x1090; 0x17E0; 0x1810; 0x1946; 0x19D0; 0x1A80; 0x1A90;
    0x1B50; 0x1BB0; 0x1C40; 0x1C50; 0xA620; 0xA8D0; 0xA900; 0xA9D0;
    0xA9F0; 0xAA50; 0xABF0; 0xFF10; 0x104A0; 0x10D30; 0x11066; 0x110F0;
    0x11136; 0x111D0; 0x112F0; 0x11450; 0x114D0; 0x11650; 0x116C0; 0x11730;
    0x118E0; 0x11950; 0x11C50; 0x11D50; 0x11DA0; 0x16A60; 0x16AC0; 0x16B50;
    0x1D7CE; 0x1D7D8; 0x1D7E2; 0x1D7EC; 0x1D7F6; 0x1E140; 0x1E2F0; 0x1E950;
    0x1FBF0 ].

(** The value of a decimal digit outside ASCII. *)
Definition unicode_decimal (cp : N) : option N :=
  (λ zero, cp - zero)
    <$> List.find (λ zero, (zero <=? cp) && (cp <? zero + 10)) decimal_zeros.

(** What [float] reads for the character [cp]; [None] when it gives up. *)
Definition to_ascii (cp : N) : option ascii :=
  if cp <? 0x7F then Some (ascii_of_N cp)
  else if unicode_space cp then Some " "%char
  else (λ d, ascii_of_N (0x30 + d)) <$> unicode_decimal cp.

(** The ASCII text that [float] parses, from the UTF-8 bytes: one to four
    bytes per character, in the shortest form, surrogates excluded. *)
Fixpoint to_ascii_text (l : list ascii) : option (list ascii) :=
  match l with
  | [] => Some []
  | b0 :: l1 =>
      let n0 := N_of_ascii b0 in
      if n0 <? 0x80 then
        c ← to_ascii n0; (c ::.) <$> to_ascii_text l1
      else if (0xC2 <=? n0) && (n0 <? 0xE0) then
        match l1 with
        | b1 :: l2 =>
            c1 ← continuation b1;
            c ← to_ascii ((n0 - 0xC0) * 0x40 + c1);
            (c ::.) <$> to_ascii_text l2
        | _ => None
        end
      else if (0xE0 <=? n0) && (n0 <? 0xF0) then
        match l1 with
        | b1 :: b2 :: l3 =>
            c1 ← continuation b1;
            c2 ← continuation b2;
            let cp := (n0 - 0xE0) * 0x1000 + c1 * 0x40 + c2 in
            if (cp <? 0x800) || ((0xD800 <=? cp) && (cp <? 0xE000)) then None
            else c ← to_ascii cp; (c ::.) <$> to_ascii_text l3
        | _ => None
        end
      else if (0xF0 <=? n0) && (n0 <? 0xF5) then
        match l1 with
        | b1 :: b2 :: b3 :: l4 =>
            c1 ← continuation b1;
            c2 ← continuation b2;
            c3 ← continuation b3;
            let cp := (n0 - 0xF0) * 0x40000 + c1 * 0x1000 + c2 * 0x40 + c3 in
            if (cp <? 0x10000) || (0x110000 <=? cp) then None
            else c ← to_ascii cp; (c ::.) <$> to_ascii_text l4
        | _ => None
        end
      else None
  end.

Local Close Scope N_scope.

(** *** Parsing, as [float(str)] does

    CPython turns the text into ASCII as above, strips ASCII white space at
    both ends, checks and removes underscores (each one must sit between two
    digits), then reads an optional sign followed by [inf], [infinity] or
    [nan] in any case, or by a decimal numeral with an optional exponent;
    the whole text must be consumed. (Numerals of more than 10^9 digits,
    which CPython refuses, cannot be passed on a command line and are not
    singled out.) *)

Fixpoint lstrip (l : list ascii) : list ascii :=
  match l with
  | c :: l' => if Ascii.is_space c then lstrip l' else l
  | [] => []
  end.

Definition strip (l : list ascii) : list ascii :=
  rev (lstrip (rev (lstrip l))).

Fixpoint drop_underscores (prev : ascii) (l : list ascii) : option (list ascii) :=
  match l with
  | [] => if decide (prev = "_"%char) then None else Some []
  | c :: l' =>
      if decide (c = "_"%char) then
        if PyStr.is_digit prev then drop_underscores c l' else None
      else if bool_decide (prev = "_"%char) && negb (PyStr.is_digit c) then None
      else (c ::.) <$> drop_underscores c l'
  end.

(** The longest prefix of digits, and what follows it. *)
Fixpoint span_digits (l : list ascii) : list ascii * list ascii :=
  match l with
  | c :: l' =>
      if PyStr.is_digit c then
        let '(d, r) := span_digits l' in (c :: d, r)
      else ([], l)
  | [] => ([], [])
  end.

Definition digits_val (d : list ascii) : Z :=
  fold_left (λ acc c, 10 * acc + PyStr.digit_val c) d 0.

Definition take_sign (l : list ascii) : bool * list ascii :=
  match l with
  | c :: l' =>
      if decide (c = "-"%char) then (true, l')
      else if decide (c = "+"%char) then (false, l')
      else (false, l)
  | [] => (false, [])
  end.

Definition is_word (w : string) (l : list ascii) : bool :=
  bool_decide (PyStr.to_lower <$> l = PyStr.chars w).

Definition parse_exponent (l : list ascii) : option Z :=
  match l with
  | [] => Some 0
  | c :: l' =>
      if bool_decide (c = "e"%char) || bool_decide (c = "E"%char) then
        let '(eneg, r) := take_sign l' in
        let '(ed, r') := span_digits r in
        match ed, r' with
        | _ :: _, [] => Some (if eneg then - digits_val ed else digits_val ed)
        | _, _ => None
        end
      else None
  end.

Definition parse_number (neg : bool) (l : list ascii) : option spec_float :=
  let '(ip, r1) := span_digits l in
  let '(fp, r2) :=
    match r1 with
    | c :: r' => if decide (c = "."%char) then span_digits r' else ([], r1)
    | [] => ([], r1)
    end in
  match ip ++ fp with
  | [] => None
  | ds =>
      e ← parse_exponent r2;
      Some (of_decimal neg (digits_val ds) (e - Z.of_nat (length fp)))
  end.

Definition parse_signed (l : list ascii) : option spec_float :=
  let '(neg, r) := take_sign l in
  if is_word "inf" r || is_word "infinity" r then Some (S754_infinity neg)
  else if is_word "nan" r then Some S754_nan
  else parse_number neg r.

(** [float(s)]: [None] stands for [ValueError]. *)
Definition float (s : string) : option spec_float :=
  text ← to_ascii_text (PyStr.chars s);
  match strip text with
  | [] => None
  | l => drop_underscores "000"%char l ≫= parse_signed
  end.

End PyFloat.

(** ** Python runtime: [os.path] (POSIX flavour) *)

Module OsPath.

(** [posixpath.basename]: what follows the last slash. *)
Definition basename (p : string) : string :=
  let i := PyStr.rfind "/" p + 1 in
  PyStr.slice i (PyStr.len p) p.

Definition all_dots (s : string) : bool :=
  forallb (λ c, bool_decide (c = "."%char)) (PyStr.chars s).

(** [posixpath.splitext]: the extension starts at the last dot, unless that
    dot is before the last slash or only dots precede it in the file name. *)
Definition splitext (p : string) : string * string :=
  let sepIndex := PyStr.rfind "/" p in
  let dotIndex := PyStr.rfind "." p in
  if (sepIndex <? dotIndex) && negb (all_dots (PyStr.slice (sepIndex + 1) dotIndex p))
  then (PyStr.slice 0 dotIndex p, PyStr.slice dotIndex (PyStr.len p) p)
  else (p, "").

(** [posixpath.join] of two components. *)
Definition join (a b : string) : string :=
  if PyStr.startswith "/" b then b
  else if bool_decide (a = "") || PyStr.endswith "/" a then a +:+ b
  else a +:+ "/" +:+ b.

End OsPath.

(** ** The world the script runs in *)

(** The file system: what is at each path. *)
Inductive node := File | Dir.

Global Instance node_eq_dec : EqDecision node.
Proof. solve_decision. Defined.

Inductive log_level := INFO | WARNING | ERROR.

Global Instance log_level_eq_dec : EqDecision log_level.
Proof. solve_decision. Defined.

Definition levelno (l : log_level) : Z :=
  match l with INFO => 20 | WARNING => 30 | ERROR => 40 end.

(** The python-pptx document: a picture shape, a slide, a presentation. The
    lengths are in English Metric Units, as python-pptx stores them. *)
Record Picture := {
  image_file : string;
  left : Z;
  top : Z;
  width : Z;
  height : Z
}.

Record Slide := {
  layout : nat;
  shapes : list Picture
}.

Record Presentation := {
  slide_width : Z;
  slide_height : Z;
  slides : list Slide
}.

(** What the script does to the outside, in the order it does it. A call is
    recorded when it is made, whether it succeeds or not. *)
Inductive event :=
  | EvLog (level : log_level) (msg : string)
  | EvMkdir (path : string)
  | EvRun (cmd : list string)
  | EvRmtree (path : string) (ignore_errors : bool)
  | EvSave (path : string) (prs : Presentation).

Record world := {
  fs : gmap string node;
  logger_level : log_level;
  events : list event
}.

(** The outcome of running the external command: it could not be started
    ([OSError]), or it ran, left the file system in some state and exited. *)
Inductive proc_result :=
  | SpawnFailed (msg : string)
  | Exited (status : Z) (fs' : gmap string node).

(** The environment: the choices of the operating system, of the external
  tool and of python-pptx. [None] means that the call succeeds. *)
Record Env := {
(** [os.mkdir] on a free path may still fail: the [OSError] text. *)
mkdir_error : string → gmap string node → option string;
(** [subprocess.run(cmd)]. *)
run_process : list string → gmap string node → proc_result;
(** [str(e)] of the [CalledProcessError] for a command and its status. *)
called_process_error_str : list string → Z → string;
(** [shutil.rmtree] may fail part-way: the error text and what is left.
    The first argument is [ignore_errors]. *)
rmtree_error : bool → string → gmap string node → option (string * gmap string node);
(** python-pptx refusing a slide dimension (a [ValueError] text). *)
slide_size_error : Z → option string;
(** python-pptx failing to read an image file. *)
add_picture_error : string → gmap string node → option string;
(** [Presentation.save] failing, for instance on an unwritable path. *)
save_error : string → gmap string node → option string
}.

(** Exceptions leaving a function: [sys.exit], or an error nobody catches. *)
Inductive exn :=
  | SystemExit (code : Z)
  | Uncaught (kind msg : string).

Inductive res (A : Type) :=
  | Ret (a : A)
  | Raise (e : exn).
Global Arguments Ret {A} a.
Global Arguments Raise {A} e.

(** The result of a computation: a value or an exception with the world it
    leaves, or no answer within the given number of loop iterations. *)
Inductive outcome (A : Type) :=
  | Done (r : res A) (w : world)
  | OutOfFuel.
Global Arguments Done {A} r w.
Global Arguments OutOfFuel {A}.

Definition M (A : Type) : Type := world → outcome A.

Definition ret {A} (a : A) : M A := λ w, Done (Ret a) w.
Definition raise {A} (e : exn) : M A := λ w, Done (Raise e) w.
Definition bind {A B} (m : M A) (k : A → M B) : M B := λ w,
  match m w with
  | Done (Ret a) w' => k a w'
  | Done (Raise e) w' => Done (Raise e) w'
  | OutOfFuel => OutOfFuel
  end.

Declare Scope script_scope.
Delimit Scope script_scope with script.
Notation "x <- m ;; k" := (bind m (λ x, k))
  (at level 100, m at next level, right associativity) : script_scope.
Notation "m ;; k" := (bind m (λ _, k))
  (at level 100, right associativity) : script_scope.
Local Open Scope script_scope.

Definition emit (e : event) : M unit := λ w,
  Done (Ret tt) {| fs := fs w; logger_level := logger_level w; events := events w ++ [e] |}.

Definition get_fs : M (gmap string node) := λ w, Done (Ret (fs w)) w.

Definition put_fs (f : gmap string node) : M unit := λ w,
  Done (Ret tt) {| fs := f; logger_level := logger_level w; events := events w |}.

(** The exit status of the process, from the outcome of [main]: 0 when
    [main] returns, the code of [sys.exit], 1 after an uncaught exception. *)
Definition exit_status (r : res unit) : Z :=
  match r with
  | Ret _ => 0
  | Raise (SystemExit code) => code
  | Raise (Uncaught _ _) => 1
  end.

(** *** [logging] *)

Definition set_level (l : log_level) : M unit := λ w,
  Done (Ret tt) {| fs := fs w; logger_level := l; events := events w |}.

Definition log (l : log_level) (msg : string) : M unit := λ w,
  if levelno (logger_level w) <=? levelno l then emit (EvLog l msg) w
  else Done (Ret tt) w.

Definition logging_info := log INFO.
Definition logging_warning := log WARNING.
Definition logging_error := log ERROR.

(** *** [os], [shutil], [subprocess] *)

Definition isfile (p : string) (f : gmap string node) : bool :=
  bool_decide (f !! p = Some File).
Definition isdir (p : string) (f : gmap string node) : bool :=
  bool_decide (f !! p = Some Dir).
Definition exists_ (p : string) (f : gmap string node) : bool :=
  bool_decide (is_Some (f !! p)).

Definition os_path_isfile (p : string) : M bool := f <- get_fs ;; ret (isfile p f).
Definition os_path_isdir (p : string) : M bool := f <- get_fs ;; ret (isdir p f).
Definition os_path_exists (p : string) : M bool := f <- get_fs ;; ret (exists_ p f).

(** The paths of the tree rooted at [p]: [p] itself and what is below it. *)
Definition in_tree (p k : string) : bool :=
  bool_decide (k = p) || bool_decide (String.prefix (OsPath.join p "") k = true).

Definition remove_tree (p : string) (f : gmap string node) : gmap string node :=
  filter (λ kv, in_tree p kv.1 = false) f.

Section os.
Context (env : Env).

(** [os.mkdir(p)]: the result is the [OSError] text, if any. *)
Definition os_mkdir (p : string) : M (option string) :=
  emit (EvMkdir p) ;;
  f <- get_fs ;;
  if exists_ p f then ret (Some "File exists")
  else match mkdir_error env p f with
       | Some msg => ret (Some msg)
       | None => put_fs (<[p := Dir]> f) ;; ret None
       end.

(** [shutil.rmtree(p, ignore_errors)]: the result is the [OSError] text,
    if any and if errors are not ignored. *)
Definition shutil_rmtree (p : string) (ignore_errors : bool) : M (option string) :=
  emit (EvRmtree p ignore_errors) ;;
  f <- get_fs ;;
  match rmtree_error env ignore_errors p f with
  | None => put_fs (remove_tree p f) ;; ret None
  | Some (msg, f') =>
      put_fs f' ;; ret (if ignore_errors then None else Some msg)
  end.

(** [subprocess.run(cmd, check=True)]: a command that cannot be started
    raises an [OSError], which the script does not catch; the result
    [Some status] is the [CalledProcessError] of a non-zero exit status.
    The call has no timeout: a command that never returns blocks the script
    for ever. [run_process] is a function, so every command of the model
    returns, and what is stated of a run is stated of a run whose command
    returns. *)
Definition subprocess_run (cmd : list string) : M (option Z) :=
  emit (EvRun cmd) ;;
  f <- get_fs ;;
  match run_process env cmd f with
  | SpawnFailed msg => raise (Uncaught "OSError" msg)
  | Exited status f' =>
      put_fs f' ;; ret (if decide (status = 0) then None else Some status)
  end.
End os.

(** *** python-pptx *)

Definition EMUS_PER_INCH : Z := 914400.

(** [pptx.util.Inches(x)] is [int(x * 914400)]. *)
Definition Inches (x : spec_float) : M Z :=
  match PyFloat.mul_int x EMUS_PER_INCH with
  | S754_nan => raise (Uncaught "ValueError" "cannot convert float NaN to integer")
  | S754_infinity _ =>
      raise (Uncaught "OverflowError" "cannot convert float infinity to integer")
  | y => ret (default 0 (PyFloat.to_int y))
  end.

(** [Presentation()]: the default template, 10 by 7.5 inches, no slide. *)
Definition new_Presentation : Presentation :=
  {| slide_width := 9144000; slide_height := 6858000; slides := [] |}.

Section pptx.
Context (env : Env).

Definition set_slide_width (prs : Presentation) (v : Z) : M Presentation :=
  match slide_size_error env v with
  | Some msg => raise (Uncaught "ValueError" msg)
  | None =>
      ret {| slide_width := v; slide_height := slide_height prs; slides := slides prs |}
  end.

Definition set_slide_height (prs : Presentation) (v : Z) : M Presentation :=
  match slide_size_error env v with
  | Some msg => raise (Uncaught "ValueError" msg)
  | None =>
      ret {| slide_width := slide_width prs; slide_height := v; slides := slides prs |}
  end.

(** [slide = prs.slides.add_slide(layout)] followed by
    [slide.shapes.add_picture(image, left, top, width, height)]. *)
Definition add_picture_slide (prs : Presentation) (layout_index : nat)
    (image : string) (l t w h : Z) : M Presentation :=
  f <- get_fs ;;
  match add_picture_error env image f with
  | Some msg => raise (Uncaught "Exception" msg)
  | None =>
      let pic := {| image_file := image; left := l; top := t; width := w; height := h |} in
      let slide := {| layout := layout_index; shapes := [pic] |} in
      ret {| slide_width := slide_width prs; slide_height := slide_height prs;
             slides := slides prs ++ [slide] |}
  end.

(** [prs.save(path)]. *)
Definition save (prs : Presentation) (path : string) : M unit :=
  emit (EvSave path prs) ;;
  f <- get_fs ;;
  if isdir path f then
    raise (Uncaught "IsADirectoryError"
             ("[Errno 21] Is a directory: '" +:+ path +:+ "'"))
  else match save_error env path f with
       | Some msg => raise (Uncaught "OSError" msg)
       | None => put_fs (<[path := File]> f)
       end.
End pptx.

(** ** The script *)

Inductive ImageFormat := JPEG | PNG.

(** The namespace built by [argparse]. *)
Record Args := {
  verbose : bool;
  retain_image_files : bool;
  dpi : Z;
  quality : Z;
  image_format : ImageFormat;
  temp_dir : option string;
  slide_size : string;
  input_pdf : string;
  output_pptx : string
}.

(** What [parser.parse_args()] does with the command line: it returns the
    namespace, or it writes the usage and an error message to stderr and
    calls [sys.exit(2)] (unknown option, missing path, [--dpi] or
    [--quality] that is not an integer, [--image-format] other than [JPEG]
    or [PNG]), or, for [-h], it writes the help to stdout and calls
    [sys.exit(0)]. What it writes is not a log record and is not kept. *)
Inductive parse_args_result :=
  | Namespace (args : Args)
  | UsageError
  | HelpRequested.

(** [error_and_exit(message, exit_code=1)] *)
Definition error_and_exit {A} (message : string) (exit_code : Z) : M A :=
  logging_error message ;;
  raise (SystemExit exit_code).

Definition parse_error_message : string :=
  "Could not parse slide size. Use '16:9', '4:3', or 'WxH' in inches.".

(** The body of the [try] in [parse_slide_size]; [None] when it raises. *)
Definition parse_custom (size_str : string) : option (spec_float * spec_float) :=
  match PyStr.split "x" size_str with
  | [w_str; h_str] =>
      w ← PyFloat.float w_str;
      h ← PyFloat.float h_str;
      Some (w, h)
  | _ => None
  end.

(** [parse_slide_size(size_str)] *)
Definition parse_slide_size (size_str : string) : M (spec_float * spec_float) :=
  if bool_decide (size_str ∈ ["16:9"; "16x9"]) then
    ret (PyFloat.lit 133333 (-4), PyFloat.lit 75 (-1))
  else if bool_decide (size_str ∈ ["4:3"; "4x3"]) then
    ret (PyFloat.lit 100 (-1), PyFloat.lit 75 (-1))
  else
    match parse_custom size_str with
    | Some wh => ret wh
    | None => error_and_exit parse_error_message 1
    end.

(** The local variables of [main] that depend on the arguments only. *)

Definition temp_dir_of (args : Args) : string :=
  let '(base_name, _) := OsPath.splitext (OsPath.basename (input_pdf args)) in
  match temp_dir args with
  | Some t => if bool_decide (t = "") then base_name +:+ "_temp" else t
  | None => base_name +:+ "_temp"
  end.

Definition extension_of (args : Args) : string :=
  match image_format args with
  | JPEG => "jpg"
  | PNG => "png"
  end.

Definition convert_cmd_of (args : Args) : list string :=
  ["convert"]
  ++ (if verbose args then ["-verbose"] else [])
  ++ [ "-density"; pretty (dpi args);
       input_pdf args;
       "-resize"; "50%";
       "-quality"; pretty (quality args);
       OsPath.join (temp_dir_of args) ("page." +:+ extension_of args) ].

(** The name probed by the loop of [main] at [index]. *)
Definition image_filename_of (args : Args) (index : nat) : string :=
  OsPath.join (temp_dir_of args)
    ("page-" +:+ pretty index +:+ "." +:+ extension_of args).

Section script.
Context (env : Env).

(** The [while True] loop of [main], at most [fuel] iterations. *)
Fixpoint add_slides (fuel : nat) (args : Args) (prs : Presentation)
    (index slide_count : nat) : M (Presentation * nat) :=
  match fuel with
  | O => λ _, OutOfFuel
  | S fuel' =>
      let image_filename := image_filename_of args index in
      present <- os_path_isfile image_filename ;;
      if negb present then ret (prs, slide_count)
      else
        logging_info ("Adding slide for '" +:+ image_filename +:+ "'") ;;
        prs' <- add_picture_slide env prs 6 image_filename
                  0 0 (slide_width prs) (slide_height prs) ;;
        add_slides fuel' args prs' (index + 1) (slide_count + 1)
  end.

(** [main()], after [argparse] has built [args], in four blocks that follow
    the numbered comments of the source: steps 1 to 3 ([main_rasterize]),
    steps 4 and 5 ([main_canvas]), step 6 (the loop [add_slides]) and
    steps 7 and 8 ([main_save_cleanup]). *)

Definition main_rasterize (args : Args) : M unit :=
  (* logging.basicConfig(level=logging.WARNING), in a process started to run
     the script: the root logger has no handler yet, so the call installs
     one and sets the level. (Called by a program that has configured
     logging itself, it would do nothing.) *)
  set_level WARNING ;;
  (if verbose args then set_level INFO else ret tt) ;;
  let pdf_file := input_pdf args in
  (* 1) Validate the input PDF path *)
  present <- os_path_isfile pdf_file ;;
  (if negb present
   then error_and_exit ("PDF file '" +:+ pdf_file +:+ "' does not exist.") 1
   else ret tt) ;;
  (* 2) Determine temporary directory *)
  let temp_dir := temp_dir_of args in
  taken <- os_path_exists temp_dir ;;
  (if taken
   then error_and_exit
          ("Temporary directory '" +:+ temp_dir +:+ "' already exists. "
           +:+ "Remove it or specify a different directory with --temp-dir.") 1
   else ret tt) ;;
  e <- os_mkdir env temp_dir ;;
  match e with
  | Some msg =>
      error_and_exit ("Could not create directory '" +:+ temp_dir +:+ "': " +:+ msg) 1
  | None => ret tt
  end ;;
  (* 3) Build the ImageMagick 'convert' command *)
  let convert_cmd := convert_cmd_of args in
  logging_info ("Running ImageMagick convert:" +:+ PyStr.nl +:+ "  "
                +:+ PyStr.join " " convert_cmd) ;;
  failed <- subprocess_run env convert_cmd ;;
  match failed with
  | Some status =>
      (* Cleanup if conversion fails and user doesn't want to retain images *)
      d <- os_path_isdir temp_dir ;;
      (if d && negb (retain_image_files args)
       then shutil_rmtree env temp_dir true ;; ret tt
       else ret tt) ;;
      error_and_exit ("ImageMagick conversion failed: "
                      +:+ called_process_error_str env convert_cmd status) 1
  | None => ret tt
  end ;;
  logging_info "Conversion done. Now generating PPTX...".

Definition main_canvas (args : Args) : M Presentation :=
  (* 4) Parse slide size from user input (or default) *)
  size <- parse_slide_size (slide_size args) ;;
  let '(slide_width_in, slide_height_in) := size in
  (* 5) Create the PPTX *)
  let prs := new_Presentation in
  w <- Inches slide_width_in ;;
  prs <- set_slide_width env prs w ;;
  h <- Inches slide_height_in ;;
  set_slide_height env prs h.

Definition main_save_cleanup (args : Args) (r : Presentation * nat) : M unit :=
  let '(prs, slide_count) := r in
  let pptx_file := output_pptx args in
  let temp_dir := temp_dir_of args in
  (* 7) Save PPTX *)
  save env prs pptx_file ;;
  logging_info ("Successfully created '" +:+ pptx_file +:+ "' with "
                +:+ pretty slide_count +:+ " slide(s).") ;;
  (* 8) Cleanup *)
  if negb (retain_image_files args) then
    logging_info ("Removing temporary directory '" +:+ temp_dir +:+ "'...") ;;
    e <- shutil_rmtree env temp_dir false ;;
    match e with
    | None => logging_info ("Removed '" +:+ temp_dir +:+ "'.")
    | Some msg =>
        logging_warning ("Could not remove '" +:+ temp_dir +:+ "': " +:+ msg)
    end
  else
    logging_info ("Retaining all image files in '" +:+ temp_dir +:+ "'.").

Definition main (fuel : nat) (args : Args) : M unit :=
  main_rasterize args ;;
  prs <- main_canvas args ;;
  (* 6) Collect image files and add them as slides *)
  r <- add_slides fuel args prs 0 0 ;;
  main_save_cleanup args r.

(** [main()] from its first line: [parser.parse_args()] (lines 42 to 85)
    returns the namespace or ends the process itself, before logging is
    configured and before anything is done. *)
Definition program (fuel : nat) (cl : parse_args_result) : M unit :=
  match cl with
  | Namespace args => main fuel args
  | UsageError => raise (SystemExit 2)
  | HelpRequested => raise (SystemExit 0)
  end.

End script.

(** The process exit status of a run, when it ends. *)
Definition status_of (o : outcome unit) : option Z :=
  match o with
  | Done r _ => Some (exit_status r)
  | OutOfFuel => None
  end.


(** * Vocabulary of the statements *)

Definition spaces (l : list ascii) : Prop := Forall (λ c, Ascii.is_space c = true) l.

(** The four tokens with a fixed size. *)
Definition preset (tok : string) : Prop :=
  tok ∈ ["16:9"; "16x9"; "4:3"; "4x3"].

(** The world after one more event. *)
Definition after (e : event) (w : world) : world :=
  {| fs := fs w; logger_level := logger_level w; events := events w ++ [e] |}.

(** A computation returns: it ends, and with a value. *)
Definition returns {A} (o : outcome A) : Prop :=
  ∃ a w', o = Done (Ret a) w'.

(** The custom token has the shape [a x b] with two parts that [float]
    accepts. *)
Definition two_floats (tok : string) : Prop :=
  ∃ a b, tok = a +:+ "x" +:+ b
         ∧ PyStr.count "x" a = 0%nat ∧ PyStr.count "x" b = 0%nat
         ∧ is_Some (PyFloat.float a) ∧ is_Some (PyFloat.float b).

(** The logger level [main] sets. *)
Definition level_of (args : Args) : log_level :=
  if verbose args then INFO else WARNING.

(** An [INFO] record is emitted in verbose mode only. *)
Definition info (args : Args) (msg : string) : list event :=
  if verbose args then [EvLog INFO msg] else [].

(** The messages of [main]. *)
Definition msg_pdf_missing (args : Args) : string :=
  "PDF file '" +:+ input_pdf args +:+ "' does not exist.".
Definition msg_temp_exists (args : Args) : string :=
  "Temporary directory '" +:+ temp_dir_of args +:+ "' already exists. "
  +:+ "Remove it or specify a different directory with --temp-dir.".
Definition msg_mkdir_failed (args : Args) (e : string) : string :=
  "Could not create directory '" +:+ temp_dir_of args +:+ "': " +:+ e.
Definition msg_running (args : Args) : string :=
  "Running ImageMagick convert:" +:+ PyStr.nl +:+ "  "
  +:+ PyStr.join " " (convert_cmd_of args).
Definition msg_convert_failed (env : Env) (args : Args) (status : Z) : string :=
  "ImageMagick conversion failed: "
  +:+ called_process_error_str env (convert_cmd_of args) status.
Definition msg_converted : string := "Conversion done. Now generating PPTX...".

(** The file system after the conditional cleanup of a failed conversion. *)
Definition after_rmtree (env : Env) (ignore_errors : bool) (p : string)
    (f : gmap string node) : gmap string node :=
  match rmtree_error env ignore_errors p f with
  | None => remove_tree p f
  | Some (_, f') => f'
  end.

Section vocabulary.
Context (env : Env).

(** The run passes steps 1 to 3: the PDF is there, the workspace path is
  free, the directory can be made and the tool exits with status 0,
    leaving the file system [f']. *)
Definition rasterizes (args : Args) (w : world) (f' : gmap string node) : Prop :=
  fs w !! input_pdf args = Some File
  ∧ fs w !! temp_dir_of args = None
  ∧ mkdir_error env (temp_dir_of args) (fs w) = None
  ∧ run_process env (convert_cmd_of args) (<[temp_dir_of args := Dir]> (fs w))
    = Exited 0 f'.

(** The events of steps 1 to 3 when they succeed. *)
Definition rasterize_events (args : Args) : list event :=
  [EvMkdir (temp_dir_of args)] ++ info args (msg_running args)
  ++ [EvRun (convert_cmd_of args)] ++ info args msg_converted.

(** What [parse_slide_size] returns, [None] when it exits. *)
Definition slide_size_of (tok : string) : option (spec_float * spec_float) :=
  if bool_decide (tok ∈ ["16:9"; "16x9"]) then
    Some (PyFloat.lit 133333 (-4), PyFloat.lit 75 (-1))
  else if bool_decide (tok ∈ ["4:3"; "4x3"]) then
    Some (PyFloat.lit 100 (-1), PyFloat.lit 75 (-1))
  else parse_custom tok.

(** The value of [Inches(x)], [None] when it raises. *)
Definition inches_emu (x : spec_float) : option Z :=
  PyFloat.to_int (PyFloat.mul_int x EMUS_PER_INCH).

(** The slide size is accepted: the token parses, both dimensions convert
  to whole EMUs [cx] and [cy], and python-pptx takes them. *)
Definition canvas (args : Args) (cx cy : Z) : Prop :=
  ∃ wi hi, slide_size_of (slide_size args) = Some (wi, hi)
           ∧ inches_emu wi = Some cx ∧ inches_emu hi = Some cy
           ∧ slide_size_error env cx = None ∧ slide_size_error env cy = None.

Definition blank (cx cy : Z) : Presentation :=
  {| slide_width := cx; slide_height := cy; slides := [] |}.

(** The slide made for the image of index [i] on a [cx] by [cy] canvas. *)
Definition slide_of (args : Args) (cx cy : Z) (i : nat) : Slide :=
  {| layout := 6;
     shapes := [ {| image_file := image_filename_of args i;
                    left := 0; top := 0; width := cx; height := cy |} ] |}.

Definition msg_adding (args : Args) (i : nat) : string :=
  "Adding slide for '" +:+ image_filename_of args i +:+ "'".

(** The images [k], ..., [k + n - 1] are files that python-pptx can read,
  and the image [k + n] is not a file. *)
Definition page_run (args : Args) (f : gmap string node) (k n : nat) : Prop :=
  (∀ i, (k ≤ i < k + n)%nat →
        f !! image_filename_of args i = Some File
        ∧ add_picture_error env (image_filename_of args i) f = None)
  ∧ f !! image_filename_of args (k + n) ≠ Some File.

Definition msg_created (args : Args) (slide_count : nat) : string :=
  "Successfully created '" +:+ output_pptx args +:+ "' with "
  +:+ pretty slide_count +:+ " slide(s).".
Definition msg_removing (args : Args) : string :=
  "Removing temporary directory '" +:+ temp_dir_of args +:+ "'...".
Definition msg_removed (args : Args) : string :=
  "Removed '" +:+ temp_dir_of args +:+ "'.".
Definition msg_not_removed (args : Args) (e : string) : string :=
  "Could not remove '" +:+ temp_dir_of args +:+ "': " +:+ e.
Definition msg_retaining (args : Args) : string :=
  "Retaining all image files in '" +:+ temp_dir_of args +:+ "'.".

(** The events of step 8 on the file system [f]. *)
Definition cleanup_events (args : Args) (f : gmap string node) : list event :=
  if retain_image_files args then info args (msg_retaining args)
  else
    info args (msg_removing args)
    ++ [EvRmtree (temp_dir_of args) false]
    ++ match rmtree_error env false (temp_dir_of args) f with
       | None => info args (msg_removed args)
       | Some (e, _) => [EvLog WARNING (msg_not_removed args e)]
       end.

End vocabulary.

(** The event is a call of [Presentation.save]. *)
Definition is_save (e : event) : Prop :=
  match e with
  | EvSave _ _ => True
  | _ => False
  end.

(** [adds P m]: whenever [m] ends, it has only appended events that satisfy
    [P] to the list of events. *)
Definition adds (P : event → Prop) {A} (m : M A) : Prop :=
  ∀ w r w', m w = Done r w' → ∃ evs, events w' = events w ++ evs ∧ Forall P evs.

(** ** A concrete run: [pdf2pptx.py docs/deck.pdf deck.pptx] *)

Module Deck.

Definition args_with (size : string) (retain : bool) : Args :=
  {| verbose := false; retain_image_files := retain; dpi := 1200; quality := 95;
     image_format := JPEG; temp_dir := None; slide_size := size;
     input_pdf := "docs/deck.pdf"; output_pptx := "deck.pptx" |}.

(** The default flags. *)
Definition args : Args := args_with "16:9" false.

(** Only the PDF exists. *)
Definition start : world :=
  {| fs := {["docs/deck.pdf" := File]}; logger_level := WARNING; events := [] |}.

(** The workspace path is taken by a file. *)
Definition start_taken : world :=
  {| fs := <["deck_temp" := File]> {["docs/deck.pdf" := File]};
     logger_level := WARNING; events := [] |}.

(** The tool writes pages 0, 1, 2 and, after a gap, page 4. *)
Definition pages (f : gmap string node) : gmap string node :=
  <["deck_temp/page-0.jpg" := File]> (<["deck_temp/page-1.jpg" := File]>
  (<["deck_temp/page-2.jpg" := File]> (<["deck_temp/page-4.jpg" := File]> f))).

Definition env_with (tool : gmap string node → proc_result)
    (saving : option string) : Env :=
  {| mkdir_error := λ _ _, None;
     run_process := λ _ f, tool f;
     called_process_error_str := λ _ status,
       "Command returned non-zero exit status " +:+ pretty status +:+ ".";
     rmtree_error := λ _ _ _, None;
     slide_size_error := λ _, None;
     add_picture_error := λ _ _, None;
     save_error := λ _ _, saving |}.

(** Everything works. *)
Definition env : Env := env_with (λ f, Exited 0 (pages f)) None.

(** The tool exits with status 0 and writes nothing. *)
Definition env_no_pages : Env := env_with (λ f, Exited 0 f) None.

(** The tool writes one page and exits with status 1. *)
Definition env_tool_fails : Env :=
  env_with (λ f, Exited 1 (<["deck_temp/page-0.jpg" := File]> f)) None.

(** The output file cannot be written. *)
Definition env_save_fails : Env :=
  env_with (λ f, Exited 0 (pages f)) (Some "[Errno 13] Permission denied: 'deck.pptx'").

End Deck.

(** ** More runs of [pdf2pptx.py docs/deck.pdf deck.pptx] *)

Module Cases.

(** An environment from the outcome of [os.mkdir], of the tool, of
    [shutil.rmtree] (a failure removes nothing) and of [save]. *)
Definition env_of (making : option string)
    (tool : gmap string node → proc_result)
    (removing saving : option string) : Env :=
  {| mkdir_error := λ _ _, making;
     run_process := λ _ f, tool f;
     called_process_error_str := λ _ status,
       "Command returned non-zero exit status " +:+ pretty status +:+ ".";
     rmtree_error := λ _ _ f, (λ e, (e, f)) <$> removing;
     slide_size_error := λ _, None;
     add_picture_error := λ _ _, None;
     save_error := λ _ _, saving |}.

(** The current directory is read-only. *)
Definition env_read_only : Env :=
  env_of (Some "[Errno 13] Permission denied: 'deck_temp'")
    (λ f, Exited 0 (Deck.pages f)) None None.

(** ImageMagick is not installed. *)
Definition env_no_tool : Env :=
  env_of None (λ _, SpawnFailed "[Errno 2] No such file or directory: 'convert'")
    None None.

(** The workspace cannot be removed at the end. *)
Definition env_sticky : Env :=
  env_of None (λ f, Exited 0 (Deck.pages f))
    (Some "[Errno 16] Device or resource busy: 'deck_temp'") None.

(** Nothing exists, not even the PDF. *)
Definition start_empty : world :=
  {| fs := ∅; logger_level := WARNING; events := [] |}.

(** The flags [-v] and, if asked, [--retain-image-files]. *)
Definition args_verbose (retain : bool) : Args :=
  {| verbose := true; retain_image_files := retain; dpi := 1200; quality := 95;
     image_format := JPEG; temp_dir := None; slide_size := "16:9";
     input_pdf := "docs/deck.pdf"; output_pptx := "deck.pptx" |}.

(** Everything works, but python-pptx cannot read the image of page 2. *)
Definition env_bad_image : Env :=
  {| mkdir_error := λ _ _, None;
     run_process := λ _ f, Exited 0 (Deck.pages f);
     called_process_error_str := λ _ status,
       "Command returned non-zero exit status " +:+ pretty status +:+ ".";
     rmtree_error := λ _ _ _, None;
     slide_size_error := λ _, None;
     add_picture_error := λ image _,
       if bool_decide (image = "deck_temp/page-2.jpg")
       then Some "cannot identify image file 'deck_temp/page-2.jpg'"
       else None;
     save_error := λ _ _, None |}.

End Cases.

(** ** More vocabulary: exit codes, quiet runs, the events of [main] *)

(** [exits_with c m]: when [m] ends by [sys.exit], the code is [c]. *)
Definition exits_with (c : Z) {A} (m : M A) : Prop :=
  ∀ w code w', m w = Done (Raise (SystemExit code)) w' → code = c.

(** The event is not an [INFO] record. *)
Definition not_info (e : event) : Prop :=
  match e with
  | EvLog INFO _ => False
  | _ => True
  end.

(** [quietly m]: started with the logger at [WARNING], [m] leaves it there
    and emits no [INFO] record. *)
Definition quietly {A} (m : M A) : Prop :=
  ∀ w r w', logger_level w = WARNING → m w = Done r w' →
    logger_level w' = WARNING
    ∧ ∃ evs, events w' = events w ++ evs ∧ Forall not_info evs.

(** The events a run with the arguments [args] may produce: log records,
    [mkdir] and [rmtree] of the workspace path, the conversion command, and
    [save] to the output path. *)
Definition allowed (args : Args) (e : event) : Prop :=
  match e with
  | EvLog _ _ => True
  | EvMkdir p => p = temp_dir_of args
  | EvRun cmd => cmd = convert_cmd_of args
  | EvRmtree p _ => p = temp_dir_of args
  | EvSave p _ => p = output_pptx args
  end.

(** The slides are those of the images 0 to n-1, for some n, each one a
    single picture that covers the canvas of the presentation. *)
Definition page_deck (args : Args) (prs : Presentation) : Prop :=
  ∃ n, slides prs
       = slide_of args (slide_width prs) (slide_height prs) <$> seq 0 n.

(** How many events of a list satisfy a test. *)
Definition occurrences (test : event → bool) (evs : list event) : nat :=
  length (filter (λ e, test e = true) evs).

Definition is_mkdir (e : event) : bool :=
  match e with EvMkdir _ => true | _ => false end.
Definition is_run (e : event) : bool :=
  match e with EvRun _ => true | _ => false end.
Definition is_rmtree (e : event) : bool :=
  match e with EvRmtree _ _ => true | _ => false end.
Definition is_saving (e : event) : bool :=
  match e with EvSave _ _ => true | _ => false end.

(** Steps 7 and 8 of [main] after the call of [save]. *)
Definition after_save (env : Env) (args : Args) (slide_count : nat) : M unit :=
  (logging_info (msg_created args slide_count) ;;
   if negb (retain_image_files args) then
     logging_info (msg_removing args) ;;
     e <- shutil_rmtree env (temp_dir_of args) false ;;
     match e with
     | None => logging_info (msg_removed args)
     | Some msg => logging_warning (msg_not_removed args msg)
     end
   else logging_info (msg_retaining args))%script.

(** Steps 4 to 8 of [main]. *)
Definition after_rasterize (env : Env) (fuel : nat) (args : Args) : M unit :=
  (prs <- main_canvas env args ;;
   r <- add_slides env fuel args prs 0 0 ;;
   main_save_cleanup env args r)%script.

(** [at_most test n m]: whenever [m] ends, at most [n] of the events it has
    appended satisfy [test]. *)
Definition at_most (test : event → bool) (n : nat) {A} (m : M A) : Prop :=
  ∀ w r w', m w = Done r w' →
    ∃ evs, events w' = events w ++ evs ∧ (occurrences test evs ≤ n)%nat.

(** [keeps_fs m]: [m] leaves the file system as it is. *)
Definition keeps_fs {A} (m : M A) : Prop :=
  ∀ w r w', m w = Done r w' → fs w' = fs w.

(** The event is not an [ERROR] record. *)
Definition not_error (e : event) : Prop :=
  match e with
  | EvLog ERROR _ => False
  | _ => True
  end.

(** The events [evs] of a computation announce how it ended: they end with
    an [ERROR] record, the only one, when it ended by [sys.exit], and hold
    no [ERROR] record otherwise. *)
Definition announced {A} (r : res A) (evs : list event) : Prop :=
  match r with
  | Raise (SystemExit _) =>
      ∃ before msg, evs = before ++ [EvLog ERROR msg] ∧ Forall not_error before
  | _ => Forall not_error evs
  end.

(** [announces m]: the events that [m] appends announce how it ended. *)
Definition announces {A} (m : M A) : Prop :=
  ∀ w r w', m w = Done r w' →
    ∃ evs, events w' = events w ++ evs ∧ announced r evs.

(** The images 0 to [n - 1] are files that python-pptx can read, and the
    image [n] is a file that it cannot read, with the error [msg]. *)
Definition unreadable_at (env : Env) (args : Args) (f : gmap string node)
    (k n : nat) (msg : string) : Prop :=
  (∀ i, (k ≤ i < k + n)%nat →
        f !! image_filename_of args i = Some File
        ∧ add_picture_error env (image_filename_of args i) f = None)
  ∧ f !! image_filename_of args (k + n) = Some File
  ∧ add_picture_error env (image_filename_of args (k + n)) f = Some msg.

(** * Properties *)

(** ** Strings: [split] and [count] *)

Section split_facts.
Variable sep : ascii.

Lemma split_nonempty (s : string) : PyStr.split sep s ≠ [].
Proof.
  destruct s as [|c s]; simpl; [done|].
  destruct (decide (c = sep)); [done|].
  by destruct (PyStr.split sep s).
Qed.

Lemma split_length (s : string) :
  length (PyStr.split sep s) = S (PyStr.count sep s).
Proof.
  induction s as [|c s IH]; simpl; [done|].
  destruct (decide (c = sep)); simpl; [by rewrite IH|].
  pose proof (split_nonempty s) as Hne.
  destruct (PyStr.split sep s); [done|]. simpl in *. lia.
Qed.

Lemma count_app (a b : string) :
  PyStr.count sep (a +:+ b) = (PyStr.count sep a + PyStr.count sep b)%nat.
Proof. induction a as [|c a IH]; simpl; [done|]. rewrite IH. lia. Qed.

Lemma split_no_sep (s : string) :
  PyStr.count sep s = 0%nat → PyStr.split sep s = [s].
Proof.
  induction s as [|c s IH]; simpl; [done|].
  destruct (decide (c = sep)); [done|]. simpl. intros H.
  by rewrite (IH H).
Qed.

Lemma split_app (a b : string) :
  PyStr.count sep a = 0%nat →
  PyStr.split sep (a +:+ String sep b) = a :: PyStr.split sep b.
Proof.
  induction a as [|c a IH]; simpl.
  - intros _. by rewrite decide_True.
  - destruct (decide (c = sep)); [done|]. simpl. intros H.
    by rewrite (IH H).
Qed.

(** Unpacking [w_str, h_str = s.split(sep)] succeeds exactly when [s] has
    one separator, and then gives what is before and after it. *)
Lemma split_two (s a b : string) :
  PyStr.split sep s = [a; b] ↔
  s = a +:+ String sep b ∧ PyStr.count sep a = 0%nat ∧ PyStr.count sep b = 0%nat.
Proof.
  split.
  - revert a. induction s as [|c s IH]; intros a; simpl; [done|].
    destruct (decide (c = sep)) as [->|Hc].
    + intros [= <- Hs].
      assert (PyStr.count sep s = 0%nat) as H0.
      { pose proof (split_length s) as Hl. rewrite Hs in Hl. simpl in Hl. lia. }
      rewrite (split_no_sep _ H0) in Hs. by simplify_eq.
    + destruct (PyStr.split sep s) as [|p ps] eqn:Hs; [done|].
      intros [= <- ->]. destruct (IH p eq_refl) as (-> & Hp & Hb).
      simpl. by rewrite decide_False.
  - intros (-> & Ha & Hb). by rewrite split_app, split_no_sep.
Qed.

Lemma split_two_count (s a b : string) :
  PyStr.split sep s = [a; b] → PyStr.count sep s = 1%nat.
Proof.
  intros H. pose proof (split_length s) as Hl. rewrite H in Hl.
  simpl in Hl. lia.
Qed.

(** A string with one separator splits in two at it. *)
Lemma count_one_split (s : string) :
  PyStr.count sep s = 1%nat → ∃ a b, PyStr.split sep s = [a; b].
Proof.
  intros H. pose proof (split_length s) as Hl. rewrite H in Hl.
  destruct (PyStr.split sep s) as [|a [|b [|??]]]; simplify_eq/=. eauto.
Qed.
End split_facts.

(** ** [float]: white space around a numeral is ignored *)

Lemma chars_app (a b : string) :
  PyStr.chars (a +:+ b) = PyStr.chars a ++ PyStr.chars b.
Proof. induction a as [|c a IH]; simpl; [done|]. by rewrite <- IH. Qed.

(** The text that [float] parses. *)

Lemma to_ascii_text_cons (b0 : ascii) (l1 : list ascii) :
  PyFloat.to_ascii_text (b0 :: l1)
  = let n0 := N_of_ascii b0 in
    if (n0 <? 0x80)%N then
      c ← PyFloat.to_ascii n0; (c ::.) <$> PyFloat.to_ascii_text l1
    else if ((0xC2 <=? n0) && (n0 <? 0xE0))%N then
      match l1 with
      | b1 :: l2 =>
          c1 ← PyFloat.continuation b1;
          c ← PyFloat.to_ascii ((n0 - 0xC0) * 0x40 + c1)%N;
          (c ::.) <$> PyFloat.to_ascii_text l2
      | _ => None
      end
    else if ((0xE0 <=? n0) && (n0 <? 0xF0))%N then
      match l1 with
      | b1 :: b2 :: l3 =>
          c1 ← PyFloat.continuation b1;
          c2 ← PyFloat.continuation b2;
          let cp := ((n0 - 0xE0) * 0x1000 + c1 * 0x40 + c2)%N in
          if ((cp <? 0x800) || ((0xD800 <=? cp) && (cp <? 0xE000)))%N then None
          else c ← PyFloat.to_ascii cp; (c ::.) <$> PyFloat.to_ascii_text l3
      | _ => None
      end
    else if ((0xF0 <=? n0) && (n0 <? 0xF5))%N then
      match l1 with
      | b1 :: b2 :: b3 :: l4 =>
          c1 ← PyFloat.continuation b1;
          c2 ← PyFloat.continuation b2;
          c3 ← PyFloat.continuation b3;
          let cp := ((n0 - 0xF0) * 0x40000 + c1 * 0x1000 + c2 * 0x40 + c3)%N in
          if ((cp <? 0x10000) || (0x110000 <=? cp))%N then None
          else c ← PyFloat.to_ascii cp; (c ::.) <$> PyFloat.to_ascii_text l4
      | _ => None
      end
    else None.
Proof. reflexivity. Qed.

(** An ASCII white space is a character of its own, which [float] reads as
    it is. *)
Lemma space_byte (c : ascii) :
  Ascii.is_space c = true →
  (N_of_ascii c <? 0x80)%N = true
  ∧ PyFloat.to_ascii (N_of_ascii c) = Some c
  ∧ PyFloat.continuation c = None.
Proof.
  destruct c as [[|] [|] [|] [|] [|] [|] [|] [|]]; try done;
    intros _; by vm_compute.
Qed.

Lemma to_ascii_text_space (c : ascii) (l : list ascii) :
  Ascii.is_space c = true →
  PyFloat.to_ascii_text (c :: l) = (c ::.) <$> PyFloat.to_ascii_text l.
Proof.
  intros Hc. apply space_byte in Hc as (Hlt & Hto & _).
  rewrite to_ascii_text_cons. cbn zeta. by rewrite Hlt, Hto.
Qed.

Lemma to_ascii_text_prefix (pre l : list ascii) :
  spaces pre →
  PyFloat.to_ascii_text (pre ++ l) = (pre ++.) <$> PyFloat.to_ascii_text l.
Proof.
  induction 1 as [|c pre Hc _ IH]; cbn [app].
  - by destruct (PyFloat.to_ascii_text l).
  - rewrite (to_ascii_text_space _ _ Hc), IH.
    by destruct (PyFloat.to_ascii_text l).
Qed.

Lemma to_ascii_text_spaces (post : list ascii) :
  spaces post → PyFloat.to_ascii_text post = Some post.
Proof.
  intros H. rewrite <- (app_nil_r post) at 1.
  rewrite (to_ascii_text_prefix _ _ H). simpl. by rewrite app_nil_r.
Qed.

(** White space cannot complete a character that the text leaves open. *)
Lemma to_ascii_text_suffix (post : list ascii) :
  spaces post →
  ∀ l, PyFloat.to_ascii_text (l ++ post)
       = (.++ post) <$> PyFloat.to_ascii_text l.
Proof.
  intros Hpost l. remember (length l) as n eqn:Hn. revert l Hn.
  induction n as [n IH] using lt_wf_ind. intros l ->.
  assert (∀ l', (length l' < length l)%nat →
            PyFloat.to_ascii_text (l' ++ post)
            = (.++ post) <$> PyFloat.to_ascii_text l') as IH'
    by (intros l' Hl'; by apply (IH _ Hl')).
  clear IH.
  assert (∀ p rest, post = p :: rest → PyFloat.continuation p = None) as Hcont.
  { intros p rest ->. apply Forall_cons_1 in Hpost as [Hp _].
    by apply space_byte in Hp as (_ & _ & ?). }
  destruct l as [|b0 l1]; [by rewrite to_ascii_text_spaces|].
  cbn [app]. rewrite !to_ascii_text_cons. cbn zeta.
  destruct (N_of_ascii b0 <? 0x80)%N.
  { destruct (PyFloat.to_ascii _); [|done]. simpl.
    rewrite IH' by (simpl; lia). by destruct (PyFloat.to_ascii_text l1). }
  destruct (_ && _)%N.
  { destruct l1 as [|b1 l2]; cbn [app].
    - destruct post as [|p rest]; [done|]. by rewrite (Hcont p rest eq_refl).
    - destruct (PyFloat.continuation b1); [|done]. simpl.
      destruct (PyFloat.to_ascii _); [|done]. simpl.
      rewrite IH' by (simpl; lia). by destruct (PyFloat.to_ascii_text l2). }
  destruct (_ && _)%N.
  { destruct l1 as [|b1 [|b2 l3]]; cbn [app].
    - destruct post as [|p [|q rest]]; [done|done|]. by rewrite (Hcont p _ eq_refl).
    - destruct post as [|p rest]; [done|].
      destruct (PyFloat.continuation b1); [|done]. simpl.
      by rewrite (Hcont p rest eq_refl).
    - destruct (PyFloat.continuation b1); [|done]. simpl.
      destruct (PyFloat.continuation b2); [|done]. simpl.
      destruct (_ || _)%N; [done|].
      destruct (PyFloat.to_ascii _); [|done]. simpl.
      rewrite IH' by (simpl; lia). by destruct (PyFloat.to_ascii_text l3). }
  destruct (_ && _)%N; [|done].
  destruct l1 as [|b1 [|b2 [|b3 l4]]]; cbn [app].
  - destruct post as [|p [|q [|r rest]]]; [done|done|done|].
    by rewrite (Hcont p _ eq_refl).
  - destruct post as [|p [|q rest]]; [done|done|].
    destruct (PyFloat.continuation b1); [|done]. simpl.
    by rewrite (Hcont p _ eq_refl).
  - destruct post as [|p rest]; [done|].
    destruct (PyFloat.continuation b1); [|done]. simpl.
    destruct (PyFloat.continuation b2); [|done]. simpl.
    by rewrite (Hcont p rest eq_refl).
  - destruct (PyFloat.continuation b1); [|done]. simpl.
    destruct (PyFloat.continuation b2); [|done]. simpl.
    destruct (PyFloat.continuation b3); [|done]. simpl.
    destruct (_ || _)%N; [done|].
    destruct (PyFloat.to_ascii _); [|done]. simpl.
    rewrite IH' by (simpl; lia). by destruct (PyFloat.to_ascii_text l4).
Qed.

Lemma lstrip_spaces (pre l : list ascii) :
  spaces pre → PyFloat.lstrip (pre ++ l) = PyFloat.lstrip l.
Proof. induction 1 as [|c pre Hc _ IH]; simpl; [done|]. by rewrite Hc. Qed.

Lemma lstrip_all_spaces (l : list ascii) :
  spaces l → PyFloat.lstrip l = [].
Proof.
  intros H. rewrite <- (app_nil_r l). by rewrite lstrip_spaces.
Qed.

Lemma lstrip_nil_spaces (l : list ascii) :
  PyFloat.lstrip l = [] → spaces l.
Proof.
  induction l as [|c l IH]; simpl; [constructor|].
  destruct (Ascii.is_space c) eqn:Hc; [|done].
  intros H. apply Forall_cons_2; [exact Hc | exact (IH H)].
Qed.

Lemma lstrip_app (l r : list ascii) :
  PyFloat.lstrip l ≠ [] → PyFloat.lstrip (l ++ r) = PyFloat.lstrip l ++ r.
Proof.
  induction l as [|c l IH]; simpl; [done|].
  destruct (Ascii.is_space c); [exact IH|done].
Qed.

Lemma strip_spaces (pre l post : list ascii) :
  spaces pre → spaces post →
  PyFloat.strip (pre ++ l ++ post) = PyFloat.strip l.
Proof.
  intros Hpre Hpost. unfold PyFloat.strip. rewrite lstrip_spaces by done.
  destruct (PyFloat.lstrip l) as [|c l1] eqn:Hl.
  - rewrite (lstrip_all_spaces (l ++ post)); [done|].
    apply Forall_app; split; [by apply lstrip_nil_spaces|done].
  - rewrite lstrip_app by (by rewrite Hl). rewrite Hl.
    rewrite rev_app_distr. rewrite lstrip_spaces; [done|].
    by apply Forall_rev.
Qed.

(** [float] ignores ASCII white space before and after its argument. *)
Lemma float_strip (pre s post : string) :
  spaces (PyStr.chars pre) → spaces (PyStr.chars post) →
  PyFloat.float (pre +:+ s +:+ post) = PyFloat.float s.
Proof.
  intros Hpre Hpost. unfold PyFloat.float.
  rewrite !chars_app, to_ascii_text_prefix, to_ascii_text_suffix by done.
  destruct (PyFloat.to_ascii_text (PyStr.chars s)) as [text|]; [|done].
  simpl. by rewrite strip_spaces.
Qed.

(** ** The slide-size parser *)

Lemma logging_error_run (msg : string) (w : world) :
  logging_error msg w = Done (Ret tt) (after (EvLog ERROR msg) w).
Proof. unfold logging_error, log. destruct w as [f [] ev]; reflexivity. Qed.

Lemma logging_warning_run (msg : string) (w : world) :
  logging_warning msg w =
  Done (Ret tt) (if decide (logger_level w = ERROR) then w else after (EvLog WARNING msg) w).
Proof. unfold logging_warning, log. destruct w as [f [] ev]; reflexivity. Qed.

Lemma logging_info_run (msg : string) (w : world) :
  logging_info msg w =
  Done (Ret tt) (if decide (logger_level w = INFO) then after (EvLog INFO msg) w else w).
Proof. unfold logging_info, log. destruct w as [f [] ev]; reflexivity. Qed.

Lemma logging_info_verbose (msg : string) (f : gmap string node) (ev : list event) :
  logging_info msg (Build_world f INFO ev)
  = Done (Ret tt) (Build_world f INFO (ev ++ [EvLog INFO msg])).
Proof. reflexivity. Qed.

Lemma logging_info_quiet (msg : string) (f : gmap string node) (ev : list event) :
  logging_info msg (Build_world f WARNING ev) = Done (Ret tt) (Build_world f WARNING ev).
Proof. reflexivity. Qed.

Lemma error_and_exit_run {A} (msg : string) (code : Z) (w : world) :
  @error_and_exit A msg code w =
  Done (Raise (SystemExit code)) (after (EvLog ERROR msg) w).
Proof. unfold error_and_exit, bind. by rewrite logging_error_run. Qed.

Lemma parse_custom_Some (tok : string) (fw fh : spec_float) :
  parse_custom tok = Some (fw, fh) ↔
  ∃ a b, tok = a +:+ "x" +:+ b
         ∧ PyStr.count "x" a = 0%nat ∧ PyStr.count "x" b = 0%nat
         ∧ PyFloat.float a = Some fw ∧ PyFloat.float b = Some fh.
Proof.
  unfold parse_custom. split.
  - destruct (PyStr.split "x" tok) as [|a [|b [|??]]] eqn:Hs; try done.
    apply split_two in Hs as (-> & Ha & Hb).
    destruct (PyFloat.float a) as [x|] eqn:Hfa; [|done].
    destruct (PyFloat.float b) as [y|] eqn:Hfb; [|done].
    simpl. intros [= <- <-]. by exists a, b.
  - intros (a & b & -> & Ha & Hb & Hfa & Hfb).
    replace (a +:+ "x" +:+ b) with (a +:+ String "x" b) by done.
    rewrite split_app, split_no_sep by done. by rewrite Hfa, Hfb.
Qed.

Lemma parse_custom_count (tok : string) :
  PyStr.count "x" tok ≠ 1%nat → parse_custom tok = None.
Proof.
  intros H. unfold parse_custom.
  destruct (PyStr.split "x" tok) as [|a [|b [|??]]] eqn:Hs; try done.
  by apply split_two_count in Hs.
Qed.

Lemma spaces_no_x (s : string) :
  spaces (PyStr.chars s) → PyStr.count "x" s = 0%nat.
Proof.
  induction s as [|c s IH]; simpl; [done|]. intros H.
  apply Forall_cons_1 in H as [Hc Hs]. rewrite (IH Hs).
  destruct (decide (c = "x"%char)) as [->|]; [done|done].
Qed.

(** White space around either part of a custom token changes nothing. *)
Lemma parse_custom_padding (pre1 a post1 pre2 b post2 : string) :
  spaces (PyStr.chars pre1) → spaces (PyStr.chars post1) →
  spaces (PyStr.chars pre2) → spaces (PyStr.chars post2) →
  parse_custom ((pre1 +:+ a +:+ post1) +:+ "x" +:+ (pre2 +:+ b +:+ post2))
  = parse_custom (a +:+ "x" +:+ b).
Proof.
  intros H1 H2 H3 H4.
  pose proof (spaces_no_x _ H1). pose proof (spaces_no_x _ H2).
  pose proof (spaces_no_x _ H3). pose proof (spaces_no_x _ H4).
  replace ((pre1 +:+ a +:+ post1) +:+ "x" +:+ (pre2 +:+ b +:+ post2))
    with ((pre1 +:+ a +:+ post1) +:+ String "x" (pre2 +:+ b +:+ post2)) by done.
  replace (a +:+ "x" +:+ b) with (a +:+ String "x" b) by done.
  destruct (decide (PyStr.count "x" a = 0%nat ∧ PyStr.count "x" b = 0%nat))
    as [[Ha Hb]|Hn].
  - unfold parse_custom.
    rewrite !split_app, !split_no_sep by (rewrite ?count_app; lia).
    by rewrite !float_strip.
  - rewrite !parse_custom_count; [done|..];
      rewrite ?count_app; simpl; rewrite ?count_app; lia.
Qed.

(** ** Running [main]: what each block does to the world *)

Ltac run_script :=
  cbv beta delta [bind ret raise emit get_fs put_fs set_level
    os_path_isfile os_path_isdir os_path_exists os_mkdir shutil_rmtree
    subprocess_run save set_slide_width set_slide_height add_picture_slide];
  cbn beta iota zeta delta [fs logger_level events].

Ltac same_world :=
  unfold after; cbn [fs logger_level events app];
  rewrite <- ?app_assoc; cbn [app]; reflexivity.

Section runs.
Context (env : Env).

(** Steps 1 to 3 of [main], case by case. *)
Lemma main_rasterize_run (args : Args) (w : world) :
  main_rasterize env args w =
  let lvl := level_of args in
  let temp := temp_dir_of args in
  let cmd := convert_cmd_of args in
  if negb (isfile (input_pdf args) (fs w)) then
    Done (Raise (SystemExit 1))
      (Build_world (fs w) lvl (events w ++ [EvLog ERROR (msg_pdf_missing args)]))
  else if exists_ temp (fs w) then
    Done (Raise (SystemExit 1))
      (Build_world (fs w) lvl (events w ++ [EvLog ERROR (msg_temp_exists args)]))
  else
    match mkdir_error env temp (fs w) with
    | Some e =>
        Done (Raise (SystemExit 1))
          (Build_world (fs w) lvl
             (events w ++ [EvMkdir temp; EvLog ERROR (msg_mkdir_failed args e)]))
    | None =>
        let ev := events w ++ [EvMkdir temp] ++ info args (msg_running args)
                  ++ [EvRun cmd] in
        match run_process env cmd (<[temp := Dir]> (fs w)) with
        | SpawnFailed e =>
            Done (Raise (Uncaught "OSError" e))
              (Build_world (<[temp := Dir]> (fs w)) lvl ev)
        | Exited status f' =>
            if decide (status = 0) then
              Done (Ret tt) (Build_world f' lvl (ev ++ info args msg_converted))
            else if isdir temp f' && negb (retain_image_files args) then
              Done (Raise (SystemExit 1))
                (Build_world (after_rmtree env true temp f') lvl
                   (ev ++ [EvRmtree temp true;
                           EvLog ERROR (msg_convert_failed env args status)]))
            else
              Done (Raise (SystemExit 1))
                (Build_world f' lvl
                   (ev ++ [EvLog ERROR (msg_convert_failed env args status)]))
        end
    end.
Proof.
  destruct w as [f l0 ev0].
  unfold main_rasterize, level_of, info, after_rmtree.
  unfold msg_pdf_missing, msg_temp_exists, msg_mkdir_failed, msg_running,
    msg_convert_failed, msg_converted.
  run_script.
  destruct (verbose args); run_script;
  (destruct (isfile (input_pdf args) f); cbn [negb]; run_script;
   [|by rewrite (error_and_exit_run (A:=unit))]);
  (destruct (exists_ (temp_dir_of args) f) eqn:Hfree; run_script;
   [by rewrite (error_and_exit_run (A:=unit))|]);
  rewrite Hfree;
  (destruct (mkdir_error env (temp_dir_of args) f); run_script;
   [rewrite (error_and_exit_run (A:=unit)); same_world|]);
  rewrite ?logging_info_verbose, ?logging_info_quiet; run_script;
  (destruct (run_process env _ _) as [e|status f']; run_script;
   [same_world|]);
  (destruct (decide (status = 0)); run_script;
   [rewrite ?logging_info_verbose, ?logging_info_quiet; same_world|]);
  (destruct (isdir (temp_dir_of args) f' && negb (retain_image_files args));
   run_script;
   [destruct (rmtree_error env true (temp_dir_of args) f') as [[e f'']|];
    run_script|];
   rewrite (error_and_exit_run (A:=unit)); same_world).
Qed.

Lemma main_rasterize_ok (args : Args) (w : world) (f' : gmap string node) :
  rasterizes env args w f' →
  main_rasterize env args w
  = Done (Ret tt) (Build_world f' (level_of args) (events w ++ rasterize_events args)).
Proof.
  intros (Hpdf & Hfree & Hmk & Hrun). rewrite main_rasterize_run. cbn zeta.
  unfold isfile, exists_. rewrite Hpdf, Hfree, Hmk, Hrun.
  rewrite bool_decide_eq_true_2 by done.
  rewrite bool_decide_eq_false_2 by (by intros [? [=]]).
  cbn [negb]. rewrite decide_True by done.
  unfold rasterize_events. by rewrite <- !app_assoc.
Qed.

(** *** Steps 4 and 5: the canvas *)

Lemma parse_slide_size_run (tok : string) (w : world) :
  parse_slide_size tok w =
  match slide_size_of tok with
  | Some wh => Done (Ret wh) w
  | None => Done (Raise (SystemExit 1)) (after (EvLog ERROR parse_error_message) w)
  end.
Proof.
  unfold parse_slide_size, slide_size_of.
  repeat case_bool_decide; try done.
  destruct (parse_custom tok); [done|]. apply error_and_exit_run.
Qed.

Lemma Inches_ok (x : spec_float) (v : Z) (w : world) :
  inches_emu x = Some v → Inches x w = Done (Ret v) w.
Proof.
  unfold inches_emu, Inches.
  destruct (PyFloat.mul_int x EMUS_PER_INCH); simpl; try done;
    by intros [= <-].
Qed.

Lemma main_canvas_ok (args : Args) (cx cy : Z) (w : world) :
  canvas env args cx cy →
  main_canvas env args w = Done (Ret (blank cx cy)) w.
Proof.
  intros (wi & hi & Hp & Hx & Hy & Hex & Hey).
  unfold main_canvas, bind. rewrite parse_slide_size_run, Hp.
  rewrite (Inches_ok _ _ _ Hx). unfold set_slide_width. rewrite Hex.
  unfold ret. rewrite (Inches_ok _ _ _ Hy). unfold set_slide_height.
  by rewrite Hey.
Qed.

Lemma main_canvas_bad_size (args : Args) (w : world) :
  slide_size_of (slide_size args) = None →
  main_canvas env args w
  = Done (Raise (SystemExit 1)) (after (EvLog ERROR parse_error_message) w).
Proof.
  intros Hp. unfold main_canvas, bind. by rewrite parse_slide_size_run, Hp.
Qed.

(** *** Step 6: the loop *)

Lemma add_slides_run (args : Args) (n : nat) :
  ∀ (fuel k c : nat) (cx cy : Z) (sl : list Slide)
    (f : gmap string node) (ev : list event),
    (n < fuel)%nat →
    page_run env args f k n →
    add_slides env fuel args
      {| slide_width := cx; slide_height := cy; slides := sl |} k c
      (Build_world f (level_of args) ev)
    = Done (Ret ({| slide_width := cx; slide_height := cy;
                    slides := sl ++ (slide_of args cx cy <$> seq k n) |},
                 (c + n)%nat))
        (Build_world f (level_of args)
           (ev ++ flat_map (λ i, info args (msg_adding args i)) (seq k n))).
Proof.
  induction n as [|n IH]; intros fuel k c cx cy sl f ev Hfuel [Hin Hout].
  - destruct fuel as [|fuel]; [lia|]. simpl. run_script.
    rewrite Nat.add_0_r in Hout. unfold isfile.
    rewrite bool_decide_eq_false_2 by done. cbn [negb].
    by rewrite !app_nil_r, Nat.add_0_r.
  - destruct fuel as [|fuel]; [lia|]. simpl. run_script.
    destruct (Hin k ltac:(lia)) as [Hk Hpic]. unfold isfile.
    rewrite bool_decide_eq_true_2 by done. cbn [negb].
    unfold level_of, info, msg_adding.
    destruct (verbose args) eqn:Hv;
      rewrite ?logging_info_verbose, ?logging_info_quiet;
      run_script; rewrite Hpic; cbn beta iota;
      (ospecialize (IH fuel (k + 1)%nat (c + 1)%nat cx cy _ f _ _ _);
       [lia| |unfold level_of in IH; rewrite Hv in IH; rewrite IH];
       [split; [intros i Hi; apply Hin; lia
               |by replace (k + 1 + n)%nat with (k + S n)%nat by lia]|]);
      unfold info; rewrite Hv;
      replace (k + 1)%nat with (S k) by lia;
      replace (c + 1 + n)%nat with (c + S n)%nat by lia;
      by rewrite <- !app_assoc.
Qed.

(** *** Steps 7 and 8: saving and cleaning up *)

Lemma main_save_cleanup_run (args : Args) (prs : Presentation) (c : nat)
    (f : gmap string node) (ev : list event) :
  main_save_cleanup env args (prs, c) (Build_world f (level_of args) ev) =
  let out := output_pptx args in
  let ev1 := ev ++ [EvSave out prs] in
  if isdir out f then
    Done (Raise (Uncaught "IsADirectoryError"
                   ("[Errno 21] Is a directory: '" +:+ out +:+ "'")))
      (Build_world f (level_of args) ev1)
  else
    match save_error env out f with
    | Some e => Done (Raise (Uncaught "OSError" e)) (Build_world f (level_of args) ev1)
    | None =>
        let f1 := <[out := File]> f in
        Done (Ret tt)
          (Build_world
             (if retain_image_files args then f1
              else after_rmtree env false (temp_dir_of args) f1)
             (level_of args)
             (ev1 ++ info args (msg_created args c) ++ cleanup_events env args f1))
    end.
Proof.
  unfold main_save_cleanup, cleanup_events, after_rmtree, level_of, info.
  unfold msg_created, msg_removing, msg_removed, msg_not_removed, msg_retaining.
  cbn zeta. run_script.
  destruct (isdir (output_pptx args) f); [done|].
  destruct (save_error env (output_pptx args) f); [done|].
  destruct (verbose args);
    rewrite ?logging_info_verbose, ?logging_info_quiet;
    (destruct (retain_image_files args); cbn [negb];
     rewrite ?logging_info_verbose, ?logging_info_quiet;
     [same_world|]);
    run_script;
    (destruct (rmtree_error env false (temp_dir_of args) _) as [[e f'']|];
     run_script;
     rewrite ?logging_info_verbose, ?logging_info_quiet,
       ?logging_warning_run; same_world).
Qed.

End runs.

(** ** The events a computation can add *)

Section adds.
Context (P : event → Prop).

Lemma adds_nothing {A} (m : M A) :
  (∀ w r w', m w = Done r w' → events w' = events w) → adds P m.
Proof.
  intros H w r w' Hm. exists []. rewrite app_nil_r. eauto.
Qed.

Lemma adds_ret {A} (a : A) : adds P (ret a).
Proof. apply adds_nothing. by intros w r w' [= _ ->]. Qed.

Lemma adds_raise {A} (e : exn) : adds P (@raise A e).
Proof. apply adds_nothing. by intros w r w' [= _ ->]. Qed.

Lemma adds_get_fs : adds P get_fs.
Proof. apply adds_nothing. by intros w r w' [= _ ->]. Qed.

Lemma adds_put_fs (f : gmap string node) : adds P (put_fs f).
Proof. apply adds_nothing. by intros w r w' [= _ <-]. Qed.

Lemma adds_set_level (l : log_level) : adds P (set_level l).
Proof. apply adds_nothing. by intros w r w' [= _ <-]. Qed.

Lemma adds_emit (e : event) : P e → adds P (emit e).
Proof.
  intros He w r w' [= _ <-]. exists [e]. split; [done|]. by constructor.
Qed.

Lemma adds_bind {A B} (m : M A) (k : A → M B) :
  adds P m → (∀ a, adds P (k a)) → adds P (bind m k).
Proof.
  intros Hm Hk w r w' Hrun. unfold bind in Hrun.
  destruct (m w) as [[a|e] w1|] eqn:Hmw; [| |done].
  - destruct (Hm _ _ _ Hmw) as (ev1 & E1 & H1).
    destruct (Hk a _ _ _ Hrun) as (ev2 & E2 & H2).
    exists (ev1 ++ ev2). rewrite E2, E1, app_assoc. split; [done|].
    by apply Forall_app.
  - injection Hrun as <- <-. eauto.
Qed.

Lemma adds_log (l : log_level) (msg : string) :
  P (EvLog l msg) → adds P (log l msg).
Proof.
  intros He w r w' Hrun. unfold log in Hrun.
  destruct (levelno (logger_level w) <=? levelno l).
  - by apply (adds_emit _ He w r w').
  - by apply (adds_ret tt w r w').
Qed.

Lemma adds_error_and_exit {A} (msg : string) (code : Z) :
  P (EvLog ERROR msg) → adds P (@error_and_exit A msg code).
Proof.
  intros He. apply adds_bind; [by apply adds_log|].
  intros _. apply adds_raise.
Qed.
End adds.

Ltac adds_step :=
  lazymatch goal with
  | |- adds _ (bind _ _) => apply adds_bind; [|intros ?]
  | |- adds _ (ret _) => apply adds_ret
  | |- adds _ (raise _) => apply adds_raise
  | |- adds _ get_fs => apply adds_get_fs
  | |- adds _ (put_fs _) => apply adds_put_fs
  | |- adds _ (set_level _) => apply adds_set_level
  | |- adds _ (emit _) => apply adds_emit
  | |- adds _ (error_and_exit _ _) => apply adds_error_and_exit
  | |- adds _ (logging_info _) => apply adds_log
  | |- adds _ (logging_warning _) => apply adds_log
  | |- adds _ (logging_error _) => apply adds_log
  | |- adds _ (if ?b then _ else _) => destruct b
  | |- adds _ (match ?x with _ => _ end) => destruct x
  end.

Section alphabet.
Context (env : Env) (P : event → Prop) (args : Args).
Hypothesis P_log : ∀ l msg, P (EvLog l msg).
Hypothesis P_mkdir : P (EvMkdir (temp_dir_of args)).
Hypothesis P_run : P (EvRun (convert_cmd_of args)).
Hypothesis P_rmtree : ∀ b, P (EvRmtree (temp_dir_of args) b).
Hypothesis P_save : ∀ prs, P (EvSave (output_pptx args) prs).

Lemma adds_main_rasterize : adds P (main_rasterize env args).
Proof.
  unfold main_rasterize, os_path_isfile, os_path_exists, os_path_isdir,
    os_mkdir, subprocess_run, shutil_rmtree.
  repeat adds_step; auto.
Qed.

Lemma adds_main_canvas : adds P (main_canvas env args).
Proof.
  unfold main_canvas, parse_slide_size, Inches, set_slide_width, set_slide_height.
  repeat adds_step; auto.
Qed.

Lemma adds_add_slides (fuel : nat) :
  ∀ prs index slide_count, adds P (add_slides env fuel args prs index slide_count).
Proof.
  induction fuel as [|fuel IH]; intros prs index slide_count.
  - by intros w r w' ?.
  - simpl. unfold os_path_isfile, add_picture_slide.
    repeat adds_step; auto.
Qed.

Lemma adds_main_save_cleanup (r : Presentation * nat) :
  adds P (main_save_cleanup env args r).
Proof.
  unfold main_save_cleanup, save, shutil_rmtree. destruct r as [prs c].
  repeat adds_step; auto.
Qed.

(** Every event of [main] is a log record, the creation of the workspace,
    the conversion command, the removal of the workspace or the saving of
    the output file. *)
Lemma adds_main (fuel : nat) : adds P (main env fuel args).
Proof.
  unfold main.
  apply adds_bind; [apply adds_main_rasterize|intros _].
  apply adds_bind; [apply adds_main_canvas|intros prs].
  apply adds_bind; [apply adds_add_slides|intros r].
  apply adds_main_save_cleanup.
Qed.
End alphabet.

(** ** Removing a tree *)

Lemma remove_tree_lookup (p k : string) (f : gmap string node) :
  in_tree p k = true → remove_tree p f !! k = None.
Proof.
  intros Hk. unfold remove_tree. apply map_lookup_filter_None_2.
  right. intros x _. simpl. by rewrite Hk.
Qed.

Lemma remove_tree_root (p : string) (f : gmap string node) :
  remove_tree p f !! p = None.
Proof.
  apply remove_tree_lookup. unfold in_tree.
  by rewrite bool_decide_eq_true_2.
Qed.

Lemma remove_tree_other (p k : string) (f : gmap string node) :
  in_tree p k = false → remove_tree p f !! k = f !! k.
Proof.
  intros Hk. unfold remove_tree. destruct (f !! k) as [x|] eqn:Hf.
  - by apply map_lookup_filter_Some_2.
  - apply map_lookup_filter_None_2. by left.
Qed.

Lemma temp_dir_of_nonempty (args : Args) : temp_dir_of args ≠ "".
Proof.
  unfold temp_dir_of.
  destruct (OsPath.splitext _) as [base ?].
  assert (base +:+ "_temp" ≠ "") by by destruct base.
  destruct (temp_dir args) as [t|]; [|done].
  by case_bool_decide.
Qed.

(** The output pattern of the conversion is the file [page.<ext>] in the
    workspace directory. *)
Lemma page_pattern (args : Args) :
  OsPath.join (temp_dir_of args) ("page." +:+ extension_of args)
  = temp_dir_of args
    +:+ (if PyStr.endswith "/" (temp_dir_of args) then "" else "/")
    +:+ "page." +:+ extension_of args.
Proof.
  unfold OsPath.join. pose proof (temp_dir_of_nonempty args) as Hne.
  rewrite bool_decide_eq_false_2 by done.
  assert (PyStr.startswith "/" ("page." +:+ extension_of args) = false) as ->
    by done.
  by destruct (PyStr.endswith "/" (temp_dir_of args)).
Qed.

Lemma info_no_save (args : Args) (msg : string) :
  Forall (λ e, ¬ is_save e) (info args msg).
Proof. unfold info. destruct (verbose args); repeat constructor; auto. Qed.

Lemma adding_no_save (args : Args) (l : list nat) :
  Forall (λ e, ¬ is_save e) (flat_map (λ i, info args (msg_adding args i)) l).
Proof.
  induction l as [|i l IH]; simpl; [constructor|].
  apply Forall_app. split; [apply info_no_save|exact IH].
Qed.

Lemma rasterize_no_save (args : Args) :
  Forall (λ e, ¬ is_save e) (rasterize_events args).
Proof.
  unfold rasterize_events.
  repeat (apply Forall_app; split); try apply info_no_save;
    repeat constructor; auto.
Qed.

Lemma cleanup_no_save (env : Env) (args : Args) (f : gmap string node) :
  Forall (λ e, ¬ is_save e) (cleanup_events env args f).
Proof.
  unfold cleanup_events. destruct (retain_image_files args).
  - apply info_no_save.
  - repeat (apply Forall_app; split); try apply info_no_save.
    + repeat constructor; auto.
    + destruct (rmtree_error env false (temp_dir_of args) f) as [[e ?]|];
        [repeat constructor; auto|apply info_no_save].
Qed.

(** ** A malformed slide size *)

Lemma slide_size_of_custom (tok : string) :
  ¬ preset tok → slide_size_of tok = parse_custom tok.
Proof.
  intros Hp. unfold slide_size_of.
  rewrite !bool_decide_eq_false_2; [done|..];
    intros Hin; apply Hp; unfold preset; set_unfold; tauto.
Qed.

(** A run that gets to step 4 with a malformed slide size ends there. *)
Lemma main_bad_size (env : Env) (fuel : nat) (args : Args) (w : world)
    (f' : gmap string node) :
  slide_size_of (slide_size args) = None →
  rasterizes env args w f' →
  main env fuel args w
  = Done (Raise (SystemExit 1))
      (Build_world f' (level_of args)
         (events w ++ rasterize_events args ++ [EvLog ERROR parse_error_message])).
Proof.
  intros Hbad Hras. unfold main, bind.
  rewrite (main_rasterize_ok env args w f' Hras).
  rewrite (main_canvas_bad_size env args _ Hbad). unfold after. cbn.
  by rewrite <- app_assoc.
Qed.

(** With a malformed slide size every run ends, and with exit status 1. *)
Lemma main_bad_size_status (env : Env) (fuel : nat) (args : Args) (w : world) :
  slide_size_of (slide_size args) = None →
  status_of (main env fuel args w) = Some 1.
Proof.
  intros Hbad. unfold main, bind. rewrite main_rasterize_run. cbn zeta.
  destruct (negb _); [done|]. destruct (exists_ _ _); [done|].
  destruct (mkdir_error _ _ _); [done|].
  destruct (run_process _ _ _) as [e|status f']; [done|].
  destruct (decide (status = 0)); [|by destruct (_ && _)].
  by rewrite (main_canvas_bad_size env args _ Hbad).
Qed.

Lemma parse_custom_None (tok : string) :
  parse_custom tok = None ↔ ¬ two_floats tok.
Proof.
  split.
  - intros Hnone (a & b & Htok & Ha & Hb & [fw Hfw] & [fh Hfh]).
    assert (parse_custom tok = Some (fw, fh)) as Hsome
      by (apply parse_custom_Some; by exists a, b).
    congruence.
  - intros Hno. destruct (parse_custom tok) as [[fw fh]|] eqn:Hp; [|done].
    apply parse_custom_Some in Hp as (a & b & ? & ? & ? & ? & ?).
    destruct Hno. exists a, b. eauto 10.
Qed.

(** ** The loop of [main] always ends *)

Lemma chars_inj (a b : string) : PyStr.chars a = PyStr.chars b → a = b.
Proof.
  intros H. rewrite <- (String.string_of_list_ascii_of_string a),
    <- (String.string_of_list_ascii_of_string b).
  unfold PyStr.chars in H. by rewrite H.
Qed.

Lemma string_app_inv_tail (a b s : string) : a +:+ s = b +:+ s → a = b.
Proof.
  intros H. apply chars_inj. apply (f_equal PyStr.chars) in H.
  rewrite !chars_app in H. by apply app_inv_tail in H.
Qed.

(** Different indices give different image names. *)
Lemma image_filename_of_inj (args : Args) (i j : nat) :
  image_filename_of args i = image_filename_of args j → i = j.
Proof.
  unfold image_filename_of, OsPath.join.
  assert (∀ k : nat, PyStr.startswith "/"
                 ("page-" +:+ pretty k +:+ "." +:+ extension_of args) = false)
    as Hstart by (intros k; reflexivity).
  rewrite !Hstart. intros H.
  assert ("page-" +:+ pretty i +:+ "." +:+ extension_of args
          = "page-" +:+ pretty j +:+ "." +:+ extension_of args) as Hname.
  { destruct (bool_decide _ || PyStr.endswith _ _).
    - by apply (inj (String.app _)) in H.
    - apply (inj (String.app _)) in H. by apply (inj (String.app _)) in H. }
  apply (inj (String.app "page-")) in Hname.
  apply string_app_inv_tail in Hname. by apply (inj pretty) in Hname.
Qed.

Section termination.
Context (env : Env).

Lemma add_slides_ends (args : Args) (n : nat) :
  ∀ (fuel k c : nat) (prs : Presentation) (w : world),
    (n < fuel)%nat →
    fs w !! image_filename_of args (k + n) ≠ Some File →
    add_slides env fuel args prs k c w ≠ OutOfFuel.
Proof.
  induction n as [|n IH]; intros fuel k c prs w Hfuel Hmiss;
    (destruct fuel as [|fuel]; [lia|]); simpl; run_script; unfold isfile.
  - rewrite Nat.add_0_r in Hmiss. by rewrite bool_decide_eq_false_2.
  - case_bool_decide; cbn [negb]; [|done].
    rewrite logging_info_run. run_script.
    set (w1 := if decide (logger_level w = INFO) then _ else w).
    assert (fs w1 = fs w) as Hfs by (unfold w1; by case_decide).
    destruct (add_picture_error env _ (fs w1)); [done|].
    apply IH; [lia|]. cbn [fs]. rewrite Hfs.
    by replace (k + 1 + n)%nat with (k + S n)%nat by lia.
Qed.

End termination.

(** ** Paths: [rfind], slices, [basename] and [splitext] *)

Lemma rfind_from_absent (c : ascii) (s : string) :
  ∀ i found, PyStr.count c s = 0%nat → PyStr.rfind_from c i found s = found.
Proof.
  induction s as [|x s IH]; intros i found; simpl; [done|].
  destruct (decide (x = c)); [done|]. simpl. apply IH.
Qed.

(** The last occurrence: nothing after it is the character. *)
Lemma rfind_from_last (c : ascii) (a b : string) :
  ∀ i found, PyStr.count c b = 0%nat →
    PyStr.rfind_from c i found (a +:+ String c b) = i + PyStr.len a.
Proof.
  unfold PyStr.len.
  induction a as [|x a IH]; intros i found Hb; simpl.
  - rewrite decide_True by done. rewrite rfind_from_absent by done. lia.
  - rewrite IH by done. lia.
Qed.

(** A string that has the character splits at its last occurrence. *)
Lemma last_occurrence (c : ascii) (s : string) :
  PyStr.count c s ≠ 0%nat →
  ∃ a b, s = a +:+ String c b ∧ PyStr.count c b = 0%nat.
Proof.
  induction s as [|x s IH]; simpl; [done|]. intros Hs.
  destruct (decide (PyStr.count c s = 0%nat)) as [H0|Hn].
  - destruct (decide (x = c)) as [->|]; [|simpl in Hs; lia].
    by exists "", s.
  - destruct (IH Hn) as (a & b & -> & Hb). by exists (String x a), b.
Qed.

Lemma substring_all (s : string) : String.substring 0 (String.length s) s = s.
Proof. induction s as [|x s IH]; simpl; [done|]. by rewrite IH. Qed.

Lemma substring_skip (a s : string) (m : nat) :
  String.substring (String.length a) m (a +:+ s) = String.substring 0 m s.
Proof. induction a as [|x a IH]; simpl; [done|]. apply IH. Qed.

Lemma substring_prefix (a s : string) :
  String.substring 0 (String.length a) (a +:+ s) = a.
Proof. induction a as [|x a IH]; simpl; [by destruct s|]. by rewrite IH. Qed.

Lemma substring_count (c : ascii) (s : string) :
  ∀ n, (PyStr.count c (String.substring 0 n s) ≤ PyStr.count c s)%nat.
Proof.
  induction s as [|x s IH]; intros [|n]; simpl; try lia.
  specialize (IH n). lia.
Qed.

Lemma string_length_app (a b : string) :
  String.length (a +:+ b) = (String.length a + String.length b)%nat.
Proof. induction a as [|x a IH]; simpl; [done|]. by rewrite IH. Qed.

(** [basename] of a path without a slash is the path. *)
Lemma basename_plain (p : string) :
  PyStr.count "/" p = 0%nat → OsPath.basename p = p.
Proof.
  intros H. unfold OsPath.basename, PyStr.rfind, PyStr.slice, PyStr.len.
  rewrite rfind_from_absent by done. simpl.
  rewrite Z.sub_0_r, Nat2Z.id. apply substring_all.
Qed.

(** [basename] is what follows the last slash. *)
Lemma basename_after_slash (a b : string) :
  PyStr.count "/" b = 0%nat → OsPath.basename (a +:+ String "/" b) = b.
Proof.
  intros H. unfold OsPath.basename, PyStr.rfind, PyStr.slice.
  rewrite rfind_from_last by done. unfold PyStr.len.
  rewrite string_length_app. simpl String.length.
  replace (Z.to_nat (0 + Z.of_nat (String.length a) + 1))
    with (String.length (a +:+ "/")) by (rewrite string_length_app; simpl; lia).
  replace (Z.to_nat _) with (String.length b) by lia.
  replace (a +:+ String "/" b) with ((a +:+ "/") +:+ b).
  - rewrite (substring_skip (a +:+ "/") b). apply substring_all.
  - clear. induction a as [|x a IH]; [done|].
    change (String x ((a +:+ "/") +:+ b) = String x (a +:+ String "/" b)).
    by rewrite IH.
Qed.

Lemma basename_no_slash (p : string) :
  PyStr.count "/" (OsPath.basename p) = 0%nat.
Proof.
  destruct (decide (PyStr.count "/" p = 0%nat)) as [H0|Hn].
  - by rewrite basename_plain.
  - destruct (last_occurrence _ _ Hn) as (a & b & -> & Hb).
    by rewrite basename_after_slash.
Qed.

(** The root that [splitext] returns is a prefix of the path. *)
Lemma splitext_root_count (c : ascii) (p : string) :
  (PyStr.count c (OsPath.splitext p).1 ≤ PyStr.count c p)%nat.
Proof.
  unfold OsPath.splitext. destruct (_ && _); simpl; [|lia].
  unfold PyStr.slice. apply substring_count.
Qed.

(** [splitext] of a file name [root.ext]: the root has a character that is
    not a dot, the extension has neither dot nor slash. *)
Lemma splitext_name (root ext : string) :
  PyStr.count "/" root = 0%nat →
  OsPath.all_dots root = false →
  PyStr.count "." ext = 0%nat → PyStr.count "/" ext = 0%nat →
  OsPath.splitext (root +:+ String "." ext) = (root, String "." ext).
Proof.
  intros Hroot Hdots He1 He2. unfold OsPath.splitext, PyStr.rfind.
  rewrite (rfind_from_last "." root ext) by done.
  rewrite rfind_from_absent.
  2:{ rewrite count_app. simpl. lia. }
  unfold PyStr.slice, PyStr.len.
  replace (Z.to_nat (-1 + 1)) with 0%nat by done.
  replace (Z.to_nat 0) with 0%nat by done.
  replace (Z.to_nat (0 + Z.of_nat (String.length root) - (-1 + 1)))
    with (String.length root) by lia.
  replace (Z.to_nat (0 + Z.of_nat (String.length root) - 0))
    with (String.length root) by lia.
  replace (Z.to_nat (0 + Z.of_nat (String.length root)))
    with (String.length root) by lia.
  rewrite string_length_app.
  replace (Z.to_nat _) with (String.length (String "." ext)) by lia.
  rewrite substring_prefix, Hdots, substring_skip, substring_all.
  assert ((-1 <? 0 + Z.of_nat (String.length root)) = true) as ->
    by (apply Z.ltb_lt; lia).
  done.
Qed.

(** ** A run that finds its pages *)

(** With [N] pages, the run gets to steps 7 and 8 with [N] slides. *)
Lemma main_with_pages (env : Env) (fuel : nat) (args : Args) (w : world)
    (f' : gmap string node) (cx cy : Z) (N : nat) :
  rasterizes env args w f' →
  canvas env args cx cy →
  page_run env args f' 0 N →
  (N < fuel)%nat →
  main env fuel args w
  = main_save_cleanup env args
      ({| slide_width := cx; slide_height := cy;
          slides := slide_of args cx cy <$> seq 0 N |}, N)
      (Build_world f' (level_of args)
         (events w ++ rasterize_events args
          ++ flat_map (λ i, info args (msg_adding args i)) (seq 0 N))).
Proof.
  intros Hras Hcan Hpages Hfuel. unfold main, bind.
  rewrite (main_rasterize_ok env args w f' Hras).
  rewrite (main_canvas_ok env args cx cy _ Hcan). unfold blank.
  rewrite (add_slides_run env args N fuel 0 0 cx cy [] f' _ Hfuel Hpages).
  cbn [app]. by rewrite <- app_assoc.
Qed.

(** ** Taking a run apart *)

Lemma bind_Done_inv {A B} (m : M A) (k : A → M B) (w w' : world) (r : res B) :
  bind m k w = Done r w' →
  (∃ e, m w = Done (Raise e) w' ∧ r = Raise e)
  ∨ (∃ a w1, m w = Done (Ret a) w1 ∧ k a w1 = Done r w').
Proof.
  unfold bind. destruct (m w) as [[a|e] w1|]; [|intros [= <- <-]|done].
  - intros H. right. by exists a, w1.
  - left. by exists e.
Qed.

Lemma bind_Ret_inv {A B} (m : M A) (k : A → M B) (w w' : world) (b : B) :
  bind m k w = Done (Ret b) w' →
  ∃ a w1, m w = Done (Ret a) w1 ∧ k a w1 = Done (Ret b) w'.
Proof.
  intros H. apply bind_Done_inv in H as [(e & _ & [=])|H]. exact H.
Qed.

Lemma main_save_cleanup_bind (env : Env) (args : Args) (prs : Presentation)
    (c : nat) :
  main_save_cleanup env args (prs, c)
  = bind (save env prs (output_pptx args)) (λ _, after_save env args c).
Proof. reflexivity. Qed.

Lemma main_after_rasterize (env : Env) (fuel : nat) (args : Args) :
  main env fuel args
  = bind (main_rasterize env args) (λ _, after_rasterize env fuel args).
Proof. reflexivity. Qed.

(** [save] records its call, whether it succeeds or not. *)
Lemma save_events (env : Env) (prs : Presentation) (p : string)
    (w w' : world) (r : res unit) :
  save env prs p w = Done r w' → events w' = events w ++ [EvSave p prs].
Proof.
  unfold save. run_script.
  destruct (isdir p (fs w)); [by intros [= _ <-]|].
  destruct (save_error env p (fs w)); by intros [= _ <-].
Qed.

Lemma adds_after_save (env : Env) (P : event → Prop) (args : Args) (c : nat) :
  (∀ l msg, P (EvLog l msg)) → (∀ b, P (EvRmtree (temp_dir_of args) b)) →
  adds P (after_save env args c).
Proof.
  intros Hlog Hrm. unfold after_save, shutil_rmtree. repeat adds_step; auto.
Qed.

(** Steps 7 and 8 call [save] first, on the presentation they are given and
    on the output path, and never again. *)
Lemma main_save_cleanup_events (env : Env) (args : Args) (prs : Presentation)
    (c : nat) (w w' : world) (r : res unit) :
  main_save_cleanup env args (prs, c) w = Done r w' →
  ∃ rest, events w' = events w ++ [EvSave (output_pptx args) prs] ++ rest
          ∧ Forall (λ e, ¬ is_save e) rest.
Proof.
  rewrite main_save_cleanup_bind. intros H.
  apply bind_Done_inv in H as [(e & Hsave & _)|([] & w1 & Hsave & Hrest)].
  - exists []. split; [|constructor]. by apply save_events in Hsave.
  - apply save_events in Hsave.
    destruct (adds_after_save env (λ e, ¬ is_save e) args c) with
      (w := w1) (r := r) (w' := w') as (rest & Hev & Hall); auto.
    exists rest. by rewrite Hev, Hsave, <- app_assoc.
Qed.

(** Steps 4 and 5 return a presentation without slides. *)
Lemma main_canvas_blank (env : Env) (args : Args) (w w' : world)
    (prs : Presentation) :
  main_canvas env args w = Done (Ret prs) w' → slides prs = [].
Proof.
  unfold main_canvas. intros H.
  apply bind_Ret_inv in H as ([wi hi] & w1 & _ & H).
  apply bind_Ret_inv in H as (cx & w2 & _ & H).
  apply bind_Ret_inv in H as (prs1 & w3 & H1 & H).
  apply bind_Ret_inv in H as (cy & w4 & _ & H).
  unfold set_slide_width in H1. unfold set_slide_height in H.
  destruct (slide_size_error env cx); [done|].
  destruct (slide_size_error env cy); [done|].
  injection H1 as <- _. by injection H as <- _.
Qed.

(** The loop only appends slides, the one of the image [k] first, and never
    changes the size of the canvas. *)
Lemma add_slides_deck (env : Env) (args : Args) (fuel : nat) :
  ∀ (k c : nat) (prs prs' : Presentation) (c' : nat) (w w' : world),
    add_slides env fuel args prs k c w = Done (Ret (prs', c')) w' →
    ∃ n, prs' = {| slide_width := slide_width prs;
                   slide_height := slide_height prs;
                   slides := slides prs
                             ++ (slide_of args (slide_width prs) (slide_height prs)
                                 <$> seq k n) |}
         ∧ c' = (c + n)%nat.
Proof.
  induction fuel as [|fuel IH]; intros k c prs prs' c' w w'; simpl; [done|].
  intros H. apply bind_Ret_inv in H as (present & w1 & _ & H).
  destruct present; cbn [negb] in H.
  - apply bind_Ret_inv in H as ([] & w2 & _ & H).
    apply bind_Ret_inv in H as (prs1 & w3 & Hadd & H).
    unfold add_picture_slide in Hadd.
    apply bind_Ret_inv in Hadd as (f & w4 & _ & Hadd).
    destruct (add_picture_error env _ f); [done|].
    injection Hadd as <- _.
    apply IH in H as (n & -> & ->). exists (S n). cbn [slide_width slide_height slides].
    split; [|lia]. f_equal. rewrite <- app_assoc. cbn [seq fmap list_fmap app].
    by replace (k + 1)%nat with (S k) by lia.
  - injection H as <- <- _. exists 0%nat. cbn [seq fmap list_fmap].
    rewrite app_nil_r, Nat.add_0_r. by destruct prs.
Qed.

(** ** Steps 4 to 6 do not touch the file system *)

Lemma keeps_fs_bind {A B} (m : M A) (k : A → M B) :
  keeps_fs m → (∀ a, keeps_fs (k a)) → keeps_fs (bind m k).
Proof.
  intros Hm Hk w r w' H.
  apply bind_Done_inv in H as [(e & H & _)|(a & w1 & H1 & H2)].
  - by apply Hm in H.
  - apply Hm in H1. apply Hk in H2. congruence.
Qed.

Lemma keeps_fs_log (l : log_level) (msg : string) : keeps_fs (log l msg).
Proof.
  intros w r w'. unfold log, emit. destruct (_ <=? _); by intros [= _ <-].
Qed.

Ltac keeps_fs_step :=
  lazymatch goal with
  | |- keeps_fs (bind _ _) => apply keeps_fs_bind; [|intros ?]
  | |- keeps_fs (logging_info _) => apply keeps_fs_log
  | |- keeps_fs (logging_warning _) => apply keeps_fs_log
  | |- keeps_fs (logging_error _) => apply keeps_fs_log
  | |- keeps_fs (if ?b then _ else _) => destruct b
  | |- keeps_fs (match ?x with _ => _ end) => destruct x
  | |- keeps_fs _ => by intros ??? [= _ <-]
  end.

Lemma keeps_fs_main_canvas (env : Env) (args : Args) :
  keeps_fs (main_canvas env args).
Proof.
  unfold main_canvas, parse_slide_size, Inches, set_slide_width,
    set_slide_height, error_and_exit.
  repeat keeps_fs_step.
Qed.

Lemma keeps_fs_add_slides (env : Env) (args : Args) (fuel : nat) :
  ∀ prs k c, keeps_fs (add_slides env fuel args prs k c).
Proof.
  induction fuel as [|fuel IH]; intros prs k c; simpl; [by intros ???|].
  unfold os_path_isfile, add_picture_slide. repeat keeps_fs_step. apply IH.
Qed.

(** ** The shape of every run *)

(** Steps 1 to 3 return only when they all succeed. *)
Lemma main_rasterize_Ret (env : Env) (args : Args) (w w1 : world) :
  main_rasterize env args w = Done (Ret tt) w1 →
  rasterizes env args w (fs w1)
  ∧ logger_level w1 = level_of args
  ∧ events w1 = events w ++ rasterize_events args.
Proof.
  rewrite main_rasterize_run. cbn zeta. unfold isfile, exists_, rasterizes.
  case_bool_decide as Hpdf; cbn [negb]; [|done].
  case_bool_decide as Hfree; [done|].
  destruct (mkdir_error env _ _) eqn:Hmk; [done|].
  destruct (run_process env _ _) as [e|status f'] eqn:Hrun; [done|].
  destruct (decide (status = 0)) as [->|]; [|by destruct (_ && _)].
  intros [= <-]. cbn [fs]. split.
  - repeat split; try done. apply eq_None_not_Some. exact Hfree.
  - split; [done|]. unfold rasterize_events. cbn [events].
    rewrite <- !app_assoc. cbn [app]. by rewrite <- !app_assoc.
Qed.

(** Steps 4 to 8 either stop before step 7, without any [save], and then by
    an exception, or call [save] exactly once, on the output path, on the
    slides of the images 0 to n-1 for some n, and on the file system they
    started with. *)
Lemma after_rasterize_shape (env : Env) (fuel : nat) (args : Args)
    (w w' : world) (r : res unit) :
  after_rasterize env fuel args w = Done r w' →
  ∃ before,
    Forall (λ e, ¬ is_save e) before
    ∧ ((events w' = events w ++ before ∧ r ≠ Ret tt)
       ∨ ∃ prs c w3 rest,
           page_deck args prs
           ∧ fs w3 = fs w
           ∧ events w3 = events w ++ before
           ∧ main_save_cleanup env args (prs, c) w3 = Done r w'
           ∧ events w' = events w ++ before
                         ++ [EvSave (output_pptx args) prs] ++ rest
           ∧ Forall (λ e, ¬ is_save e) rest).
Proof.
  unfold after_rasterize. intros H.
  apply bind_Done_inv in H as [(e & H2 & ->)|(prs0 & w2 & H2 & H)].
  - destruct (adds_main_canvas env (λ e, ¬ is_save e) args)
      with (w := w) (r := @Raise Presentation e) (w' := w')
      as (ev2 & Hev2 & Hall2); auto.
    exists ev2. split; [done|]. by left.
  - destruct (adds_main_canvas env (λ e, ¬ is_save e) args)
      with (w := w) (r := Ret prs0) (w' := w2)
      as (ev2 & Hev2 & Hall2); auto.
    apply main_canvas_blank in H2 as Hblank.
    apply keeps_fs_main_canvas in H2 as Hfs2.
    apply bind_Done_inv in H as [(e & H3 & ->)|([prs c] & w3 & H3 & H)].
    + destruct (adds_add_slides env (λ e, ¬ is_save e) args)
        with (fuel := fuel) (prs := prs0) (index := 0%nat)
             (slide_count := 0%nat) (w := w2)
             (r := @Raise (Presentation * nat) e) (w' := w')
        as (ev3 & Hev3 & Hall3); auto.
      exists (ev2 ++ ev3). split; [by apply Forall_app_2|].
      left. by rewrite Hev3, Hev2, <- !app_assoc.
    + destruct (adds_add_slides env (λ e, ¬ is_save e) args)
        with (fuel := fuel) (prs := prs0) (index := 0%nat)
             (slide_count := 0%nat) (w := w2)
             (r := Ret (prs, c)) (w' := w3)
        as (ev3 & Hev3 & Hall3); auto.
      apply keeps_fs_add_slides in H3 as Hfs3.
      apply add_slides_deck in H3 as (n & -> & _).
      apply main_save_cleanup_events in H as Hshape.
      destruct Hshape as (rest & Hev & Hrest).
      exists (ev2 ++ ev3). split; [by apply Forall_app_2|].
      right. eexists _, c, w3, rest.
      split; [|split; [congruence|split; [|split; [exact H|split; [|done]]]]].
      * unfold page_deck. exists n. cbn [slides slide_width slide_height].
        by rewrite Hblank.
      * by rewrite Hev3, Hev2, <- !app_assoc.
      * by rewrite Hev, Hev3, Hev2, <- !app_assoc.
Qed.

(** ** Counting events *)

Lemma occurrences_app (test : event → bool) (a b : list event) :
  occurrences test (a ++ b) = (occurrences test a + occurrences test b)%nat.
Proof. unfold occurrences. by rewrite filter_app, length_app. Qed.

Lemma occurrences_none (test : event → bool) (evs : list event) :
  Forall (λ e, test e = false) evs → occurrences test evs = 0%nat.
Proof.
  unfold occurrences. induction 1 as [|e evs He _ IH]; [done|].
  rewrite filter_cons_False; [done|]. by rewrite He.
Qed.

Lemma occurrences_cons (test : event → bool) (e : event) (evs : list event) :
  occurrences test (e :: evs)
  = ((if test e then 1 else 0) + occurrences test evs)%nat.
Proof.
  unfold occurrences. rewrite filter_cons.
  destruct (test e); by case_decide.
Qed.

Lemma occurrences_nil (test : event → bool) : occurrences test [] = 0%nat.
Proof. reflexivity. Qed.

Lemma no_save_occurrences (evs : list event) :
  Forall (λ e, ¬ is_save e) evs → occurrences is_saving evs = 0%nat.
Proof.
  intros H. apply occurrences_none. eapply Forall_impl; [exact H|].
  by intros [] He; simpl in *.
Qed.

Lemma no_save_elem (evs : list event) (p : string) (prs : Presentation) :
  Forall (λ e, ¬ is_save e) evs → EvSave p prs ∉ evs.
Proof.
  intros H Hin. rewrite Forall_forall in H. by apply (H _ Hin).
Qed.

(** [save] returns only when the path is not a directory and the write
    succeeds; the path is then a file. *)
Lemma save_Ret (env : Env) (prs : Presentation) (p : string) (w w' : world) :
  save env prs p w = Done (Ret tt) w' →
  fs w !! p ≠ Some Dir ∧ save_error env p (fs w) = None
  ∧ fs w' = <[p := File]> (fs w).
Proof.
  unfold save. run_script. unfold isdir. case_bool_decide as Hdir; [done|].
  destruct (save_error env p (fs w)); [done|]. by intros [= <-].
Qed.

(** ** Exit codes *)

Lemma exits_with_bind (c : Z) {A B} (m : M A) (k : A → M B) :
  exits_with c m → (∀ a, exits_with c (k a)) → exits_with c (bind m k).
Proof.
  intros Hm Hk w code w' H.
  apply bind_Done_inv in H as [(e & H & [= <-])|(a & w1 & _ & H)].
  - by apply Hm in H.
  - by apply Hk in H.
Qed.

Lemma exits_with_log (c : Z) (l : log_level) (msg : string) :
  exits_with c (log l msg).
Proof. intros w code w'. unfold log, emit. by destruct (_ <=? _). Qed.

Ltac exits_with_step :=
  lazymatch goal with
  | |- exits_with _ (bind _ _) => apply exits_with_bind; [|intros ?]
  | |- exits_with _ (logging_info _) => apply exits_with_log
  | |- exits_with _ (logging_warning _) => apply exits_with_log
  | |- exits_with _ (logging_error _) => apply exits_with_log
  | |- exits_with _ (if ?b then _ else _) => destruct b
  | |- exits_with _ (match ?x with _ => _ end) => destruct x
  | |- exits_with _ _ => by intros ??? [= <- _]
  end.

Lemma exits_with_main_rasterize (env : Env) (args : Args) :
  exits_with 1 (main_rasterize env args).
Proof.
  unfold main_rasterize, os_path_isfile, os_path_exists, os_path_isdir,
    os_mkdir, subprocess_run, shutil_rmtree, error_and_exit.
  repeat exits_with_step.
Qed.

Lemma exits_with_main_canvas (env : Env) (args : Args) :
  exits_with 1 (main_canvas env args).
Proof.
  unfold main_canvas, parse_slide_size, Inches, set_slide_width,
    set_slide_height, error_and_exit.
  repeat exits_with_step.
Qed.

Lemma exits_with_add_slides (env : Env) (args : Args) (fuel : nat) :
  ∀ prs k c, exits_with 1 (add_slides env fuel args prs k c).
Proof.
  induction fuel as [|fuel IH]; intros prs k c; simpl; [by intros ???|].
  unfold os_path_isfile, add_picture_slide. repeat exits_with_step. apply IH.
Qed.

Lemma exits_with_main_save_cleanup (env : Env) (args : Args)
    (r : Presentation * nat) :
  exits_with 1 (main_save_cleanup env args r).
Proof.
  unfold main_save_cleanup, save, shutil_rmtree. destruct r as [prs c].
  repeat exits_with_step.
Qed.

(** ** Quiet runs *)

Lemma quietly_bind {A B} (m : M A) (k : A → M B) :
  quietly m → (∀ a, quietly (k a)) → quietly (bind m k).
Proof.
  intros Hm Hk w r w' Hlvl H.
  apply bind_Done_inv in H as [(e & H & _)|(a & w1 & H1 & H2)].
  - by apply Hm in H.
  - apply Hm in H1 as (Hlvl1 & ev1 & Hev1 & Hall1); [|done].
    apply Hk in H2 as (Hlvl2 & ev2 & Hev2 & Hall2); [|done].
    split; [done|]. exists (ev1 ++ ev2).
    rewrite Hev2, Hev1, <- app_assoc. split; [done|]. by apply Forall_app_2.
Qed.

Lemma quietly_silent {A} (m : M A) :
  (∀ w r w', m w = Done r w' →
     logger_level w' = logger_level w ∧ events w' = events w) →
  quietly m.
Proof.
  intros Hm w r w' Hlvl H. apply Hm in H as [H1 H2].
  split; [congruence|]. exists []. by rewrite app_nil_r.
Qed.

Lemma quietly_log (l : log_level) (msg : string) : quietly (log l msg).
Proof.
  intros w r w' Hlvl. unfold log, emit. rewrite Hlvl.
  destruct l; simpl; intros [= _ <-]; cbn [logger_level events].
  - split; [done|]. exists []. by rewrite app_nil_r.
  - split; [done|]. eexists [_]. split; [done|]. by repeat constructor.
  - split; [done|]. eexists [_]. split; [done|]. by repeat constructor.
Qed.

Lemma quietly_emit (e : event) : not_info e → quietly (emit e).
Proof.
  intros He w r w' Hlvl [= _ <-]. cbn [logger_level events].
  split; [done|]. exists [e]. split; [done|]. by repeat constructor.
Qed.

Ltac quietly_step :=
  lazymatch goal with
  | |- quietly (bind _ _) => apply quietly_bind; [|intros ?]
  | |- quietly (logging_info _) => apply quietly_log
  | |- quietly (logging_warning _) => apply quietly_log
  | |- quietly (logging_error _) => apply quietly_log
  | |- quietly (emit _) => by apply quietly_emit
  | |- quietly (if ?b then _ else _) => destruct b
  | |- quietly (match ?x with _ => _ end) => destruct x
  | |- quietly _ => apply quietly_silent; by intros ??? [= _ <-]
  end.

Lemma quietly_main_canvas (env : Env) (args : Args) :
  quietly (main_canvas env args).
Proof.
  unfold main_canvas, parse_slide_size, Inches, set_slide_width,
    set_slide_height, error_and_exit.
  repeat quietly_step.
Qed.

Lemma quietly_add_slides (env : Env) (args : Args) (fuel : nat) :
  ∀ prs k c, quietly (add_slides env fuel args prs k c).
Proof.
  induction fuel as [|fuel IH]; intros prs k c; simpl; [by intros ????|].
  unfold os_path_isfile, add_picture_slide. repeat quietly_step. apply IH.
Qed.

Lemma quietly_main_save_cleanup (env : Env) (args : Args)
    (r : Presentation * nat) :
  quietly (main_save_cleanup env args r).
Proof.
  unfold main_save_cleanup, save, shutil_rmtree. destruct r as [prs c].
  repeat quietly_step.
Qed.

Lemma quietly_after_rasterize (env : Env) (fuel : nat) (args : Args) :
  quietly (after_rasterize env fuel args).
Proof.
  unfold after_rasterize.
  apply quietly_bind; [apply quietly_main_canvas|intros prs].
  apply quietly_bind; [apply quietly_add_slides|intros r].
  apply quietly_main_save_cleanup.
Qed.

(** Without [-v], steps 1 to 3 set the logger to [WARNING] and emit no
    [INFO] record. *)
Lemma main_rasterize_quiet (env : Env) (args : Args) (w w1 : world)
    (r : res unit) :
  verbose args = false →
  main_rasterize env args w = Done r w1 →
  logger_level w1 = WARNING
  ∧ ∃ evs, events w1 = events w ++ evs ∧ Forall not_info evs.
Proof.
  intros Hv. rewrite main_rasterize_run. cbn zeta. unfold level_of, info.
  rewrite Hv. cbn [app].
  destruct (negb _); [|destruct (exists_ _ _);
    [|destruct (mkdir_error _ _ _);
      [|destruct (run_process _ _ _) as [e|status f'];
        [|destruct (decide (status = 0)); [|destruct (_ && _)]]]]];
    intros [= <- <-]; (split; [done|]); cbn [events];
    rewrite <- ?app_assoc; eexists; (split; [reflexivity|]);
    by repeat constructor.
Qed.

(** ** How often a run calls the outside world *)

Lemma at_most_bind {A B} (test : event → bool) (n1 n2 : nat) (m : M A)
    (k : A → M B) :
  at_most test n1 m → (∀ a, at_most test n2 (k a)) →
  at_most test (n1 + n2) (bind m k).
Proof.
  intros Hm Hk w r w' H.
  apply bind_Done_inv in H as [(e & H & _)|(a & w1 & H1 & H2)].
  - apply Hm in H as (evs & Hev & Hn). exists evs. split; [done|lia].
  - apply Hm in H1 as (ev1 & Hev1 & Hn1). apply Hk in H2 as (ev2 & Hev2 & Hn2).
    exists (ev1 ++ ev2). rewrite Hev2, Hev1, <- app_assoc, occurrences_app.
    split; [done|lia].
Qed.

Lemma at_most_none {A} (test : event → bool) (m : M A) :
  adds (λ e, test e = false) m → at_most test 0 m.
Proof.
  intros Hm w r w' H. apply Hm in H as (evs & Hev & Hall).
  exists evs. split; [done|]. by rewrite occurrences_none.
Qed.

Lemma at_most_single {A} (test : event → bool) (m : M A) (e : event) :
  (∀ w r w', m w = Done r w' → events w' = events w ++ [e]) →
  at_most test 1 m.
Proof.
  intros Hm w r w' H. apply Hm in H. exists [e]. split; [done|].
  rewrite occurrences_cons, occurrences_nil. destruct (test e); lia.
Qed.

(** [shutil.rmtree] records its call, whether it succeeds or not. *)
Lemma shutil_rmtree_events (env : Env) (p : string) (b : bool) (w w' : world)
    (r : res (option string)) :
  shutil_rmtree env p b w = Done r w' → events w' = events w ++ [EvRmtree p b].
Proof.
  unfold shutil_rmtree. run_script.
  destruct (rmtree_error env b p (fs w)) as [[msg f']|]; by intros [= _ <-].
Qed.

Section counts.
Context (env : Env) (args : Args) (test : event → bool).
Hypothesis test_log : ∀ l msg, test (EvLog l msg) = false.

Lemma at_most_log (l : log_level) (msg : string) : at_most test 0 (log l msg).
Proof. apply at_most_none, adds_log, test_log. Qed.

(** Steps 4 to 6 only log. *)
Lemma at_most_main_canvas : at_most test 0 (main_canvas env args).
Proof.
  apply at_most_none.
  unfold main_canvas, parse_slide_size, Inches, set_slide_width, set_slide_height.
  repeat adds_step; auto.
Qed.

Lemma at_most_add_slides (fuel : nat) (prs : Presentation) (k c : nat) :
  at_most test 0 (add_slides env fuel args prs k c).
Proof.
  apply at_most_none. revert prs k c.
  induction fuel as [|fuel IH]; intros prs k c; [by intros w r w' ?|].
  simpl. unfold os_path_isfile, add_picture_slide.
  repeat adds_step; auto.
Qed.

(** Step 8 calls [rmtree] at most once, and nothing else. *)
Lemma at_most_after_save (c : nat) :
  at_most test (if test (EvRmtree (temp_dir_of args) false) then 1 else 0)
    (after_save env args c).
Proof.
  destruct (test (EvRmtree (temp_dir_of args) false)) eqn:Hrm.
  - unfold after_save.
    apply (at_most_bind test 0 1); [apply at_most_log|intros _].
    destruct (negb _).
    + apply (at_most_bind test 0 1); [apply at_most_log|intros _].
      apply (at_most_bind test 1 0).
      * apply at_most_single with (e := EvRmtree (temp_dir_of args) false).
        intros w r w'. apply shutil_rmtree_events.
      * intros [msg|]; apply at_most_log.
    + intros w r w' H. apply at_most_log in H as (evs & Hev & Hn).
      exists evs. split; [done|lia].
  - apply at_most_none. unfold after_save, shutil_rmtree.
    repeat adds_step; auto.
Qed.

(** Step 7 calls [save] once, and nothing else. *)
Lemma at_most_save (prs : Presentation) (p : string) :
  at_most test 1 (save env prs p).
Proof.
  apply at_most_single with (e := EvSave p prs). intros w r w'.
  apply save_events.
Qed.

Lemma at_most_save_other (prs : Presentation) (p : string) :
  test (EvSave p prs) = false → at_most test 0 (save env prs p).
Proof.
  intros Ht w r w' H. apply save_events in H. exists [EvSave p prs].
  split; [done|]. by rewrite occurrences_cons, occurrences_nil, Ht.
Qed.
End counts.

(** Steps 1 to 3 call [mkdir] and the command at most once each, never
    [save], and [rmtree] at most once and only when they do not return. *)
Lemma main_rasterize_counts (env : Env) (args : Args) (w w1 : world)
    (r : res unit) :
  main_rasterize env args w = Done r w1 →
  ∃ evs, events w1 = events w ++ evs
    ∧ (occurrences is_mkdir evs ≤ 1)%nat
    ∧ (occurrences is_run evs ≤ 1)%nat
    ∧ (occurrences is_rmtree evs ≤ 1)%nat
    ∧ occurrences is_saving evs = 0%nat
    ∧ (r = Ret tt → occurrences is_rmtree evs = 0%nat).
Proof.
  rewrite main_rasterize_run. cbn zeta. unfold info.
  destruct (verbose args); cbn [app];
  (destruct (negb _); [|destruct (exists_ _ _);
    [|destruct (mkdir_error _ _ _);
      [|destruct (run_process _ _ _) as [e|status f'];
        [|destruct (decide (status = 0)); [|destruct (_ && _)]]]]]);
    intros [= <- <-]; cbn [events]; rewrite <- ?app_assoc; cbn [app];
    eexists; (split; [reflexivity|]);
    rewrite ?occurrences_cons, ?occurrences_nil;
    cbn [is_mkdir is_run is_rmtree is_saving]; repeat split; (lia || done).
Qed.

(** Steps 4 to 8 call neither [mkdir] nor the command, and [rmtree] and
    [save] at most once each. *)
Lemma after_rasterize_counts (env : Env) (fuel : nat) (args : Args)
    (w w' : world) (r : res unit) :
  after_rasterize env fuel args w = Done r w' →
  ∃ evs, events w' = events w ++ evs
    ∧ occurrences is_mkdir evs = 0%nat
    ∧ occurrences is_run evs = 0%nat
    ∧ (occurrences is_rmtree evs ≤ 1)%nat
    ∧ (occurrences is_saving evs ≤ 1)%nat.
Proof.
  intros H.
  assert (∀ test n, (∀ l msg, test (EvLog l msg) = false) →
            (∀ prs c, at_most test n (main_save_cleanup env args (prs, c))) →
            at_most test n (after_rasterize env fuel args)) as Hblock.
  { intros test n Hlog Hn. unfold after_rasterize.
    apply (at_most_bind test 0 n); [by apply at_most_main_canvas|intros prs].
    apply (at_most_bind test 0 n); [by apply at_most_add_slides|intros [prs' c]].
    apply Hn. }
  assert (at_most is_mkdir 0 (after_rasterize env fuel args)) as H1.
  { apply Hblock; [done|]. intros prs c. rewrite main_save_cleanup_bind.
    apply (at_most_bind is_mkdir 0 0); [by apply at_most_save_other|intros _].
    by apply (at_most_after_save env args is_mkdir). }
  assert (at_most is_run 0 (after_rasterize env fuel args)) as H2.
  { apply Hblock; [done|]. intros prs c. rewrite main_save_cleanup_bind.
    apply (at_most_bind is_run 0 0); [by apply at_most_save_other|intros _].
    by apply (at_most_after_save env args is_run). }
  assert (at_most is_rmtree 1 (after_rasterize env fuel args)) as H3.
  { apply Hblock; [done|]. intros prs c. rewrite main_save_cleanup_bind.
    apply (at_most_bind is_rmtree 0 1); [by apply at_most_save_other|intros _].
    by apply (at_most_after_save env args is_rmtree). }
  assert (at_most is_saving 1 (after_rasterize env fuel args)) as H4.
  { apply Hblock; [done|]. intros prs c. rewrite main_save_cleanup_bind.
    apply (at_most_bind is_saving 1 0); [by apply at_most_save|intros _].
    by apply (at_most_after_save env args is_saving). }
  apply H1 in H as Ha. apply H2 in H as Hb. apply H3 in H as Hc.
  apply H4 in H as Hd.
  destruct Ha as (evs & Hev & Hn1). destruct Hb as (evs2 & Hev2 & Hn2).
  destruct Hc as (evs3 & Hev3 & Hn3). destruct Hd as (evs4 & Hev4 & Hn4).
  rewrite Hev in Hev2, Hev3, Hev4.
  apply app_inv_head in Hev2 as <-. apply app_inv_head in Hev3 as <-.
  apply app_inv_head in Hev4 as <-.
  exists evs. repeat split; (done || lia).
Qed.

(** ** More iterations do not change a loop that has ended *)

Lemma add_slides_more_fuel (env : Env) (args : Args) (fuel : nat) :
  ∀ (fuel' : nat) (prs : Presentation) (k c : nat) (w w' : world)
    (r : res (Presentation * nat)),
    (fuel ≤ fuel')%nat →
    add_slides env fuel args prs k c w = Done r w' →
    add_slides env fuel' args prs k c w = Done r w'.
Proof.
  induction fuel as [|fuel IH]; intros fuel' prs k c w w' r Hle; [done|].
  destruct fuel' as [|fuel']; [lia|]. simpl. unfold bind.
  destruct (os_path_isfile _ w) as [[[]|e] w1|]; cbn [negb]; try done.
  destruct (logging_info _ w1) as [[[]|e] w2|]; try done.
  destruct (add_picture_slide _ _ _ _ _ _ _ _ w2) as [[prs1|e] w3|]; try done.
  apply IH. lia.
Qed.

(** ** A slide size that parses but is not accepted *)

(** Steps 4 and 5 on a size that parses: the canvas is made, or an
    exception of [Inches] or of python-pptx leaves [main], and nothing is
    logged. *)
Lemma main_canvas_parsed (env : Env) (args : Args) (wi hi : spec_float)
    (w : world) :
  slide_size_of (slide_size args) = Some (wi, hi) →
  (∃ cx cy, canvas env args cx cy)
  ∨ ∃ kind msg, main_canvas env args w = Done (Raise (Uncaught kind msg)) w.
Proof.
  intros Hp. unfold main_canvas, bind. rewrite parse_slide_size_run, Hp.
  destruct (inches_emu wi) as [cx|] eqn:Hx.
  - rewrite (Inches_ok _ _ _ Hx). unfold set_slide_width.
    destruct (slide_size_error env cx) as [msg|] eqn:Hex;
      [right; by exists "ValueError", msg|].
    unfold ret. destruct (inches_emu hi) as [cy|] eqn:Hy.
    + rewrite (Inches_ok _ _ _ Hy). unfold set_slide_height.
      destruct (slide_size_error env cy) as [msg|] eqn:Hey;
        [right; by exists "ValueError", msg|].
      left. exists cx, cy, wi, hi. done.
    + right. unfold inches_emu in Hy. unfold Inches.
      destruct (PyFloat.mul_int hi EMUS_PER_INCH); try done; eauto.
  - right. unfold inches_emu in Hx. unfold Inches.
    destruct (PyFloat.mul_int wi EMUS_PER_INCH); try done; eauto.
Qed.

(** ** [sys.exit] is announced by an [ERROR] record *)

Lemma announces_bind {A B} (m : M A) (k : A → M B) :
  announces m → (∀ a, announces (k a)) → announces (bind m k).
Proof.
  intros Hm Hk w r w' H.
  apply bind_Done_inv in H as [(e & H & ->)|(a & w1 & H1 & H2)].
  - apply Hm in H as (evs & Hev & Hann). by exists evs.
  - apply Hm in H1 as (ev1 & Hev1 & Hann1). apply Hk in H2 as (ev2 & Hev2 & Hann2).
    exists (ev1 ++ ev2). rewrite Hev2, Hev1, <- app_assoc. split; [done|].
    simpl in Hann1. destruct r as [b|[code|kind msg]]; simpl in *.
    + by apply Forall_app_2.
    + destruct Hann2 as (before & msg & -> & Hall).
      exists (ev1 ++ before), msg. rewrite <- app_assoc.
      split; [done|]. by apply Forall_app_2.
    + by apply Forall_app_2.
Qed.

Lemma announces_silent {A} (m : M A) :
  (∀ w r w', m w = Done r w' →
     events w' = events w ∧ ∀ code, r ≠ Raise (SystemExit code)) →
  announces m.
Proof.
  intros Hm w r w' H. apply Hm in H as [Hev Hr]. exists [].
  rewrite app_nil_r. split; [done|].
  destruct r as [a|[code|kind msg]]; simpl; [done| |done]. by destruct (Hr code).
Qed.

Lemma announces_emit (e : event) : not_error e → announces (emit e).
Proof.
  intros He w r w' [= <- <-]. exists [e]. split; [done|]. simpl.
  by constructor.
Qed.

Lemma announces_log (l : log_level) (msg : string) :
  l ≠ ERROR → announces (log l msg).
Proof.
  intros Hl w r w'. unfold log. destruct (_ <=? _).
  - apply announces_emit. by destruct l.
  - intros [= <- <-]. exists []. rewrite app_nil_r. split; [done|constructor].
Qed.

(** [error_and_exit] always emits its record: no level of the logger is
    above [ERROR]. *)
Lemma announces_error_and_exit {A} (msg : string) (code : Z) :
  announces (@error_and_exit A msg code).
Proof.
  intros w r w'. unfold error_and_exit, bind, logging_error, log.
  assert ((levelno (logger_level w) <=? levelno ERROR) = true) as ->
    by (by destruct (logger_level w)).
  intros [= <- <-]. exists [EvLog ERROR msg]. split; [done|].
  exists [], msg. by split.
Qed.

Ltac announces_step :=
  lazymatch goal with
  | |- announces (error_and_exit _ _) => apply announces_error_and_exit
  | |- announces (bind _ _) => apply announces_bind; [|intros ?]
  | |- announces (logging_info _) => by apply announces_log
  | |- announces (logging_warning _) => by apply announces_log
  | |- announces (emit _) => by apply announces_emit
  | |- announces (if ?b then _ else _) => destruct b
  | |- announces (match ?x with _ => _ end) => destruct x
  | |- announces _ => apply announces_silent; by intros ??? [= <- <-]
  end.

Lemma announces_main_rasterize (env : Env) (args : Args) :
  announces (main_rasterize env args).
Proof.
  unfold main_rasterize, os_path_isfile, os_path_exists, os_path_isdir,
    os_mkdir, subprocess_run, shutil_rmtree.
  repeat announces_step.
Qed.

Lemma announces_main_canvas (env : Env) (args : Args) :
  announces (main_canvas env args).
Proof.
  unfold main_canvas, parse_slide_size, Inches, set_slide_width,
    set_slide_height.
  repeat announces_step.
Qed.

Lemma announces_add_slides (env : Env) (args : Args) (fuel : nat) :
  ∀ prs k c, announces (add_slides env fuel args prs k c).
Proof.
  induction fuel as [|fuel IH]; intros prs k c; simpl; [by intros ???|].
  unfold os_path_isfile, add_picture_slide. repeat announces_step. apply IH.
Qed.

Lemma announces_main_save_cleanup (env : Env) (args : Args)
    (r : Presentation * nat) :
  announces (main_save_cleanup env args r).
Proof.
  unfold main_save_cleanup, save, shutil_rmtree. destruct r as [prs c].
  repeat announces_step.
Qed.

(** ** An image that python-pptx cannot read *)

Lemma add_slides_unreadable (env : Env) (args : Args) (msg : string) (n : nat) :
  ∀ (fuel k c : nat) (cx cy : Z) (sl : list Slide)
    (f : gmap string node) (ev : list event),
    (n < fuel)%nat →
    unreadable_at env args f k n msg →
    add_slides env fuel args
      {| slide_width := cx; slide_height := cy; slides := sl |} k c
      (Build_world f (level_of args) ev)
    = Done (Raise (Uncaught "Exception" msg))
        (Build_world f (level_of args)
           (ev ++ flat_map (λ i, info args (msg_adding args i)) (seq k (S n)))).
Proof.
  induction n as [|n IH]; intros fuel k c cx cy sl f ev Hfuel (Hin & Hfile & Herr).
  - destruct fuel as [|fuel]; [lia|]. simpl. run_script.
    rewrite Nat.add_0_r in Hfile, Herr. unfold isfile.
    rewrite bool_decide_eq_true_2 by done. cbn [negb].
    unfold level_of, info, msg_adding.
    destruct (verbose args) eqn:Hv;
      rewrite ?logging_info_verbose, ?logging_info_quiet;
      run_script; rewrite Herr; cbn beta iota; by rewrite ?app_nil_r.
  - destruct fuel as [|fuel]; [lia|]. simpl. run_script.
    destruct (Hin k ltac:(lia)) as [Hk Hpic]. unfold isfile.
    rewrite bool_decide_eq_true_2 by done. cbn [negb].
    unfold level_of, info, msg_adding.
    destruct (verbose args) eqn:Hv;
      rewrite ?logging_info_verbose, ?logging_info_quiet;
      run_script; rewrite Hpic; cbn beta iota;
      (ospecialize (IH fuel (k + 1)%nat (c + 1)%nat cx cy _ f _ _ _);
       [lia| |unfold level_of in IH; rewrite Hv in IH; rewrite IH];
       [split; [intros i Hi; apply Hin; lia
               |by replace (k + 1 + n)%nat with (k + S n)%nat by lia]|]);
      unfold info; rewrite Hv;
      replace (k + 1)%nat with (S k) by lia;
      by rewrite <- ?app_assoc.
Qed.

(** ** What a returning run has been through *)

Lemma Inches_Ret (x : spec_float) (v : Z) (w w' : world) :
  Inches x w = Done (Ret v) w' → inches_emu x = Some v ∧ w' = w.
Proof.
  unfold Inches, inches_emu.
  destruct (PyFloat.mul_int x EMUS_PER_INCH); simpl; try done;
    by intros [= <- <-].
Qed.

(** Steps 4 and 5 return only when the slide size is accepted. *)
Lemma main_canvas_Ret (env : Env) (args : Args) (w w' : world)
    (prs : Presentation) :
  main_canvas env args w = Done (Ret prs) w' →
  ∃ cx cy, canvas env args cx cy ∧ prs = blank cx cy ∧ w' = w.
Proof.
  unfold main_canvas. intros H.
  apply bind_Ret_inv in H as ([wi hi] & w1 & Hp & H).
  rewrite parse_slide_size_run in Hp.
  destruct (slide_size_of (slide_size args)) as [wh|] eqn:Hsize; [|done].
  injection Hp as -> <-.
  apply bind_Ret_inv in H as (cx & w2 & Hx & H).
  apply Inches_Ret in Hx as [Hx ->].
  apply bind_Ret_inv in H as (prs1 & w3 & H1 & H).
  unfold set_slide_width in H1.
  destruct (slide_size_error env cx) eqn:Hex; [done|]. injection H1 as <- <-.
  apply bind_Ret_inv in H as (cy & w4 & Hy & H).
  apply Inches_Ret in Hy as [Hy ->].
  unfold set_slide_height in H.
  destruct (slide_size_error env cy) eqn:Hey; [done|]. injection H as <- <-.
  exists cx, cy. split; [by exists wi, hi|done].
Qed.

(** The loop returns only after it has found the images [k] to [k + n - 1],
    all of them readable, and no image [k + n]. *)
Lemma add_slides_Ret (env : Env) (args : Args) (fuel : nat) :
  ∀ (k c : nat) (prs prs' : Presentation) (c' : nat) (w w' : world),
    add_slides env fuel args prs k c w = Done (Ret (prs', c')) w' →
    ∃ n, (n < fuel)%nat ∧ page_run env args (fs w) k n.
Proof.
  induction fuel as [|fuel IH]; intros k c prs prs' c' w w'; simpl; [done|].
  intros H. apply bind_Ret_inv in H as (present & w1 & Hp & H).
  unfold os_path_isfile, bind, get_fs, ret in Hp. injection Hp as <- <-.
  unfold isfile in H. case_bool_decide as Hfile; cbn [negb] in H.
  - apply bind_Ret_inv in H as ([] & w2 & Hlog & H).
    apply keeps_fs_log in Hlog as Hfs2.
    apply bind_Ret_inv in H as (prs1 & w3 & Hadd & H).
    unfold add_picture_slide in Hadd.
    apply bind_Ret_inv in Hadd as (f & w4 & Hget & Hadd).
    injection Hget as <- <-.
    destruct (add_picture_error env _ (fs w2)) eqn:Hpic; [done|].
    injection Hadd as _ <-. rewrite Hfs2 in Hpic.
    apply IH in H as (n & Hn & Hin & Hout). rewrite Hfs2 in Hin, Hout.
    exists (S n). split; [lia|]. split.
    + intros i Hi. destruct (decide (i = k)) as [->|Hne]; [done|].
      apply Hin. lia.
    + by replace (k + S n)%nat with (k + 1 + n)%nat by lia.
  - exists 0%nat. split; [lia|]. split; [intros i Hi; lia|].
    by rewrite Nat.add_0_r.
Qed.

(** [main] returns only when every step has succeeded. *)
Lemma main_Ret (env : Env) (fuel : nat) (args : Args) (w w' : world) :
  main env fuel args w = Done (Ret tt) w' →
  ∃ f' cx cy N,
    rasterizes env args w f'
    ∧ canvas env args cx cy
    ∧ page_run env args f' 0 N
    ∧ (N < fuel)%nat
    ∧ f' !! output_pptx args ≠ Some Dir
    ∧ save_error env (output_pptx args) f' = None.
Proof.
  intros Hmain. pose proof Hmain as H. rewrite main_after_rasterize in H.
  apply bind_Ret_inv in H as ([] & w1 & H1 & H).
  apply main_rasterize_Ret in H1 as (Hras & _ & _).
  unfold after_rasterize in H.
  apply bind_Ret_inv in H as (prs0 & w2 & H2 & H).
  apply main_canvas_Ret in H2 as (cx & cy & Hcan & -> & ->).
  apply bind_Ret_inv in H as ([prs c] & w3 & H3 & _).
  apply add_slides_Ret in H3 as (N & Hfuel & Hpages).
  exists (fs w1), cx, cy, N. repeat (split; [done|]).
  rewrite (main_with_pages env fuel args w (fs w1) cx cy N) in Hmain by done.
  rewrite main_save_cleanup_run in Hmain. cbn zeta in Hmain.
  unfold isdir in Hmain. case_bool_decide as Hdir; [done|].
  by destruct (save_error env (output_pptx args) (fs w1)).
Qed.

Lemma exits_with_main (env : Env) (fuel : nat) (args : Args) :
  exits_with 1 (main env fuel args).
Proof.
  unfold main.
  apply exits_with_bind; [apply exits_with_main_rasterize|intros _].
  apply exits_with_bind; [apply exits_with_main_canvas|intros prs].
  apply exits_with_bind; [apply exits_with_add_slides|intros r].
  apply exits_with_main_save_cleanup.
Qed.

Lemma announces_main (env : Env) (fuel : nat) (args : Args) :
  announces (main env fuel args).
Proof.
  unfold main.
  apply announces_bind; [apply announces_main_rasterize|intros _].
  apply announces_bind; [apply announces_main_canvas|intros prs].
  apply announces_bind; [apply announces_add_slides|intros r].
  apply announces_main_save_cleanup.
Qed.

(** With a malformed slide size nothing is ever saved. *)
Lemma main_bad_size_no_save (env : Env) (fuel : nat) (args : Args)
    (w w' : world) (r : res unit) :
  slide_size_of (slide_size args) = None →
  main env fuel args w = Done r w' →
  ∃ evs, events w' = events w ++ evs ∧ Forall (λ e, ¬ is_save e) evs.
Proof.
  intros Hbad. rewrite main_after_rasterize. intros H.
  apply bind_Done_inv in H as [(e & H1 & _)|([] & w1 & H1 & H)].
  - by apply (adds_main_rasterize env (λ e, ¬ is_save e) args) in H1; auto.
  - destruct (adds_main_rasterize env (λ e, ¬ is_save e) args)
      with (w := w) (r := Ret tt) (w' := w1)
      as (ev1 & Hev1 & Hall1); auto.
    unfold after_rasterize, bind in H.
    rewrite (main_canvas_bad_size env args w1 Hbad) in H.
    injection H as _ <-. exists (ev1 ++ [EvLog ERROR parse_error_message]).
    cbn [after events]. rewrite Hev1, <- app_assoc. split; [done|].
    apply Forall_app_2; [done|]. repeat constructor. auto.
Qed.

(** ** The loop stops *)

(** A file system is finite: from any index on, an image is missing among
    the next [size f + 1] ones. *)
Lemma some_later_image_is_missing (args : Args) (f : gmap string node)
    (k : nat) :
  ∃ n, (n ≤ size f)%nat ∧ f !! image_filename_of args (k + n) ≠ Some File.
Proof.
  destruct (decide (Forall (λ i, f !! image_filename_of args i = Some File)
                      (seq k (S (size f))))) as [Hall|Hnot].
  - exfalso.
    set (names := image_filename_of args <$> seq k (S (size f))).
    assert (NoDup names) as Hnd.
    { apply NoDup_fmap_2_strong; [|apply NoDup_seq].
      intros i j _ _. apply image_filename_of_inj. }
    assert (list_to_set names ⊆ dom f) as Hsub.
    { intros name Hin. apply elem_of_list_to_set in Hin.
      apply list_elem_of_fmap in Hin as (i & -> & Hi).
      rewrite Forall_forall in Hall. apply elem_of_dom. by rewrite (Hall i Hi). }
    apply subseteq_size in Hsub.
    rewrite size_list_to_set, size_dom in Hsub by done.
    unfold names in Hsub. rewrite length_fmap, length_seq in Hsub. lia.
  - apply not_Forall_Exists in Hnot; [|apply _].
    apply Exists_exists in Hnot as (i & Hi & Hmiss).
    apply elem_of_seq in Hi. exists (i - k)%nat. split; [lia|].
    by replace (k + (i - k))%nat with i by lia.
Qed.

(** * The claims *)

(** C1, as the code has it: the slide size is parsed at step 4, after the
    workspace has been created and the conversion has run. With a malformed
    slide size every run ends with exit status 1 and never calls [save]. A
    run whose steps 1 to 3 succeed creates the workspace directory, runs the
    conversion command, logs the parse error and exits: these are all its
    events, and the file system is the one the tool has left, workspace and
    page images included, with or without [--retain-image-files]. *)
Theorem malformed_size_is_found_late (env : Env) (fuel : nat) (args : Args)
    (w : world) :
  slide_size_of (slide_size args) = None →
  status_of (main env fuel args w) = Some 1
  ∧ (∀ r w', main env fuel args w = Done r w' →
       ∃ evs, events w' = events w ++ evs ∧ Forall (λ e, ¬ is_save e) evs)
  ∧ ∀ f', rasterizes env args w f' →
      main env fuel args w
      = Done (Raise (SystemExit 1))
          (Build_world f' (level_of args)
             (events w
              ++ [EvMkdir (temp_dir_of args)] ++ info args (msg_running args)
              ++ [EvRun (convert_cmd_of args)] ++ info args msg_converted
              ++ [EvLog ERROR parse_error_message])).
Proof.
  intros Hbad. split; [by apply main_bad_size_status|]. split.
  - intros r w'. by apply main_bad_size_no_save.
  - intros f' Hras. rewrite (main_bad_size env fuel args w f' Hbad Hras).
    unfold rasterize_events. by rewrite <- !app_assoc.
Qed.

Lemma malformed_size_is_found_late_witness :
  let args := Deck.args_with "abcxdef" false in
  slide_size_of (slide_size args) = None
  ∧ status_of (main Deck.env 5 args Deck.start) = Some 1
  ∧ main Deck.env 5 args Deck.start
    = Done (Raise (SystemExit 1))
        (Build_world (Deck.pages (<["deck_temp" := Dir]> (fs Deck.start)))
           WARNING
           [EvMkdir "deck_temp"; EvRun (convert_cmd_of args);
            EvLog ERROR parse_error_message]).
Proof.
  intros args.
  assert (slide_size_of (slide_size args) = None) as Hbad
    by (vm_compute; reflexivity).
  destruct (malformed_size_is_found_late Deck.env 5 args Deck.start Hbad)
    as (Hst & _ & Hlate).
  split; [exact Hbad|]. split; [exact Hst|].
  rewrite (Hlate (Deck.pages (<["deck_temp" := Dir]> (fs Deck.start)))).
  - reflexivity.
  - repeat split; vm_compute; reflexivity.
Defined.

(** C1 as stated fails: with the malformed slide size "abcxdef" the run
    exits with status 1 only after it has created the directory [deck_temp]
    and run the conversion command; the directory and the page images are
    there when it exits. *)
Lemma malformed_size_has_side_effects :
  let args := Deck.args_with "abcxdef" false in
  slide_size_of (slide_size args) = None
  ∧ ∃ w',
      main Deck.env 5 args Deck.start = Done (Raise (SystemExit 1)) w'
      ∧ events w'
        = [EvMkdir "deck_temp"; EvRun (convert_cmd_of args);
           EvLog ERROR parse_error_message]
      ∧ fs Deck.start !! "deck_temp" = None
      ∧ fs w' !! "deck_temp" = Some Dir
      ∧ fs w' !! "deck_temp/page-0.jpg" = Some File.
Proof.
  intros args. split; [vm_compute; reflexivity|].
  eexists. split; [vm_compute; reflexivity|].
  repeat split; vm_compute; reflexivity.
Qed.

(** C2, on the code: the output file cannot be written, retention was not
    requested. [save] raises, nothing catches the error, the exit status is
    1; [rmtree] is never called and the workspace directory and its images
    are still there when the process ends. *)
Theorem failed_save_leaves_workspace :
  let args := Deck.args in
  retain_image_files args = false
  ∧ ∃ w',
      main Deck.env_save_fails 5 args Deck.start
      = Done (Raise (Uncaught "OSError" "[Errno 13] Permission denied: 'deck.pptx'")) w'
      ∧ status_of (main Deck.env_save_fails 5 args Deck.start) = Some 1
      ∧ (∀ p b, EvRmtree p b ∉ events w')
      ∧ fs w' !! "deck_temp" = Some Dir
      ∧ fs w' !! "deck_temp/page-0.jpg" = Some File
      ∧ fs w' !! "deck.pptx" = None.
Proof.
  intros args. split; [reflexivity|].
  eexists. split; [vm_compute; reflexivity|].
  split; [vm_compute; reflexivity|].
  split; [|repeat split; vm_compute; reflexivity].
  intros p b Hin. cbn [events] in Hin.
  repeat (apply elem_of_cons in Hin as [Hin|Hin]; [discriminate|]).
  by apply elem_of_nil in Hin.
Qed.

(** C3, as the code has it: for a token that is not a preset, the parser
    splits at "x" and hands both parts to [float]. When the token does not
    have the shape [a x b] with two parts that [float] accepts, the parser
    logs the error message and calls [sys.exit(1)], and every run with that
    token ends with exit status 1. When it has, the two floats are returned
    as they are: neither sign nor magnitude is checked. *)
Theorem custom_size_needs_two_floats (tok : string) (w : world) :
  ¬ preset tok →
  (¬ two_floats tok →
     parse_slide_size tok w
     = Done (Raise (SystemExit 1)) (after (EvLog ERROR parse_error_message) w)
     ∧ ∀ env fuel args w0,
         slide_size args = tok → status_of (main env fuel args w0) = Some 1)
  ∧ (∀ a b fw fh,
       tok = a +:+ "x" +:+ b →
       PyStr.count "x" a = 0%nat → PyStr.count "x" b = 0%nat →
       PyFloat.float a = Some fw → PyFloat.float b = Some fh →
       parse_slide_size tok w = Done (Ret (fw, fh)) w).
Proof.
  intros Hp. rewrite parse_slide_size_run, (slide_size_of_custom _ Hp). split.
  - intros Hno. apply parse_custom_None in Hno as Hnone. rewrite Hnone.
    split; [done|]. intros env fuel args w0 <-.
    apply main_bad_size_status. by rewrite slide_size_of_custom.
  - intros a b fw fh Htok Ha Hb Hfa Hfb.
    assert (parse_custom tok = Some (fw, fh)) as ->; [|done].
    apply parse_custom_Some. by exists a, b.
Qed.

Lemma custom_size_needs_two_floats_witness :
  ¬ preset "abcxdef"
  ∧ ¬ two_floats "abcxdef"
  ∧ parse_slide_size "abcxdef" Deck.start
    = Done (Raise (SystemExit 1))
        (after (EvLog ERROR parse_error_message) Deck.start)
  ∧ status_of (main Deck.env 5 (Deck.args_with "abcxdef" false) Deck.start)
    = Some 1.
Proof.
  assert (¬ preset "abcxdef") as Hp.
  { unfold preset. rewrite !elem_of_cons, elem_of_nil.
    intros [?|[?|[?|[?|[]]]]]; discriminate. }
  assert (¬ two_floats "abcxdef") as Hno.
  { apply parse_custom_None. vm_compute. reflexivity. }
  destruct (custom_size_needs_two_floats "abcxdef" Deck.start Hp) as [H _].
  destruct (H Hno) as [Hrun Hall].
  split; [exact Hp|]. split; [exact Hno|]. split; [exact Hrun|].
  exact (Hall Deck.env 5%nat (Deck.args_with "abcxdef" false) Deck.start eq_refl).
Defined.

(** C3 as stated fails: the token "-1x0" is not a preset, neither part is a
    positive number, and the parser returns the dimensions -1.0 and 0.0
    without logging or exiting. *)
Lemma nonpositive_size_is_returned :
  ¬ preset "-1x0"
  ∧ parse_slide_size "-1x0" Deck.start
    = Done (Ret (S754_finite true (2 ^ 52) (-52), S754_zero false)) Deck.start
  ∧ SFltb (S754_finite true (2 ^ 52) (-52)) (S754_zero false) = true.
Proof.
  split; [|split; vm_compute; reflexivity].
  unfold preset. rewrite !elem_of_cons, elem_of_nil.
  intros [?|[?|[?|[?|[]]]]]; discriminate.
Qed.

(** C4: when the conversion command exits with a non-zero status, the run
    ends with [sys.exit(1)] and its last record is the error message
    "ImageMagick conversion failed: ...". If retention was requested the
    workspace is left as the tool left it and nothing is removed. Otherwise
    the workspace directory is removed at once by a [rmtree] that ignores
    errors: whatever the removal does, no error is raised or logged because of
    it, and when it does not fail nothing is left at the workspace path. (If
    the tool itself has removed the directory there is nothing to remove.) *)
Theorem failed_conversion_cleanup (env : Env) (fuel : nat) (args : Args)
    (w : world) (status : Z) (f' : gmap string node) :
  fs w !! input_pdf args = Some File →
  fs w !! temp_dir_of args = None →
  mkdir_error env (temp_dir_of args) (fs w) = None →
  run_process env (convert_cmd_of args) (<[temp_dir_of args := Dir]> (fs w))
  = Exited status f' →
  status ≠ 0 →
  let tmp := temp_dir_of args in
  let before := events w ++ [EvMkdir tmp] ++ info args (msg_running args)
                ++ [EvRun (convert_cmd_of args)] in
  let failure := EvLog ERROR (msg_convert_failed env args status) in
  let untouched :=
    Done (Raise (SystemExit 1))
      (Build_world f' (level_of args) (before ++ [failure])) in
  status_of (main env fuel args w) = Some 1
  ∧ (retain_image_files args = true → main env fuel args w = untouched)
  ∧ (retain_image_files args = false →
     (f' !! tmp = Some Dir →
      main env fuel args w
      = Done (Raise (SystemExit 1))
          (Build_world (after_rmtree env true tmp f') (level_of args)
             (before ++ [EvRmtree tmp true; failure]))
      ∧ (rmtree_error env true tmp f' = None →
         ∀ k, in_tree tmp k = true → after_rmtree env true tmp f' !! k = None))
     ∧ (f' !! tmp ≠ Some Dir → main env fuel args w = untouched)).
Proof.
  intros Hpdf Hfree Hmk Hrun Hst tmp before failure untouched.
  assert (main env fuel args w
          = if isdir tmp f' && negb (retain_image_files args)
            then Done (Raise (SystemExit 1))
                   (Build_world (after_rmtree env true tmp f') (level_of args)
                      (before ++ [EvRmtree tmp true; failure]))
            else untouched) as Hmain.
  { subst tmp before failure untouched.
    unfold main, bind. rewrite main_rasterize_run. cbn zeta.
    unfold isfile, exists_. rewrite Hpdf, Hfree, Hmk, Hrun.
    rewrite (bool_decide_eq_true_2 (Some File = Some File)) by done.
    rewrite bool_decide_eq_false_2 by (by intros [? [=]]).
    cbn [negb]. rewrite decide_False by done.
    destruct (isdir _ _ && negb _); by rewrite <- ?app_assoc. }
  rewrite Hmain. unfold isdir.
  split; [by destruct (bool_decide _ && negb _)|].
  split; intros ->; cbn [negb]; [by rewrite andb_false_r|].
  rewrite andb_true_r. split; intros Hdir.
  - rewrite bool_decide_eq_true_2 by done. split; [done|].
    intros Hok k Hk. unfold after_rmtree. rewrite Hok.
    by apply remove_tree_lookup.
  - by rewrite bool_decide_eq_false_2.
Qed.

Lemma failed_conversion_cleanup_witness :
  let env := Deck.env_tool_fails in
  let args := Deck.args in
  let w := Deck.start in
  let f' := <["deck_temp/page-0.jpg" := File]> (<["deck_temp" := Dir]> (fs w)) in
  main env 5 args w
  = Done (Raise (SystemExit 1))
      (Build_world (after_rmtree env true "deck_temp" f') WARNING
         [EvMkdir "deck_temp"; EvRun (convert_cmd_of args);
          EvRmtree "deck_temp" true;
          EvLog ERROR (msg_convert_failed env args 1)])
  ∧ after_rmtree env true "deck_temp" f' !! "deck_temp/page-0.jpg" = None.
Proof.
  intros env args w f'.
  pose proof (failed_conversion_cleanup env 5 args w 1 f') as H.
  destruct H as (_ & _ & H); [vm_compute; reflexivity ..| lia |].
  destruct (H eq_refl) as [H' _].
  destruct H' as [Hrun Hgone]; [vm_compute; reflexivity|]. split.
  - exact Hrun.
  - apply Hgone; vm_compute; reflexivity.
Defined.

(** C5: when the workspace path already exists, as a file or as a directory,
    the run ends with [sys.exit(1)] after one error record, and the file
    system is the one it started with: nothing is created, merged or
    modified. When the PDF is there the record is the
    "Temporary directory ... already exists" message. *)
Theorem existing_workspace_aborts (env : Env) (fuel : nat) (args : Args) (w : world) :
  is_Some (fs w !! temp_dir_of args) →
  ∃ msg,
    main env fuel args w
    = Done (Raise (SystemExit 1))
        (Build_world (fs w) (level_of args) (events w ++ [EvLog ERROR msg]))
    ∧ status_of (main env fuel args w) = Some 1
    ∧ (fs w !! input_pdf args = Some File → msg = msg_temp_exists args).
Proof.
  intros Htaken.
  assert (∃ msg,
    main env fuel args w
    = Done (Raise (SystemExit 1))
        (Build_world (fs w) (level_of args) (events w ++ [EvLog ERROR msg]))
    ∧ (fs w !! input_pdf args = Some File → msg = msg_temp_exists args))
    as (msg & Hrun & Hmsg).
  { unfold main, bind. rewrite main_rasterize_run. cbn zeta.
    unfold isfile, exists_. rewrite (bool_decide_eq_true_2 _ Htaken).
    case_bool_decide as Hpdf; cbn [negb].
    - by exists (msg_temp_exists args).
    - by exists (msg_pdf_missing args). }
  exists msg. by rewrite Hrun.
Qed.

Lemma existing_workspace_aborts_witness :
  is_Some (fs Deck.start_taken !! temp_dir_of Deck.args)
  ∧ ∃ msg,
      main Deck.env 5 Deck.args Deck.start_taken
      = Done (Raise (SystemExit 1))
          (Build_world (fs Deck.start_taken) (level_of Deck.args)
             (events Deck.start_taken ++ [EvLog ERROR msg]))
      ∧ status_of (main Deck.env 5 Deck.args Deck.start_taken) = Some 1
      ∧ (fs Deck.start_taken !! input_pdf Deck.args = Some File →
         msg = msg_temp_exists Deck.args).
Proof.
  assert (is_Some (fs Deck.start_taken !! temp_dir_of Deck.args)) as H
    by (exists File; vm_compute; reflexivity).
  split; [exact H|].
  exact (existing_workspace_aborts Deck.env 5 Deck.args Deck.start_taken H).
Defined.

(** C6: when, after a successful conversion, the images of index 0 to N-1
    are files and the image of index N is not, the run calls [save] once, on
    a presentation of exactly N slides, the slide of index i showing the
    image of index i over the whole canvas. Nothing is assumed on the indices
    above N: files beyond the gap are never looked at. Any number of loop
    iterations above N is enough for the run to end. *)
Theorem slides_stop_at_first_gap (env : Env) (fuel : nat) (args : Args)
    (w : world) (f' : gmap string node) (cx cy : Z) (N : nat) :
  rasterizes env args w f' →
  canvas env args cx cy →
  page_run env args f' 0 N →
  (N < fuel)%nat →
  let prs := {| slide_width := cx; slide_height := cy;
                slides := slide_of args cx cy <$> seq 0 N |} in
  length (slides prs) = N
  ∧ ∃ r w' before after,
      main env fuel args w = Done r w'
      ∧ events w' = events w ++ before ++ [EvSave (output_pptx args) prs] ++ after
      ∧ Forall (λ e, ¬ is_save e) before
      ∧ Forall (λ e, ¬ is_save e) after.
Proof.
  intros Hras Hcan Hpages Hfuel prs. split.
  { subst prs. simpl. by rewrite length_fmap, length_seq. }
  unfold main, bind.
  rewrite (main_rasterize_ok env args w f' Hras).
  rewrite (main_canvas_ok env args cx cy _ Hcan). unfold blank.
  rewrite (add_slides_run env args N fuel 0 0 cx cy [] f' _ Hfuel Hpages).
  cbn [app]. fold prs. rewrite main_save_cleanup_run. cbn zeta.
  assert (Forall (λ e, ¬ is_save e)
            (rasterize_events args
             ++ flat_map (λ i, info args (msg_adding args i)) (seq 0 N)))
    as Hbefore.
  { apply Forall_app. split; [apply rasterize_no_save|apply adding_no_save]. }
  set (before := rasterize_events args
                 ++ flat_map (λ i, info args (msg_adding args i)) (seq 0 N)) in *.
  destruct (isdir (output_pptx args) f');
    [|destruct (save_error env (output_pptx args) f')].
  - eexists. eexists. exists before, []. split; [reflexivity|]. cbn [events].
    split; [unfold before; by rewrite <- !app_assoc|].
    split; [exact Hbefore|constructor].
  - eexists. eexists. exists before, []. split; [reflexivity|]. cbn [events].
    split; [unfold before; by rewrite <- !app_assoc|].
    split; [exact Hbefore|constructor].
  - eexists. eexists.
    exists before, (info args (msg_created args (0 + N))
                    ++ cleanup_events env args (<[output_pptx args := File]> f')).
    split; [reflexivity|]. cbn [events].
    split; [unfold before; by rewrite <- !app_assoc|].
    split; [exact Hbefore|].
    apply Forall_app. split; [apply info_no_save|apply cleanup_no_save].
Qed.

Lemma slides_stop_at_first_gap_witness :
  let args := Deck.args in
  let f' := Deck.pages (<["deck_temp" := Dir]> (fs Deck.start)) in
  let prs := {| slide_width := 12191969; slide_height := 6858000;
                slides := slide_of args 12191969 6858000 <$> [0; 1; 2]%nat |} in
  f' !! "deck_temp/page-4.jpg" = Some File
  ∧ length (slides prs) = 3%nat
  ∧ ∃ r w' before after,
      main Deck.env 5 args Deck.start = Done r w'
      ∧ events w' = events Deck.start ++ before
                    ++ [EvSave (output_pptx args) prs] ++ after
      ∧ Forall (λ e, ¬ is_save e) before
      ∧ Forall (λ e, ¬ is_save e) after.
Proof.
  intros args f' prs. split; [vm_compute; reflexivity|].
  apply (slides_stop_at_first_gap Deck.env 5 args Deck.start f'
           12191969 6858000 3).
  - repeat split; vm_compute; reflexivity.
  - exists (PyFloat.lit 133333 (-4)), (PyFloat.lit 75 (-1)).
    repeat split; vm_compute; reflexivity.
  - split.
    + intros [|[|[|i]]] Hi; [split; vm_compute; reflexivity ..|lia].
    + vm_compute. discriminate.
  - lia.
Defined.

(** C7: [parse_slide_size] returns the pair of literals (13.3333, 7.5) for
    "16:9" and for "16x9", the pair (10.0, 7.5) for "4:3" and for "4x3", and
    (12.5, 8.0) for the custom token "12.5x8", without any effect. The
    literals are the binary64 values nearest to the decimals; 7.5, 10.0, 12.5
    and 8.0 are exact. *)
Theorem preset_and_custom_sizes (w : world) :
  parse_slide_size "16:9" w
  = Done (Ret (PyFloat.lit 133333 (-4), PyFloat.lit 75 (-1))) w
  ∧ parse_slide_size "16x9" w
    = Done (Ret (PyFloat.lit 133333 (-4), PyFloat.lit 75 (-1))) w
  ∧ parse_slide_size "4:3" w
    = Done (Ret (PyFloat.lit 100 (-1), PyFloat.lit 75 (-1))) w
  ∧ parse_slide_size "4x3" w
    = Done (Ret (PyFloat.lit 100 (-1), PyFloat.lit 75 (-1))) w
  ∧ parse_slide_size "12.5x8" w
    = Done (Ret (PyFloat.lit 125 (-1), PyFloat.lit 80 (-1))) w
  ∧ PyFloat.lit 133333 (-4) = S754_finite false 7505980613952379 (-49)
  ∧ PyFloat.lit 75 (-1) = S754_finite false (15 * 2 ^ 49) (-50)
  ∧ PyFloat.lit 100 (-1) = S754_finite false (5 * 2 ^ 50) (-49)
  ∧ PyFloat.lit 125 (-1) = S754_finite false (25 * 2 ^ 48) (-49)
  ∧ PyFloat.lit 80 (-1) = S754_finite false (2 ^ 52) (-49).
Proof.
  repeat split; try (vm_compute; reflexivity);
    rewrite parse_slide_size_run; vm_compute; reflexivity.
Qed.

(** C8: when, after a successful conversion, the image of index 0 is not a
    file, the run still calls [save], once, on a presentation without slides;
    when that call succeeds the output file is written, [main] returns and the
    exit status is 0, whatever the cleanup does. An empty set of images is
    not an error. *)
Theorem no_image_still_saves (env : Env) (fuel : nat) (args : Args)
    (w : world) (f' : gmap string node) (cx cy : Z) :
  rasterizes env args w f' →
  canvas env args cx cy →
  f' !! image_filename_of args 0 ≠ Some File →
  (0 < fuel)%nat →
  f' !! output_pptx args ≠ Some Dir →
  save_error env (output_pptx args) f' = None →
  let saved := <[output_pptx args := File]> f' in
  main env fuel args w
  = Done (Ret tt)
      (Build_world
         (if retain_image_files args then saved
          else after_rmtree env false (temp_dir_of args) saved)
         (level_of args)
         (events w ++ rasterize_events args
          ++ [EvSave (output_pptx args) (blank cx cy)]
          ++ info args (msg_created args 0)
          ++ cleanup_events env args saved))
  ∧ slides (blank cx cy) = []
  ∧ status_of (main env fuel args w) = Some 0.
Proof.
  intros Hras Hcan Hnone Hfuel Hout Hsave saved.
  assert (main env fuel args w
  = Done (Ret tt)
      (Build_world
         (if retain_image_files args then saved
          else after_rmtree env false (temp_dir_of args) saved)
         (level_of args)
         (events w ++ rasterize_events args
          ++ [EvSave (output_pptx args) (blank cx cy)]
          ++ info args (msg_created args 0)
          ++ cleanup_events env args saved))) as Hmain.
  { unfold main, bind.
    rewrite (main_rasterize_ok env args w f' Hras).
    rewrite (main_canvas_ok env args cx cy _ Hcan). unfold blank.
    rewrite (add_slides_run env args 0 fuel 0 0 cx cy [] f' _ Hfuel)
      by (split; [intros; lia|done]).
    cbn [app fmap list_fmap seq flat_map]. rewrite main_save_cleanup_run.
    cbn zeta. unfold isdir. rewrite bool_decide_eq_false_2 by done.
    rewrite Hsave. subst saved. rewrite app_nil_r.
    by rewrite <- !app_assoc. }
  by rewrite Hmain.
Qed.

Lemma no_image_still_saves_witness :
  let args := Deck.args in
  let saved := <["deck.pptx" := File]> (<["deck_temp" := Dir]> (fs Deck.start)) in
  main Deck.env_no_pages 5 args Deck.start
  = Done (Ret tt)
      (Build_world
         (after_rmtree Deck.env_no_pages false "deck_temp" saved) WARNING
         [EvMkdir "deck_temp"; EvRun (convert_cmd_of args);
          EvSave "deck.pptx" (blank 12191969 6858000);
          EvRmtree "deck_temp" false])
  ∧ slides (blank 12191969 6858000) = []
  ∧ status_of (main Deck.env_no_pages 5 args Deck.start) = Some 0.
Proof.
  intros args saved.
  apply (no_image_still_saves Deck.env_no_pages 5 args Deck.start
           (<["deck_temp" := Dir]> (fs Deck.start)) 12191969 6858000).
  - repeat split; vm_compute; reflexivity.
  - exists (PyFloat.lit 133333 (-4)), (PyFloat.lit 75 (-1)).
    repeat split; vm_compute; reflexivity.
  - vm_compute. discriminate.
  - lia.
  - vm_compute. discriminate.
  - vm_compute. reflexivity.
Defined.

(** C9: the conversion command is a function of the arguments alone: the
    program name [convert], then [-verbose] in verbose mode, then
    [-density <dpi> <input_pdf> -resize 50% -quality <quality>] and the
    pattern [page.<ext>] in the workspace directory, in that order, with
    [jpg] for JPEG and [png] for PNG. It is the only command [main] ever runs,
    in any environment and from any world, so two runs with the same
    arguments run the same command. *)
Theorem convert_command_is_determined (args : Args) :
  convert_cmd_of args
  = "convert"
    :: (if verbose args then ["-verbose"] else [])
    ++ [ "-density"; pretty (dpi args); input_pdf args; "-resize"; "50%";
         "-quality"; pretty (quality args);
         temp_dir_of args
         +:+ (if PyStr.endswith "/" (temp_dir_of args) then "" else "/")
         +:+ "page."
         +:+ match image_format args with JPEG => "jpg" | PNG => "png" end ]
  ∧ (∀ env fuel w r w',
       main env fuel args w = Done r w' →
       ∃ evs, events w' = events w ++ evs
              ∧ ∀ cmd, EvRun cmd ∈ evs → cmd = convert_cmd_of args)
  ∧ (∀ env w,
       fs w !! input_pdf args = Some File →
       fs w !! temp_dir_of args = None →
       mkdir_error env (temp_dir_of args) (fs w) = None →
       ∃ r w' evs,
         main_rasterize env args w = Done r w'
         ∧ events w' = events w ++ [EvMkdir (temp_dir_of args)]
                       ++ info args (msg_running args)
                       ++ [EvRun (convert_cmd_of args)] ++ evs).
Proof.
  split; [|split].
  - unfold convert_cmd_of. rewrite page_pattern. unfold extension_of.
    by destruct (image_format args).
  - intros env fuel w r w' Hrun.
    destruct (adds_main env
                (λ e, ∀ cmd, e = EvRun cmd → cmd = convert_cmd_of args) args)
      with (fuel := fuel) (w := w) (r := r) (w' := w')
      as (evs & Hev & Hall); try done.
    + by intros cmd [= <-].
    + exists evs. split; [done|]. intros cmd Hin.
      rewrite Forall_forall in Hall. by apply (Hall _ Hin).
  - intros env w Hpdf Hfree Hmk. rewrite main_rasterize_run. cbn zeta.
    unfold isfile, exists_. rewrite Hpdf, Hfree, Hmk.
    rewrite bool_decide_eq_true_2 by done.
    rewrite bool_decide_eq_false_2 by (by intros [? [=]]).
    cbn [negb].
    destruct (run_process env _ _) as [e|status f'];
      [|destruct (decide (status = 0));
        [|destruct (isdir _ _ && negb _)]];
      eexists _, _, _; (split; [reflexivity|]); cbn [events];
      rewrite <- ?app_assoc; repeat f_equal.
Qed.

(** C10: for a token that is not a preset, [parse_slide_size] returns
    exactly when the token has one "x" and [float] accepts what is before it
    and what is after it. In every other case (no "x", several ones, a part
    that [float] rejects) it logs the error message and calls [sys.exit(1)],
    and every run with that token ends with exit status 1. The parts go
    through [float] unchanged, so white space around a part is ignored, and
    signs, [inf], [infinity] and [nan] in any case are accepted, and so are
    the decimal digits and the white space of Unicode (the last token has
    fullwidth digits and a no-break space before the 8). *)
Theorem custom_size_accepted_iff (tok : string) (w : world) :
  ¬ preset tok →
  (returns (parse_slide_size tok w) ↔
     PyStr.count "x" tok = 1%nat
     ∧ ∃ a b, tok = a +:+ "x" +:+ b
              ∧ is_Some (PyFloat.float a) ∧ is_Some (PyFloat.float b))
  ∧ (¬ returns (parse_slide_size tok w) →
       parse_slide_size tok w
       = Done (Raise (SystemExit 1)) (after (EvLog ERROR parse_error_message) w)
       ∧ ∀ env fuel args w0,
           slide_size args = tok → status_of (main env fuel args w0) = Some 1)
  ∧ (PyStr.count "x" tok ≠ 1%nat → ¬ returns (parse_slide_size tok w))
  ∧ (∀ pre1 a post1 pre2 b post2,
       spaces (PyStr.chars pre1) → spaces (PyStr.chars post1) →
       spaces (PyStr.chars pre2) → spaces (PyStr.chars post2) →
       parse_custom ((pre1 +:+ a +:+ post1) +:+ "x" +:+ (pre2 +:+ b +:+ post2))
       = parse_custom (a +:+ "x" +:+ b))
  ∧ parse_slide_size " +1.5 x-2" w
    = Done (Ret (PyFloat.lit 15 (-1), PyFloat.of_decimal true 2 0)) w
  ∧ parse_slide_size "infx-Infinity" w
    = Done (Ret (S754_infinity false, S754_infinity true)) w
  ∧ parse_slide_size "NaNx-0" w = Done (Ret (S754_nan, S754_zero true)) w
  ∧ parse_slide_size "١٢x٣" w
    = Done (Ret (PyFloat.lit 12 0, PyFloat.lit 3 0)) w
  ∧ parse_slide_size "１２.５x 8" w
    = Done (Ret (PyFloat.lit 125 (-1), PyFloat.lit 8 0)) w.
Proof.
  intros Hp.
  assert (returns (parse_slide_size tok w) ↔ is_Some (parse_custom tok)) as Hret.
  { rewrite parse_slide_size_run, (slide_size_of_custom _ Hp).
    destruct (parse_custom tok) as [wh|]; split.
    - by eexists.
    - intros _. by exists wh, w.
    - by intros (? & ? & ?).
    - by intros [? ?]. }
  split; [|split; [|split; [|split]]].
  - rewrite Hret. split.
    + intros [[fw fh] Hsome].
      apply parse_custom_Some in Hsome as (a & b & -> & Ha & Hb & Hfa & Hfb).
      split.
      * replace (a +:+ "x" +:+ b) with (a +:+ String "x" b) by done.
        rewrite count_app. simpl. lia.
      * exists a, b. by rewrite Hfa, Hfb.
    + intros (Hone & a & b & -> & [fw Hfa] & [fh Hfb]).
      exists (fw, fh). apply parse_custom_Some. exists a, b.
      replace (a +:+ "x" +:+ b) with (a +:+ String "x" b) in Hone by done.
      rewrite count_app in Hone. simpl in Hone.
      repeat split; [lia|lia|done|done].
  - intros Hno. rewrite Hret in Hno.
    assert (parse_custom tok = None) as Hnone
      by (destruct (parse_custom tok); [by destruct Hno|done]).
    rewrite parse_slide_size_run, (slide_size_of_custom _ Hp), Hnone.
    split; [done|]. intros env fuel args w0 <-.
    apply main_bad_size_status. by rewrite slide_size_of_custom.
  - intros Hcount. rewrite Hret, (parse_custom_count _ Hcount).
    by intros [? ?].
  - apply parse_custom_padding.
  - repeat split; rewrite parse_slide_size_run; vm_compute; reflexivity.
Qed.

Lemma custom_size_accepted_iff_witness :
  ¬ preset "12.5x8"
  ∧ returns (parse_slide_size "12.5x8" Deck.start)
  ∧ PyStr.count "x" "12.5x8" = 1%nat.
Proof.
  assert (¬ preset "12.5x8") as Hp.
  { unfold preset. rewrite !elem_of_cons, elem_of_nil.
    intros [?|[?|[?|[?|[]]]]]; discriminate. }
  destruct (custom_size_accepted_iff "12.5x8" Deck.start Hp) as [Hiff _].
  split; [exact Hp|]. split; [|reflexivity].
  apply Hiff. split; [reflexivity|].
  exists "12.5", "8". split; [reflexivity|].
  split; eexists; vm_compute; reflexivity.
Defined.

(** * Further properties of the script *)

(** ** The workspace path (step 2 of [main]) *)

(** X1: the workspace path is never empty. A non-empty [--temp-dir] is used
    as it is. Without [--temp-dir], or with an empty one, the path is the
    base name of the PDF without its extension, followed by [_temp]: it has
    no slash, so the workspace is made in the current directory, wherever
    the PDF is. *)
Theorem workspace_path_resolution (args : Args) :
  temp_dir_of args ≠ ""
  ∧ (∀ t, temp_dir args = Some t → t ≠ "" → temp_dir_of args = t)
  ∧ (temp_dir args = None ∨ temp_dir args = Some "" →
     temp_dir_of args
     = (OsPath.splitext (OsPath.basename (input_pdf args))).1 +:+ "_temp"
     ∧ PyStr.count "/" (temp_dir_of args) = 0%nat).
Proof.
  split; [apply temp_dir_of_nonempty|]. unfold temp_dir_of.
  destruct (OsPath.splitext (OsPath.basename (input_pdf args)))
    as [base_name e] eqn:Hsplit.
  split.
  - intros t -> Ht. by rewrite bool_decide_eq_false_2.
  - assert (PyStr.count "/" (base_name +:+ "_temp") = 0%nat) as Hcount.
    { rewrite count_app. simpl.
      pose proof (splitext_root_count "/" (OsPath.basename (input_pdf args))) as H.
      rewrite Hsplit, basename_no_slash in H. simpl in H. lia. }
    by intros [-> | ->].
Qed.

(** X2: for a PDF [name.ext], alone or after a directory part, where [name]
    is not made of dots only and [ext] has no dot, the default workspace is
    [name_temp]. *)
Theorem default_workspace_name (args : Args) (dir name ext : string) :
  temp_dir args = None →
  input_pdf args = dir +:+ name +:+ "." +:+ ext →
  dir = "" ∨ PyStr.endswith "/" dir = true →
  PyStr.count "/" name = 0%nat → OsPath.all_dots name = false →
  PyStr.count "." ext = 0%nat → PyStr.count "/" ext = 0%nat →
  temp_dir_of args = name +:+ "_temp".
Proof.
  intros Hnone Hpdf Hdir Hname Hdots He1 He2.
  assert (OsPath.basename (input_pdf args) = name +:+ String "." ext) as Hbase.
  { rewrite Hpdf. destruct Hdir as [-> | Hend].
    - apply basename_plain. rewrite count_app. simpl. lia.
    - assert (∃ d, dir = d +:+ "/") as [d ->].
      { clear -Hend. induction dir as [|x dir IH]; [done|].
        destruct dir as [|y dir].
        - simpl in Hend. apply bool_decide_eq_true in Hend as ->. by exists "".
        - destruct (IH Hend) as [d Hd]. exists (String x d).
          change (String x (String y dir) = String x (d +:+ "/")). by rewrite Hd. }
      replace ((d +:+ "/") +:+ name +:+ "." +:+ ext)
        with (d +:+ String "/" (name +:+ String "." ext)).
      + apply basename_after_slash. rewrite count_app. simpl. lia.
      + clear. induction d as [|x d IH]; [done|].
        change (String x (d +:+ String "/" (name +:+ String "." ext))
                = String x ((d +:+ "/") +:+ name +:+ "." +:+ ext)).
        by rewrite IH. }
  unfold temp_dir_of. rewrite Hbase, Hnone.
  by rewrite (splitext_name name ext).
Qed.

Lemma default_workspace_name_witness :
  temp_dir_of Deck.args = "deck_temp".
Proof.
  apply (default_workspace_name Deck.args "docs/" "deck" "pdf");
    first [reflexivity | by right].
Defined.

(** ** Early failures (steps 1 to 3 of [main]) *)

(** X3: when the input path is not a regular file (nothing there, or a
    directory), the run logs "PDF file ... does not exist." and calls
    [sys.exit(1)]; that record is its only event and the file system is
    untouched: no workspace is made, even if its path is free. *)
Theorem missing_pdf_aborts (env : Env) (fuel : nat) (args : Args) (w : world) :
  fs w !! input_pdf args ≠ Some File →
  main env fuel args w
  = Done (Raise (SystemExit 1))
      (Build_world (fs w) (level_of args)
         (events w ++ [EvLog ERROR (msg_pdf_missing args)]))
  ∧ status_of (main env fuel args w) = Some 1.
Proof.
  intros Hpdf.
  assert (main env fuel args w
          = Done (Raise (SystemExit 1))
              (Build_world (fs w) (level_of args)
                 (events w ++ [EvLog ERROR (msg_pdf_missing args)]))) as Hmain.
  { unfold main, bind. rewrite main_rasterize_run. cbn zeta. unfold isfile.
    by rewrite bool_decide_eq_false_2. }
  by rewrite Hmain.
Qed.

Lemma missing_pdf_aborts_witness :
  main Deck.env 5 Deck.args Cases.start_empty
  = Done (Raise (SystemExit 1))
      (Build_world ∅ WARNING [EvLog ERROR "PDF file 'docs/deck.pdf' does not exist."])
  ∧ status_of (main Deck.env 5 Deck.args Cases.start_empty) = Some 1.
Proof.
  apply (missing_pdf_aborts Deck.env 5 Deck.args Cases.start_empty).
  vm_compute. discriminate.
Defined.

(** X4: when [os.mkdir] fails on the free workspace path, the run logs
    "Could not create directory '<path>': <error>" and calls [sys.exit(1)];
    the file system is untouched and the conversion command is not run. *)
Theorem mkdir_failure_aborts (env : Env) (fuel : nat) (args : Args)
    (w : world) (e : string) :
  fs w !! input_pdf args = Some File →
  fs w !! temp_dir_of args = None →
  mkdir_error env (temp_dir_of args) (fs w) = Some e →
  main env fuel args w
  = Done (Raise (SystemExit 1))
      (Build_world (fs w) (level_of args)
         (events w ++ [EvMkdir (temp_dir_of args);
                       EvLog ERROR (msg_mkdir_failed args e)]))
  ∧ status_of (main env fuel args w) = Some 1.
Proof.
  intros Hpdf Hfree Hmk.
  assert (main env fuel args w
          = Done (Raise (SystemExit 1))
              (Build_world (fs w) (level_of args)
                 (events w ++ [EvMkdir (temp_dir_of args);
                               EvLog ERROR (msg_mkdir_failed args e)])))
    as Hmain.
  { unfold main, bind. rewrite main_rasterize_run. cbn zeta.
    unfold isfile, exists_. rewrite Hpdf, Hfree, Hmk.
    rewrite bool_decide_eq_true_2 by done.
    by rewrite bool_decide_eq_false_2 by (by intros [? [=]]). }
  by rewrite Hmain.
Qed.

Lemma mkdir_failure_aborts_witness :
  main Cases.env_read_only 5 Deck.args Deck.start
  = Done (Raise (SystemExit 1))
      (Build_world (fs Deck.start) WARNING
         [EvMkdir "deck_temp";
          EvLog ERROR
            (msg_mkdir_failed Deck.args "[Errno 13] Permission denied: 'deck_temp'")])
  ∧ status_of (main Cases.env_read_only 5 Deck.args Deck.start) = Some 1.
Proof.
  apply (mkdir_failure_aborts Cases.env_read_only 5 Deck.args Deck.start);
    vm_compute; reflexivity.
Defined.

(** X5: when the conversion command cannot be started at all (an [OSError],
    not a [CalledProcessError]), nothing catches the error: the exit status
    is 1, no error record is logged, and the workspace directory just made is
    left in place, with or without [--retain-image-files]. *)
Theorem unstarted_tool_leaves_workspace (env : Env) (fuel : nat) (args : Args)
    (w : world) (e : string) :
  fs w !! input_pdf args = Some File →
  fs w !! temp_dir_of args = None →
  mkdir_error env (temp_dir_of args) (fs w) = None →
  run_process env (convert_cmd_of args) (<[temp_dir_of args := Dir]> (fs w))
  = SpawnFailed e →
  main env fuel args w
  = Done (Raise (Uncaught "OSError" e))
      (Build_world (<[temp_dir_of args := Dir]> (fs w)) (level_of args)
         (events w ++ [EvMkdir (temp_dir_of args)]
          ++ info args (msg_running args) ++ [EvRun (convert_cmd_of args)]))
  ∧ status_of (main env fuel args w) = Some 1
  ∧ <[temp_dir_of args := Dir]> (fs w) !! temp_dir_of args = Some Dir.
Proof.
  intros Hpdf Hfree Hmk Hrun.
  assert (main env fuel args w
          = Done (Raise (Uncaught "OSError" e))
              (Build_world (<[temp_dir_of args := Dir]> (fs w)) (level_of args)
                 (events w ++ [EvMkdir (temp_dir_of args)]
                  ++ info args (msg_running args)
                  ++ [EvRun (convert_cmd_of args)]))) as Hmain.
  { unfold main, bind. rewrite main_rasterize_run. cbn zeta.
    unfold isfile, exists_. rewrite Hpdf, Hfree, Hmk, Hrun.
    rewrite bool_decide_eq_true_2 by done.
    by rewrite bool_decide_eq_false_2 by (by intros [? [=]]). }
  rewrite Hmain. split; [done|]. split; [done|]. apply lookup_insert_eq.
Qed.

Lemma unstarted_tool_leaves_workspace_witness :
  ∃ w',
    main Cases.env_no_tool 5 Deck.args Deck.start
    = Done (Raise (Uncaught "OSError" "[Errno 2] No such file or directory: 'convert'")) w'
    ∧ events w' = [EvMkdir "deck_temp"; EvRun (convert_cmd_of Deck.args)]
    ∧ fs w' !! "deck_temp" = Some Dir.
Proof.
  destruct (unstarted_tool_leaves_workspace Cases.env_no_tool 5 Deck.args
              Deck.start "[Errno 2] No such file or directory: 'convert'")
    as (Hmain & _ & Hdir); [vm_compute; reflexivity ..|].
  eexists. split; [exact Hmain|]. split; [reflexivity|exact Hdir].
Defined.

(** ** The successful run (steps 6 to 8 of [main]) *)

(** X6: when steps 1 to 5 succeed, the tool has left the pages 0 to N-1 and
    the output file can be written, the run saves the N slides, reports N in
    its summary, returns, and the exit status is 0. With
    [--retain-image-files] nothing is removed: the file system is the one
    the tool left plus the output file, page images included. Without it
    [rmtree] is called once on the workspace, errors not ignored, and when it
    succeeds nothing is left at or below the workspace path. *)
Theorem successful_run (env : Env) (fuel : nat) (args : Args) (w : world)
    (f' : gmap string node) (cx cy : Z) (N : nat) :
  rasterizes env args w f' →
  canvas env args cx cy →
  page_run env args f' 0 N →
  (N < fuel)%nat →
  f' !! output_pptx args ≠ Some Dir →
  save_error env (output_pptx args) f' = None →
  let prs := {| slide_width := cx; slide_height := cy;
                slides := slide_of args cx cy <$> seq 0 N |} in
  let saved := <[output_pptx args := File]> f' in
  let final := if retain_image_files args then saved
               else after_rmtree env false (temp_dir_of args) saved in
  main env fuel args w
  = Done (Ret tt)
      (Build_world final (level_of args)
         (events w ++ rasterize_events args
          ++ flat_map (λ i, info args (msg_adding args i)) (seq 0 N)
          ++ [EvSave (output_pptx args) prs]
          ++ info args (msg_created args N)
          ++ cleanup_events env args saved))
  ∧ status_of (main env fuel args w) = Some 0
  ∧ (retain_image_files args = true →
     ∀ i, (i < N)%nat → final !! image_filename_of args i = Some File)
  ∧ (retain_image_files args = false →
     rmtree_error env false (temp_dir_of args) saved = None →
     ∀ k, in_tree (temp_dir_of args) k = true → final !! k = None).
Proof.
  intros Hras Hcan Hpages Hfuel Hout Hsave prs saved final.
  rewrite (main_with_pages env fuel args w f' cx cy N) by done.
  rewrite main_save_cleanup_run. cbn zeta. unfold isdir.
  rewrite bool_decide_eq_false_2 by done. rewrite Hsave.
  split; [|split; [done|split]].
  - subst prs saved final. by rewrite <- !app_assoc.
  - subst final. intros -> i Hi. subst saved.
    destruct (decide (output_pptx args = image_filename_of args i)) as [->|Hne].
    + apply lookup_insert_eq.
    + rewrite lookup_insert_ne by done. apply Hpages. lia.
  - subst final. intros -> Hok k Hk. unfold after_rmtree. rewrite Hok.
    by apply remove_tree_lookup.
Qed.

Lemma successful_run_witness :
  let args := Deck.args in
  let f' := Deck.pages (<["deck_temp" := Dir]> (fs Deck.start)) in
  ∃ w',
    main Deck.env 5 args Deck.start = Done (Ret tt) w'
    ∧ status_of (main Deck.env 5 args Deck.start) = Some 0
    ∧ fs w' !! "deck_temp" = None
    ∧ fs w' !! "deck_temp/page-0.jpg" = None
    ∧ fs w' !! "deck.pptx" = Some File.
Proof.
  intros args f'.
  destruct (successful_run Deck.env 5 args Deck.start f' 12191969 6858000 3)
    as (Hmain & Hst & _ & Hgone).
  - repeat split; vm_compute; reflexivity.
  - exists (PyFloat.lit 133333 (-4)), (PyFloat.lit 75 (-1)).
    repeat split; vm_compute; reflexivity.
  - split.
    + intros [|[|[|i]]] Hi; [split; vm_compute; reflexivity ..|lia].
    + vm_compute. discriminate.
  - lia.
  - vm_compute. discriminate.
  - vm_compute. reflexivity.
  - eexists. split; [exact Hmain|]. split; [exact Hst|]. cbn [fs].
    split; [apply Hgone; vm_compute; reflexivity|].
    split; [apply Hgone; vm_compute; reflexivity|].
    vm_compute. reflexivity.
Defined.

(** X7: when, at the end of an otherwise successful run without
    [--retain-image-files], [rmtree] fails, the error is caught: the last
    record is the warning "Could not remove '<path>': <error>", [main]
    returns and the exit status is still 0; the file system is what the
    failed removal left. *)
Theorem failed_cleanup_is_a_warning (env : Env) (fuel : nat) (args : Args)
    (w : world) (f' f'' : gmap string node) (cx cy : Z) (N : nat) (e : string) :
  rasterizes env args w f' →
  canvas env args cx cy →
  page_run env args f' 0 N →
  (N < fuel)%nat →
  f' !! output_pptx args ≠ Some Dir →
  save_error env (output_pptx args) f' = None →
  retain_image_files args = false →
  rmtree_error env false (temp_dir_of args) (<[output_pptx args := File]> f')
  = Some (e, f'') →
  ∃ evs,
    main env fuel args w
    = Done (Ret tt)
        (Build_world f'' (level_of args)
           (events w ++ evs
            ++ [EvRmtree (temp_dir_of args) false;
                EvLog WARNING (msg_not_removed args e)]))
    ∧ status_of (main env fuel args w) = Some 0.
Proof.
  intros Hras Hcan Hpages Hfuel Hout Hsave Hretain Hrm.
  rewrite (main_with_pages env fuel args w f' cx cy N) by done.
  rewrite main_save_cleanup_run. cbn zeta. unfold isdir.
  rewrite bool_decide_eq_false_2 by done. rewrite Hsave.
  unfold cleanup_events, after_rmtree. rewrite Hretain, Hrm.
  exists (rasterize_events args
          ++ flat_map (λ i, info args (msg_adding args i)) (seq 0 N)
          ++ [EvSave (output_pptx args)
                {| slide_width := cx; slide_height := cy;
                   slides := slide_of args cx cy <$> seq 0 N |}]
          ++ info args (msg_created args N) ++ info args (msg_removing args)).
  split; [|done]. by rewrite <- !app_assoc.
Qed.

Lemma failed_cleanup_is_a_warning_witness :
  let args := Deck.args in
  ∃ w' evs,
    main Cases.env_sticky 5 args Deck.start = Done (Ret tt) w'
    ∧ events w'
      = evs ++ [EvRmtree "deck_temp" false;
                EvLog WARNING
                  (msg_not_removed args "[Errno 16] Device or resource busy: 'deck_temp'")]
    ∧ fs w' !! "deck_temp" = Some Dir
    ∧ status_of (main Cases.env_sticky 5 args Deck.start) = Some 0.
Proof.
  intros args.
  destruct (failed_cleanup_is_a_warning Cases.env_sticky 5 args Deck.start
              (Deck.pages (<["deck_temp" := Dir]> (fs Deck.start)))
              (<["deck.pptx" := File]>
                 (Deck.pages (<["deck_temp" := Dir]> (fs Deck.start))))
              12191969 6858000 3
              "[Errno 16] Device or resource busy: 'deck_temp'")
    as (evs & Hmain & Hst).
  - repeat split; vm_compute; reflexivity.
  - exists (PyFloat.lit 133333 (-4)), (PyFloat.lit 75 (-1)).
    repeat split; vm_compute; reflexivity.
  - split.
    + intros [|[|[|i]]] Hi; [split; vm_compute; reflexivity ..|lia].
    + vm_compute. discriminate.
  - lia.
  - vm_compute. discriminate.
  - vm_compute. reflexivity.
  - reflexivity.
  - vm_compute. reflexivity.
  - eexists _, evs. split; [exact Hmain|]. cbn [events fs].
    split; [reflexivity|]. split; [vm_compute; reflexivity|exact Hst].
Defined.

(** ** What every run does, and what it never does *)

(** X8: whatever the environment, a run calls [save] at most once, on the
    output path, and the presentation it saves is made of one slide per
    image of index 0 to n-1, in that order, for some n: each slide has the
    blank layout and a single picture at the origin with the width and the
    height of the canvas. *)
Theorem saved_presentation_shape (env : Env) (fuel : nat) (args : Args)
    (w w' : world) (r : res unit) :
  main env fuel args w = Done r w' →
  ∃ evs, events w' = events w ++ evs
         ∧ (occurrences is_saving evs ≤ 1)%nat
         ∧ ∀ p prs, EvSave p prs ∈ evs →
             p = output_pptx args ∧ page_deck args prs.
Proof.
  rewrite main_after_rasterize. intros H.
  apply bind_Done_inv in H as [(e & H1 & ->)|([] & w1 & H1 & H)].
  - destruct (adds_main_rasterize env (λ e, ¬ is_save e) args)
      with (w := w) (r := @Raise unit e) (w' := w')
      as (ev1 & Hev1 & Hall1); auto.
    exists ev1. split; [done|]. rewrite no_save_occurrences by done.
    split; [lia|]. intros p prs Hin. by apply no_save_elem in Hin.
  - destruct (adds_main_rasterize env (λ e, ¬ is_save e) args)
      with (w := w) (r := Ret tt) (w' := w1)
      as (ev1 & Hev1 & Hall1); auto.
    apply after_rasterize_shape in H as (before & Hbefore & [[Hev _]|Hsaved]).
    + exists (ev1 ++ before). rewrite Hev, Hev1, <- app_assoc. split; [done|].
      assert (Forall (λ e, ¬ is_save e) (ev1 ++ before)) as Hall
        by by apply Forall_app_2.
      rewrite no_save_occurrences by done.
      split; [lia|]. intros p prs Hin. by apply no_save_elem in Hin.
    + destruct Hsaved as (prs & c & w3 & rest & Hdeck & _ & _ & _ & Hev & Hrest).
      exists (ev1 ++ before ++ [EvSave (output_pptx args) prs] ++ rest).
      rewrite Hev, Hev1, <- !app_assoc. split; [done|].
      rewrite !occurrences_app, (no_save_occurrences ev1),
        (no_save_occurrences before), (no_save_occurrences rest) by done.
      split; [rewrite occurrences_cons, occurrences_nil; simpl; lia|].
      intros p q Hin. rewrite !elem_of_app, list_elem_of_singleton in Hin.
      destruct Hin as [Hin|[Hin|[[= -> ->]|Hin]]];
        [by apply no_save_elem in Hin..|done|by apply no_save_elem in Hin].
Qed.

Lemma saved_presentation_shape_witness :
  ∃ r w' evs,
    main Deck.env 5 Deck.args Deck.start = Done r w'
    ∧ events w' = events Deck.start ++ evs
    ∧ (occurrences is_saving evs ≤ 1)%nat
    ∧ ∀ p prs, EvSave p prs ∈ evs →
        p = output_pptx Deck.args ∧ page_deck Deck.args prs.
Proof.
  assert (∃ r w', main Deck.env 5 Deck.args Deck.start = Done r w')
    as (r & w' & Hmain) by (do 2 eexists; vm_compute; reflexivity).
  destruct (saved_presentation_shape Deck.env 5 Deck.args Deck.start w' r Hmain)
    as (evs & H).
  exists r, w', evs. exact (conj Hmain H).
Defined.

(** X9: the exit status 0 has two causes only. Either [argparse] has
    printed the help and nothing was done; or [main] has returned, and then
    every step has succeeded: the PDF was there, the workspace was free and
    could be made, the tool exited with status 0, the slide size was
    accepted, the images 0 to N-1 were found and read and the image N was
    not there, the output path was not a directory and [save] succeeded, on
    the N slides of those images on the accepted canvas. *)
Theorem zero_exit_status_means_saved (env : Env) (fuel : nat)
    (cl : parse_args_result) (w w' : world) (r : res unit) :
  program env fuel cl w = Done r w' →
  exit_status r = 0 →
  (cl = HelpRequested ∧ r = Raise (SystemExit 0) ∧ w' = w)
  ∨ ∃ args f' cx cy N,
      cl = Namespace args
      ∧ r = Ret tt
      ∧ rasterizes env args w f'
      ∧ canvas env args cx cy
      ∧ page_run env args f' 0 N
      ∧ f' !! output_pptx args ≠ Some Dir
      ∧ save_error env (output_pptx args) f' = None
      ∧ events w'
        = events w ++ rasterize_events args
          ++ flat_map (λ i, info args (msg_adding args i)) (seq 0 N)
          ++ [EvSave (output_pptx args)
                {| slide_width := cx; slide_height := cy;
                   slides := slide_of args cx cy <$> seq 0 N |}]
          ++ info args (msg_created args N)
          ++ cleanup_events env args (<[output_pptx args := File]> f').
Proof.
  intros H Hst. destruct cl as [args| |]; simpl in H.
  - right. destruct r as [[]|[code|kind msg]]; [|exfalso..].
    + destruct (main_Ret env fuel args w w' H)
        as (f' & cx & cy & N & Hras & Hcan & Hpages & Hfuel & Hdir & Hsave).
      exists args, f', cx, cy, N. repeat (split; [done|]).
      rewrite (main_with_pages env fuel args w f' cx cy N) in H by done.
      rewrite main_save_cleanup_run in H. cbn zeta in H. unfold isdir in H.
      rewrite bool_decide_eq_false_2, Hsave in H by done.
      injection H as <-. cbn [events]. unfold rasterize_events.
      repeat (rewrite <- ?app_assoc; cbn [app]). done.
    + apply exits_with_main in H. subst code. done.
    + done.
  - injection H as <- <-. done.
  - injection H as <- <-. by left.
Qed.

Lemma zero_exit_status_means_saved_witness :
  ∃ w' f' cx cy N,
    program Deck.env 5 (Namespace Deck.args) Deck.start = Done (Ret tt) w'
    ∧ rasterizes Deck.env Deck.args Deck.start f'
    ∧ canvas Deck.env Deck.args cx cy
    ∧ page_run Deck.env Deck.args f' 0 N
    ∧ EvSave "deck.pptx"
        {| slide_width := cx; slide_height := cy;
           slides := slide_of Deck.args cx cy <$> seq 0 N |} ∈ events w'.
Proof.
  assert (∃ w', program Deck.env 5 (Namespace Deck.args) Deck.start
                = Done (Ret tt) w')
    as [w' Hmain] by (eexists; vm_compute; reflexivity).
  destruct (zero_exit_status_means_saved Deck.env 5 (Namespace Deck.args)
              Deck.start w' _ Hmain eq_refl)
    as [([=] & _)|(args & f' & cx & cy & N & [= <-] & _ & Hras & Hcan & Hpages
                   & _ & _ & Hev)].
  exists w', f', cx, cy, N.
  split; [exact Hmain|]. split; [exact Hras|]. split; [exact Hcan|].
  split; [exact Hpages|]. rewrite Hev, !elem_of_app, list_elem_of_singleton.
  right. right. right. by left.
Defined.

(** X10: a run only ever creates or removes the workspace path, only saves
    to the output path and only runs the conversion command: each event of a
    run is a log record, [mkdir] or [rmtree] of the workspace path, the
    command, or [save] to the output path. *)
Theorem run_events_are_allowed (env : Env) (fuel : nat) (args : Args)
    (w w' : world) (r : res unit) :
  main env fuel args w = Done r w' →
  ∃ evs, events w' = events w ++ evs ∧ Forall (allowed args) evs.
Proof.
  intros H. by apply (adds_main env (allowed args) args) in H.
Qed.

Lemma run_events_are_allowed_witness :
  ∃ w' evs,
    main Deck.env 5 Deck.args Deck.start = Done (Ret tt) w'
    ∧ events w' = events Deck.start ++ evs
    ∧ Forall (allowed Deck.args) evs.
Proof.
  assert (∃ w', main Deck.env 5 Deck.args Deck.start = Done (Ret tt) w')
    as [w' Hmain] by (eexists; vm_compute; reflexivity).
  destruct (run_events_are_allowed Deck.env 5 Deck.args Deck.start w' _ Hmain)
    as (evs & H).
  exists w', evs. exact (conj Hmain H).
Defined.

(** X11: in a process whose root logger is at its default level, [WARNING],
    when [main] starts, a run without [-v] emits no [INFO] record and leaves
    the level as it is: only warnings and errors are reported. *)
Theorem quiet_run_logs_no_info (env : Env) (fuel : nat) (args : Args)
    (w w' : world) (r : res unit) :
  logger_level w = WARNING →
  verbose args = false →
  main env fuel args w = Done r w' →
  logger_level w' = WARNING
  ∧ ∃ evs, events w' = events w ++ evs ∧ Forall not_info evs.
Proof.
  intros _ Hv. rewrite main_after_rasterize. intros H.
  apply bind_Done_inv in H as [(e & H1 & _)|([] & w1 & H1 & H)].
  - by apply main_rasterize_quiet in H1.
  - apply main_rasterize_quiet in H1 as (Hlvl & ev1 & Hev1 & Hall1); [|done].
    apply quietly_after_rasterize in H as (Hlvl' & ev2 & Hev2 & Hall2); [|done].
    split; [done|].
    exists (ev1 ++ ev2). rewrite Hev2, Hev1, <- app_assoc.
    split; [done|]. by apply Forall_app_2.
Qed.

Lemma quiet_run_logs_no_info_witness :
  logger_level Deck.start = WARNING
  ∧ verbose Deck.args = false
  ∧ ∃ w' evs,
      main Deck.env 5 Deck.args Deck.start = Done (Ret tt) w'
      ∧ logger_level w' = WARNING
      ∧ events w' = events Deck.start ++ evs ∧ Forall not_info evs.
Proof.
  split; [reflexivity|]. split; [reflexivity|].
  assert (∃ w', main Deck.env 5 Deck.args Deck.start = Done (Ret tt) w')
    as [w' Hmain] by (eexists; vm_compute; reflexivity).
  destruct (quiet_run_logs_no_info Deck.env 5 Deck.args Deck.start w' _
              eq_refl eq_refl Hmain) as (Hlvl & evs & H).
  exists w', evs. exact (conj Hmain (conj Hlvl H)).
Defined.

(** X12: the exit status of the program is 2 when [argparse] refuses the
    command line, 0 when [argparse] prints the help or when [main] returns,
    and 1 in every other case: the script itself calls [sys.exit] with the
    code 1 only, and an uncaught exception gives the status 1. *)
Theorem exit_status_by_cause (env : Env) (fuel : nat)
    (cl : parse_args_result) (w w' : world) (r : res unit) :
  program env fuel cl w = Done r w' →
  match cl with
  | UsageError => r = Raise (SystemExit 2) ∧ exit_status r = 2
  | HelpRequested => r = Raise (SystemExit 0) ∧ exit_status r = 0
  | Namespace _ =>
      (r = Ret tt ∧ exit_status r = 0)
      ∨ ((r = Raise (SystemExit 1) ∨ ∃ kind msg, r = Raise (Uncaught kind msg))
         ∧ exit_status r = 1)
  end.
Proof.
  intros H. destruct cl as [args| |]; simpl in H.
  - destruct r as [[]|[code|kind msg]]; [by left|right..].
    + apply exits_with_main in H. subst code. by split; [left|].
    + split; [right; by exists kind, msg|done].
  - by injection H as <- _.
  - by injection H as <- _.
Qed.

Lemma exit_status_by_cause_witness :
  ∃ w', program Deck.env_tool_fails 5 (Namespace Deck.args) Deck.start
        = Done (Raise (SystemExit 1)) w'
        ∧ exit_status (Raise (SystemExit 1)) = 1.
Proof.
  assert (∃ w', program Deck.env_tool_fails 5 (Namespace Deck.args) Deck.start
                = Done (Raise (SystemExit 1)) w')
    as [w' Hmain] by (eexists; vm_compute; reflexivity).
  destruct (exit_status_by_cause Deck.env_tool_fails 5 (Namespace Deck.args)
              Deck.start w' _ Hmain) as [[[=] _]|[_ Hst]].
  exists w'. exact (conj Hmain Hst).
Defined.

(** X13: a run never retries: it calls [mkdir], the conversion command,
    [save] and [rmtree] at most once each. *)
Theorem each_step_is_tried_once (env : Env) (fuel : nat) (args : Args)
    (w w' : world) (r : res unit) :
  main env fuel args w = Done r w' →
  ∃ evs, events w' = events w ++ evs
    ∧ (occurrences is_mkdir evs ≤ 1)%nat
    ∧ (occurrences is_run evs ≤ 1)%nat
    ∧ (occurrences is_saving evs ≤ 1)%nat
    ∧ (occurrences is_rmtree evs ≤ 1)%nat.
Proof.
  rewrite main_after_rasterize. intros H.
  apply bind_Done_inv in H as [(e & H1 & _)|([] & w1 & H1 & H)].
  - apply main_rasterize_counts in H1 as (evs & Hev & ? & ? & ? & ? & _).
    exists evs. repeat split; (done || lia).
  - apply main_rasterize_counts in H1
      as (ev1 & Hev1 & Hm1 & Hr1 & _ & Hs1 & Ht1).
    specialize (Ht1 eq_refl).
    apply after_rasterize_counts in H as (ev2 & Hev2 & Hm2 & Hr2 & Ht2 & Hs2).
    exists (ev1 ++ ev2). rewrite Hev2, Hev1, <- app_assoc, !occurrences_app.
    repeat split; (done || lia).
Qed.

Lemma each_step_is_tried_once_witness :
  ∃ w' evs,
    main Deck.env 5 Deck.args Deck.start = Done (Ret tt) w'
    ∧ events w' = events Deck.start ++ evs
    ∧ (occurrences is_mkdir evs ≤ 1)%nat
    ∧ (occurrences is_run evs ≤ 1)%nat
    ∧ (occurrences is_saving evs ≤ 1)%nat
    ∧ (occurrences is_rmtree evs ≤ 1)%nat.
Proof.
  assert (∃ w', main Deck.env 5 Deck.args Deck.start = Done (Ret tt) w')
    as [w' Hmain] by (eexists; vm_compute; reflexivity).
  destruct (each_step_is_tried_once Deck.env 5 Deck.args Deck.start w' _ Hmain)
    as (evs & H).
  exists w', evs. exact (conj Hmain H).
Defined.

(** X14: the [while True] loop of [main] always stops: whatever the file
    system, the presentation and the index it starts with, it ends within
    as many iterations as the file system has entries, plus one, and more
    iterations do not change its result. *)
Theorem loop_always_stops (env : Env) (args : Args) (prs : Presentation)
    (k c : nat) (w : world) :
  ∃ r w', ∀ fuel, (size (fs w) < fuel)%nat →
    add_slides env fuel args prs k c w = Done r w'.
Proof.
  destruct (some_later_image_is_missing args (fs w) k) as (n & Hn & Hmiss).
  pose proof (add_slides_ends env args n (S (size (fs w))) k c prs w
                ltac:(lia) Hmiss) as Hends.
  destruct (add_slides env (S (size (fs w))) args prs k c w)
    as [r w'|] eqn:Hloop; [|done].
  exists r, w'. intros fuel Hfuel.
  apply (add_slides_more_fuel env args (S (size (fs w))) fuel); [lia|done].
Qed.

(** X15: a slide size that parses but that [Inches] or python-pptx refuses
    (a NaN, an infinity, a dimension out of range) is not reported by
    [error_and_exit]: after a conversion that worked the run ends by an
    uncaught exception, exit status 1, without any record after those of
    the conversion, without a call of [save], and with the workspace as the
    tool left it. *)
Theorem refused_size_is_uncaught (env : Env) (fuel : nat) (args : Args)
    (w : world) (f' : gmap string node) (wi hi : spec_float) :
  rasterizes env args w f' →
  slide_size_of (slide_size args) = Some (wi, hi) →
  (¬ ∃ cx cy, canvas env args cx cy) →
  ∃ kind msg,
    main env fuel args w
    = Done (Raise (Uncaught kind msg))
        (Build_world f' (level_of args) (events w ++ rasterize_events args))
    ∧ exit_status (Raise (Uncaught kind msg)) = 1.
Proof.
  intros Hras Hp Hno. unfold main, bind.
  rewrite (main_rasterize_ok env args w f' Hras).
  destruct (main_canvas_parsed env args wi hi
              (Build_world f' (level_of args) (events w ++ rasterize_events args))
              Hp) as [Hcan|(kind & msg & ->)]; [done|].
  by exists kind, msg.
Qed.

Lemma refused_size_is_uncaught_witness :
  slide_size_of "infx7.5" = Some (S754_infinity false, PyFloat.lit 75 (-1))
  ∧ ∃ kind msg,
      main Deck.env 5 (Deck.args_with "infx7.5" false) Deck.start
      = Done (Raise (Uncaught kind msg))
          (Build_world (Deck.pages (<["deck_temp" := Dir]> (fs Deck.start)))
             WARNING
             (events Deck.start
              ++ rasterize_events (Deck.args_with "infx7.5" false))).
Proof.
  split; [vm_compute; reflexivity|].
  destruct (refused_size_is_uncaught Deck.env 5 (Deck.args_with "infx7.5" false)
              Deck.start (Deck.pages (<["deck_temp" := Dir]> (fs Deck.start)))
              (S754_infinity false) (PyFloat.lit 75 (-1)))
    as (kind & msg & Hmain & _).
  - repeat split; vm_compute; reflexivity.
  - vm_compute. reflexivity.
  - intros (cx & cy & wi & hi & Hp & Hx & _).
    vm_compute in Hp. injection Hp as <- <-. vm_compute in Hx. discriminate.
  - exists kind, msg. exact Hmain.
Defined.

(** X16: the script announces its own [sys.exit]: a run that ends by
    [sys.exit(1)] has logged exactly one [ERROR] record, as the last thing
    it did; a run that returns, or that ends by an uncaught exception, has
    logged none. When [argparse] ends the process, with status 2 or 0,
    nothing has been logged or done. *)
Theorem script_exit_is_announced (env : Env) (fuel : nat)
    (cl : parse_args_result) (w w' : world) (r : res unit) :
  program env fuel cl w = Done r w' →
  ∃ evs, events w' = events w ++ evs
    ∧ match r with
      | Raise (SystemExit code) =>
          (code = 1
           ∧ (∃ args, cl = Namespace args)
           ∧ ∃ before msg, evs = before ++ [EvLog ERROR msg]
                           ∧ Forall not_error before)
          ∨ ((cl = UsageError ∧ code = 2 ∨ cl = HelpRequested ∧ code = 0)
             ∧ evs = [])
      | _ => Forall not_error evs
      end.
Proof.
  intros H. destruct cl as [args| |]; simpl in H.
  - pose proof (announces_main env fuel args w r w' H) as (evs & Hev & Hann).
    exists evs. split; [done|].
    destruct r as [[]|[code|kind msg]]; [done| |done].
    left. apply exits_with_main in H. split; [done|]. split; [by exists args|].
    exact Hann.
  - injection H as <- <-. exists []. rewrite app_nil_r. split; [done|].
    right. split; [by left|done].
  - injection H as <- <-. exists []. rewrite app_nil_r. split; [done|].
    right. split; [by right|done].
Qed.

Lemma script_exit_is_announced_witness :
  ∃ w' before msg,
    program Deck.env_tool_fails 5 (Namespace Deck.args) Deck.start
    = Done (Raise (SystemExit 1)) w'
    ∧ events w' = events Deck.start ++ before ++ [EvLog ERROR msg]
    ∧ Forall not_error before.
Proof.
  assert (∃ w', program Deck.env_tool_fails 5 (Namespace Deck.args) Deck.start
                = Done (Raise (SystemExit 1)) w')
    as [w' Hmain] by (eexists; vm_compute; reflexivity).
  destruct (script_exit_is_announced Deck.env_tool_fails 5
              (Namespace Deck.args) Deck.start w' _ Hmain)
    as (evs & Hev & [(_ & _ & before & msg & -> & Hall)|([[[=] _]|[[=] _]] & _)]).
  exists w', before, msg. exact (conj Hmain (conj Hev Hall)).
Defined.

(** X17: an image that python-pptx cannot read ends the run by an uncaught
    exception, after the slides of the images before it were made: nothing
    is saved, no [ERROR] record is logged, and the workspace stays as the
    tool left it, even without [--retain-image-files]. *)
Theorem unreadable_image_is_uncaught (env : Env) (fuel : nat) (args : Args)
    (w : world) (f' : gmap string node) (cx cy : Z) (n : nat) (msg : string) :
  rasterizes env args w f' →
  canvas env args cx cy →
  unreadable_at env args f' 0 n msg →
  (n < fuel)%nat →
  main env fuel args w
  = Done (Raise (Uncaught "Exception" msg))
      (Build_world f' (level_of args)
         (events w ++ rasterize_events args
          ++ flat_map (λ i, info args (msg_adding args i)) (seq 0 (S n)))).
Proof.
  intros Hras Hcan Hbad Hfuel. unfold main, bind.
  rewrite (main_rasterize_ok env args w f' Hras).
  rewrite (main_canvas_ok env args cx cy _ Hcan). unfold blank.
  rewrite (add_slides_unreadable env args msg n fuel 0 0 cx cy [] f' _ Hfuel Hbad).
  by rewrite <- app_assoc.
Qed.

Lemma unreadable_image_is_uncaught_witness :
  main Cases.env_bad_image 5 Deck.args Deck.start
  = Done (Raise (Uncaught "Exception"
                   "cannot identify image file 'deck_temp/page-2.jpg'"))
      (Build_world (Deck.pages (<["deck_temp" := Dir]> (fs Deck.start)))
         WARNING
         [EvMkdir "deck_temp"; EvRun (convert_cmd_of Deck.args)]).
Proof.
  rewrite (unreadable_image_is_uncaught Cases.env_bad_image 5 Deck.args
             Deck.start (Deck.pages (<["deck_temp" := Dir]> (fs Deck.start)))
             12191969 6858000 2
             "cannot identify image file 'deck_temp/page-2.jpg'").
  - vm_compute. reflexivity.
  - repeat split; vm_compute; reflexivity.
  - exists (PyFloat.lit 133333 (-4)), (PyFloat.lit 75 (-1)).
    repeat split; vm_compute; reflexivity.
  - split; [|split; vm_compute; reflexivity].
    intros [|[|i]] Hi; [split; vm_compute; reflexivity ..|lia].
  - lia.
Defined.
